(** * Diamond pricing engine: a shallow embedding and its properties

    The development follows two source files of the application:

    - [src/services/pricingService.ts]: grade normalisation, carat-band
      search, log-space interpolation, confidence and range estimation,
      market-depth resolution and the quote orchestrator;
    - [src/services/openFacetAPI.ts]: the three cached dataset fetchers.

    It goes on to their neighbours: the cache control and the scan
    history storage that come with the fetchers, and, from
    [src/store/hooks.ts], the pricing thunk of the diamond slice, the
    reducers of its pricing fields and the price estimate from the cut
    grade.

    Modelling conventions.

    - A JavaScript [number] is a rational ([Q]) with exact arithmetic: the
      values [NaN] and the infinities, and binary rounding, are left out.
      Strict equality of numbers is [Qeq_bool]. Millisecond clock readings
      and values produced by [Math.round] / [Math.floor] are integers ([Z]).
    - [undefined] in a position typed [number] or [string] is [None].
    - A JavaScript string is a [string] of 8-bit characters; [<] on strings
      is the lexicographic order on character codes ([String.ltb]).
    - Objects used as dictionaries are [gmap string _]; only own keys are
      looked up (nothing is inherited from a prototype).
    - [throw new Error(msg)] is the result [Throw e], where [e] names the
      [throw] site and carries the values its message interpolates.
    - The asynchronous fetchers are functions on an explicit [World]
      (persistent storage, clock, network, log of requests issued).
      [AsyncStorage] reads and writes succeed, [JSON.stringify] followed
      by [JSON.parse] gives the value back, and the clock stands still
      while one operation runs. The module [Faulty] has the same
      fetchers and quote on a storage whose reads and writes can be
      rejected and whose texts may fail to parse; without faults they
      are those of the [World].
    - [Promise.all] is rejected with the reason of the promise that is
      rejected first in time; the network fixes the instants at which the
      promises settle.
    - Runtime library functions whose text is not part of the repository
      ([Math.exp], [Number.prototype.toFixed], [Number.prototype.toString],
      [parseFloat], [Date] parsing) are parameters of the development. *)

From Stdlib Require Import ZArith QArith Qround Qminmax Qabs Reals Qreals Psatz.
From Stdlib Require Import String Ascii List Bool DecimalString Sorted.
From stdpp Require Import gmap strings list fin_maps.

Import ListNotations.
Local Open Scope string_scope.
Local Open Scope Q_scope.

(** ** Errors and results of code that may throw

    Every [throw new Error(...)] site of the two files has a constructor
    that carries the values its message interpolates. *)

Inductive JsError : Type :=
| NetworkFailure (reason : string)
    (* [fetch] itself rejected *)
| FetchStatus (what : string) (status : Z) (statusText : string)
    (* `Failed to fetch ${what}: ${status} ${statusText}` *)
| InvalidBody
    (* [response.json()] rejected *)
| NoCachedData (what : string)
    (* `Failed to fetch ${what} and no cached data available` *)
| UnableToFindCaratBands (caratWeight : Q)
    (* `Unable to find carat bands for ${caratWeight}` *)
| NoDataForCaratBand (caratBand : option Q) (caratKey : string)
    (* `No data for carat band ${caratBand} (key: ${caratKey}). ...` *)
| ColorNotFound (colorGrade : string)
    (* `Color grade ${colorGrade} not found in matrix. ...` *)
| ClarityNotFound (clarityGrade : string)
    (* `Clarity grade ${clarityGrade} not found in matrix. ...` *)
| IndexOutOfBounds (flatIndex len : nat)
    (* `Index ${flatIndex} out of bounds for array length ${len}` *)
| NotANumber
    (* no [throw]: the value computed is [NaN], outside the number model *)
| PricingFailed (cause : JsError)
    (* `Failed to calculate price: ${error.message}` *)
| StorageRejected (operation : string)
    (* [AsyncStorage.getItem] or [AsyncStorage.setItem] rejects *)
| JsonSyntaxError.
    (* [JSON.parse] throws on the text that was read *)

Inductive Result (A : Type) : Type :=
| Ok (a : A)
| Throw (e : JsError).
Arguments Ok {A} a.
Arguments Throw {A} e.

Definition is_ok {A} (r : Result A) : bool :=
  match r with Ok _ => true | Throw _ => false end.

Definition rbind {A B} (r : Result A) (k : A -> Result B) : Result B :=
  match r with Ok a => k a | Throw e => Throw e end.

(** ** Strings *)

Module Str.

(** [String.prototype.toUpperCase] / [toLowerCase] on the ASCII letters. *)
Definition upper_char (c : ascii) : ascii :=
  let n := nat_of_ascii c in
  if (Nat.leb 97 n && Nat.leb n 122)%bool then ascii_of_nat (n - 32) else c.

Definition lower_char (c : ascii) : ascii :=
  let n := nat_of_ascii c in
  if (Nat.leb 65 n && Nat.leb n 90)%bool then ascii_of_nat (n + 32) else c.

Fixpoint map_chars (f : ascii -> ascii) (s : string) : string :=
  match s with
  | EmptyString => EmptyString
  | String c r => String (f c) (map_chars f r)
  end.

Definition toUpperCase : string -> string := map_chars upper_char.
Definition toLowerCase : string -> string := map_chars lower_char.

(** The relational operators on strings. [a > b] is [b < a]. *)
Definition lt (a b : string) : bool := String.ltb a b.
Definition gt (a b : string) : bool := String.ltb b a.

(** The order the two operators decide. *)
Definition le (a b : string) : Prop := String.leb a b = true.

(** A single upper-case letter, ["A"] to ["Z"]. *)
Definition is_upper_letter (s : string) : bool :=
  match s with
  | String c EmptyString =>
      let n := nat_of_ascii c in (Nat.leb 65 n && Nat.leb n 90)%bool
  | _ => false
  end.

(** [a || b] where [a] is a string or [undefined]. *)
Definition or_else (a : option string) (b : string) : string :=
  match a with
  | Some s => if String.eqb s "" then b else s
  | None => b
  end.

End Str.

(** ** Grade normaliser *)

(** [colorMap] inside [normalizeColorGrade]. *)
Definition colorMap : gmap string string :=
  list_to_map
    [ ("Colorless", "E"); ("Near Colorless", "H"); ("Faint", "L");
      ("Light", "M");
      ("D-F", "E"); ("G-J", "H"); ("K-M", "L"); ("N-R", "M"); ("S-Z", "M") ].

(** [normalizeColorGrade(colorGrade, availableGrades?)]. *)
Definition normalizeColorGrade
    (colorGrade : string) (availableGrades : option (list string)) : string :=
  let normalizedGrade :=
    Str.or_else (colorMap !! colorGrade) (Str.toUpperCase colorGrade) in
  match availableGrades with
  | Some (minGrade :: rest) =>
      let maxGrade := List.last rest minGrade in
      let normalizedGrade :=
        if Str.lt normalizedGrade minGrade then minGrade else normalizedGrade in
      let normalizedGrade :=
        if Str.gt normalizedGrade maxGrade then maxGrade else normalizedGrade in
      normalizedGrade
  | _ => normalizedGrade
  end.

(** [mapShapeToPricingCategory]. *)
Inductive PricingCategory := round | fancy.

Definition mapShapeToPricingCategory (shape : string) : PricingCategory :=
  let shapeLower := Str.toLowerCase shape in
  if (String.eqb shapeLower "round" || String.eqb shapeLower "brilliant")%bool
  then round else fancy.

Definition DEFAULT_CLARITY : string := "VS2".

(** ** Numbers and arrays *)

Module Num.

(** [a < b], [a > b] and [a === b] on numbers. *)
Definition lt (a b : Q) : bool := negb (Qle_bool b a).
Definition gt (a b : Q) : bool := lt b a.
Definition strict_eq (a b : Q) : bool := Qeq_bool a b.

(** The same comparisons when the right operand may be [undefined]:
    [undefined] converts to [NaN] and the comparison is false. *)
Definition lt_u (a : Q) (b : option Q) : bool :=
  match b with Some y => lt a y | None => false end.
Definition gt_u (a : Q) (b : option Q) : bool :=
  match b with Some y => gt a y | None => false end.

(** A number in a condition: [0] is the one falsy rational. *)
Definition truthy (a : Q) : bool := negb (Qeq_bool a 0).

(** [Math.round] rounds half-way cases up; [Math.floor]; [Math.max]. *)
Definition Math_round (x : Q) : Z := Qfloor (x + (1 # 2)).
Definition Math_floor (x : Q) : Z := Qfloor x.
Definition Math_max (a b : Q) : Q := if Qle_bool a b then b else a.

End Num.

Module Arr.

(** [a[i]] for an integer [i]: [undefined] outside [0 .. length-1]. *)
Definition at_ {A} (a : list A) (i : Z) : option A :=
  if (i <? 0)%Z then None else a !! Z.to_nat i.

(** [a.indexOf(x)] on an array of strings: [None] stands for [-1]. *)
Fixpoint indexOf (a : list string) (x : string) : option nat :=
  match a with
  | [] => None
  | y :: r => if String.eqb y x then Some 0%nat
              else option_map S (indexOf r x)
  end.

(** [a.includes(x)] on an array of numbers. *)
Definition includes (a : list Q) (x : Q) : bool :=
  existsb (fun y => Num.strict_eq y x) a.

(** [a.sort((x, y) => x - y)]: the stable ascending sort. *)
Fixpoint insert (x : Q) (a : list Q) : list Q :=
  match a with
  | [] => [x]
  | y :: r => if Qle_bool x y then x :: y :: r else y :: insert x r
  end.

Definition sort (a : list Q) : list Q := foldr insert [] a.

End Arr.

(** ** Carat-band interpolator *)

(** The [for] loop of [findCaratBands]: the first adjacent pair
    [bands[i] < caratWeight < bands[i + 1]], if there is one. *)
Fixpoint findBracket (caratWeight : Q) (bands : list Q) : option (Q * Q) :=
  match bands with
  | lo :: ((hi :: _) as rest) =>
      if (Num.lt lo caratWeight && Num.lt caratWeight hi)%bool
      then Some (lo, hi)
      else findBracket caratWeight rest
  | _ => None
  end.

(** [findCaratBands(caratWeight, availableBands)]. A component of the
    returned pair is [None] where the source reads past the array. *)
Definition findCaratBands (caratWeight : Q) (availableBands : list Q)
  : Result (option Q * option Q) :=
  let bands := Arr.sort availableBands in
  let len := Z.of_nat (length bands) in
  if Arr.includes bands caratWeight then
    Ok (Some caratWeight, Some caratWeight)
  else
    match findBracket caratWeight bands with
    | Some (lo, hi) => Ok (Some lo, Some hi)
    | None =>
        if Num.lt_u caratWeight (Arr.at_ bands 0) then
          Ok (Arr.at_ bands 0, Arr.at_ bands 1)
        else if Num.gt_u caratWeight (Arr.at_ bands (len - 1)) then
          Ok (Arr.at_ bands (len - 2), Arr.at_ bands (len - 1))
        else
          Throw (UnableToFindCaratBands caratWeight)
    end.

(** Result of [interpolateLogPrice]. *)
Record Interpolation := {
  interpolatedLogPrice : Q;
  lambda : Q
}.

(** [interpolateLogPrice(logPrice1, logPrice2, caratWeight, caratBand1,
    caratBand2)]. *)
Definition interpolateLogPrice
    (logPrice1 logPrice2 caratWeight caratBand1 caratBand2 : Q)
  : Interpolation :=
  if Num.strict_eq caratBand1 caratBand2 then
    {| interpolatedLogPrice := logPrice1; lambda := 0 |}
  else
    let lambda := (caratWeight - caratBand1) / (caratBand2 - caratBand1) in
    let interpolatedLogPrice :=
      (1 - lambda) * logPrice1 + lambda * logPrice2 in
    {| interpolatedLogPrice := interpolatedLogPrice; lambda := lambda |}.

(** ** Confidence and range estimator *)

Record PriceRange := {
  min : Z;
  max : Z
}.

(** The [spread] local of [calculatePriceRange]. *)
Definition rangeSpread (confidence : Q) : Q :=
  let baseSpread := 5 # 100 in
  let confidenceFactor := (100 - confidence) / 100 in
  baseSpread + confidenceFactor * (10 # 100).

(** [calculatePriceRange(totalPrice, confidence)]. *)
Definition calculatePriceRange (totalPrice confidence : Q) : PriceRange :=
  let spread := rangeSpread confidence in
  {| min := Num.Math_round (totalPrice * (1 - spread));
     max := Num.Math_round (totalPrice * (1 + spread)) |}.

(** The local [confidence] of [calculateConfidence] just before the final
    [Math.max]. *)
Definition penalisedConfidence
    (hasExactCaratBand : bool) (marketDepth dataAgeHours : Q) : Q :=
  let confidence := 100 in
  let confidence :=
    if negb hasExactCaratBand then confidence - 10 else confidence in
  let confidence :=
    if Num.lt marketDepth 50 then confidence - 15
    else if Num.lt marketDepth 200 then confidence - 5
    else confidence in
  let confidence :=
    if Num.gt dataAgeHours 12 then confidence - 10
    else if Num.gt dataAgeHours 6 then confidence - 5
    else confidence in
  confidence.

(** [calculateConfidence(hasExactCaratBand, marketDepth, dataAgeHours)]. *)
Definition calculateConfidence
    (hasExactCaratBand : bool) (marketDepth dataAgeHours : Q) : Q :=
  Num.Math_max
    (penalisedConfidence hasExactCaratBand marketDepth dataAgeHours) 50.

(** ** Market data (the response shapes of [openFacetAPI.ts]) *)

Record DCXSpec := {
  spec_carat : Q;
  spec_clarity : string;
  spec_color : string;
  spec_cut : string;
  spec_log : Q;
  spec_per_carat : Q;
  spec_price : Q;
  spec_weight : Q
}.

Record DCXIndexResponse := {
  dcx : Q;
  specs : list DCXSpec;
  trend : Q;
  index_ts : string
}.

(** [s] holds two array lengths, hence naturals. *)
Record PriceMatrixResponse := {
  l : gmap string (list Q);
  c : list string;
  r : list string;
  s : nat * nat;
  matrix_ts : string
}.

(** The three tables are read with [?.], so each may be absent. *)
Record MarketDepthResponse := {
  clarity : option (gmap string (gmap string Q));
  color : option (gmap string (gmap string Q));
  colclar : option (gmap string (gmap string Q));
  depth_ts : string
}.

Record CachedData (T : Type) := {
  data : T;
  timestamp : Z;
  expiresAt : Z
}.
Arguments data {T} _.
Arguments timestamp {T} _.
Arguments expiresAt {T} _.

(** ** Functions of the JavaScript runtime taken as parameters *)

Class JsRuntime := {
  Math_exp : Q -> Q;
  Number_toFixed1 : Q -> string;     (* [Number(x).toFixed(1)] *)
  Number_toString : Q -> string;     (* [x.toString()] *)
  parseFloat : string -> Q;
  Date_getTime : string -> Z         (* [new Date(ts).getTime()] *)
}.

(** ** Grid lookup and market depth *)

(** [getLogPrice(matrix, caratBand, colorGrade, clarityGrade)]. The band
    is [None] when [findCaratBands] handed over an [undefined]; the key is
    then the text of [NaN]. The lookup [flatArray !! flatIndex] is [None]
    exactly when [flatIndex >= flatArray.length], the source's test. *)
Definition getLogPrice {rt : JsRuntime}
    (matrix : PriceMatrixResponse) (caratBand : option Q)
    (colorGrade clarityGrade : string) : Result Q :=
  let caratKey :=
    match caratBand with Some b => Number_toFixed1 b | None => "NaN" end in
  match l matrix !! caratKey with
  | None => Throw (NoDataForCaratBand caratBand caratKey)
  | Some flatArray =>
      let colorIndex := Arr.indexOf (r matrix) colorGrade in
      let clarityIndex := Arr.indexOf (c matrix) clarityGrade in
      match colorIndex, clarityIndex with
      | None, _ => Throw (ColorNotFound colorGrade)
      | Some _, None => Throw (ClarityNotFound clarityGrade)
      | Some colorIndex, Some clarityIndex =>
          let '(numRows, numCols) := s matrix in
          let flatIndex := (colorIndex * numCols + clarityIndex)%nat in
          match flatArray !! flatIndex with
          | None => Throw (IndexOutOfBounds flatIndex (length flatArray))
          | Some logPrice => Ok logPrice
          end
      end
  end.

(** [table?.[outer]?.[inner]]. *)
Definition nested (table : option (gmap string (gmap string Q)))
    (outer inner : string) : option Q :=
  match table with
  | None => None
  | Some t => match t !! outer with None => None | Some row => row !! inner end
  end.

(** A looked-up count in a condition: [undefined] and [0] are falsy. *)
Definition resolved (d : option Q) : bool :=
  match d with Some n => Num.truthy n | None => false end.

(** [getMarketDepth(depthData, caratWeight, colorGrade, clarityGrade)].
    Nothing inside the source's [try] can throw here, so its [catch] arm
    (which returns [0]) has no counterpart. *)
Definition getMarketDepth {rt : JsRuntime}
    (depthData : MarketDepthResponse) (caratWeight : Q)
    (colorGrade clarityGrade : string) : Q :=
  let caratKey := Number_toString caratWeight in
  let colorClarityDepth := nested (colclar depthData) colorGrade clarityGrade in
  if resolved colorClarityDepth then default 0 colorClarityDepth
  else
    let clarityDepth := nested (clarity depthData) caratKey clarityGrade in
    if resolved clarityDepth then default 0 clarityDepth
    else
      let colorDepth := nested (color depthData) caratKey colorGrade in
      if resolved colorDepth then default 0 colorDepth
      else 0.

(** ** Market-data cache and client ([openFacetAPI.ts]) *)

Definition CACHE_EXPIRY_HOURS : Z := 24.

(** Persistent storage: one slot per key of [CACHE_KEYS]. *)
Record Storage := {
  MATRIX : option (CachedData PriceMatrixResponse);
  INDEX : option (CachedData DCXIndexResponse);
  DEPTH : option (CachedData MarketDepthResponse)
}.

(** What the data provider answers to a [GET]. *)
Inductive Response (T : Type) : Type :=
| Rejected (reason : string)                    (* [fetch] rejects *)
| NotOk (status : Z) (statusText : string)      (* [response.ok] is false *)
| Garbled                                       (* [response.json()] rejects *)
| Json (body : T).
Arguments Rejected {T} reason.
Arguments NotOk {T} status statusText.
Arguments Garbled {T}.
Arguments Json {T} body.

(** The provider's answers, and the timing they lead to: [settles i] is
    the instant at which the promise at position [i] of the array handed
    to [Promise.all] settles. *)
Record Network := {
  matrix_json : Response PriceMatrixResponse;
  index_json : Response DCXIndexResponse;
  depth_json : Response MarketDepthResponse;
  settles : nat -> nat
}.

Record World := {
  storage : Storage;
  now : Z;                    (* what [Date.now()] reads *)
  network : Network;
  requests : list string      (* URLs requested so far, latest first *)
}.

(** Computations on the world that may throw. *)
Definition Async (A : Type) : Type := World -> Result A * World.

Definition ret {A} (a : A) : Async A := fun w => (Ok a, w).
Definition throw {A} (e : JsError) : Async A := fun w => (Throw e, w).
Definition bind {A B} (m : Async A) (k : A -> Async B) : Async B :=
  fun w => match m w with
           | (Ok a, w') => k a w'
           | (Throw e, w') => (Throw e, w')
           end.
Definition try_catch {A} (body : Async A) (handler : JsError -> Async A)
  : Async A :=
  fun w => match body w with
           | (Ok a, w') => (Ok a, w')
           | (Throw e, w') => handler e w'
           end.

Declare Scope async_scope.
Delimit Scope async_scope with async.
Notation "x <- m ;; k" := (bind m (fun x => k))
  (at level 100, m at next level, right associativity) : async_scope.
Notation "m ;;; k" := (bind m (fun _ => k))
  (at level 100, right associativity) : async_scope.

Definition Date_now : Async Z := fun w => (Ok (now w), w).

Definition BASE_URL : string := "https://data.openfacet.net".

(** The world once [url] has been requested. *)
Definition requested (url : string) (w : World) : World :=
  {| storage := storage w; now := now w; network := network w;
     requests := url :: requests w |}.

(** [fetch(url)] followed by the [response.ok] test and
    [response.json()], for one endpoint of the provider. *)
Definition fetch_json {T} (endpoint : Network -> Response T)
    (url what : string) : Async T :=
  fun w =>
    let w' := requested url w in
    match endpoint (network w) with
    | Rejected reason => (Throw (NetworkFailure reason), w')
    | NotOk status statusText =>
        (Throw (FetchStatus what status statusText), w')
    | Garbled => (Throw InvalidBody, w')
    | Json body => (Ok body, w')
    end.

Definition with_storage (f : Storage -> Storage) : Async unit :=
  fun w => (Ok tt, {| storage := f (storage w); now := now w;
                      network := network w; requests := requests w |}).

(** [AsyncStorage.getItem(key)] then [JSON.parse], and
    [AsyncStorage.setItem(key, JSON.stringify(entry))], per key. *)
Definition getItem_MATRIX : Async (option (CachedData PriceMatrixResponse)) :=
  fun w => (Ok (MATRIX (storage w)), w).
Definition getItem_INDEX : Async (option (CachedData DCXIndexResponse)) :=
  fun w => (Ok (INDEX (storage w)), w).
Definition getItem_DEPTH : Async (option (CachedData MarketDepthResponse)) :=
  fun w => (Ok (DEPTH (storage w)), w).

Definition setItem_MATRIX (e : CachedData PriceMatrixResponse) : Async unit :=
  with_storage (fun st =>
    {| MATRIX := Some e; INDEX := INDEX st; DEPTH := DEPTH st |}).
Definition setItem_INDEX (e : CachedData DCXIndexResponse) : Async unit :=
  with_storage (fun st =>
    {| MATRIX := MATRIX st; INDEX := Some e; DEPTH := DEPTH st |}).
Definition setItem_DEPTH (e : CachedData MarketDepthResponse) : Async unit :=
  with_storage (fun st =>
    {| MATRIX := MATRIX st; INDEX := INDEX st; DEPTH := Some e |}).

Local Open Scope async_scope.

(** [isCacheValid(cached)]. *)
Definition isCacheValid {T} (cached : option (CachedData T)) : Async bool :=
  match cached with
  | None => ret false
  | Some cached => t <- Date_now ;; ret (t <? expiresAt cached)%Z
  end.

(** [createCacheEntry(data)]. *)
Definition createCacheEntry {T} (data : T) : Async (CachedData T) :=
  now <- Date_now ;;
  ret {| data := data;
         timestamp := now;
         expiresAt := (now + CACHE_EXPIRY_HOURS * 60 * 60 * 1000)%Z |}.

(** [fetchDCXIndex(forceRefresh = false)]. *)
Definition fetchDCXIndex (forceRefresh : bool) : Async DCXIndexResponse :=
  try_catch
    (hit <- (if negb forceRefresh then
               cached <- getItem_INDEX ;;
               valid <- isCacheValid cached ;;
               ret (if valid then cached else None)
             else ret None) ;;
     match hit with
     | Some cached => ret (data cached)
     | None =>
         data <- fetch_json index_json (BASE_URL ++ "/index.json")
                   "DCX index" ;;
         cacheEntry <- createCacheEntry data ;;
         setItem_INDEX cacheEntry ;;;
         ret data
     end)
    (fun error =>
       cached <- getItem_INDEX ;;
       match cached with
       | Some cached => ret (data cached)
       | None => throw (NoCachedData "DCX index")
       end).

(** [fetchPriceMatrix(forceRefresh = false)]. *)
Definition fetchPriceMatrix (forceRefresh : bool) : Async PriceMatrixResponse :=
  try_catch
    (hit <- (if negb forceRefresh then
               cached <- getItem_MATRIX ;;
               valid <- isCacheValid cached ;;
               ret (if valid then cached else None)
             else ret None) ;;
     match hit with
     | Some cached => ret (data cached)
     | None =>
         data <- fetch_json matrix_json (BASE_URL ++ "/matrix.json")
                   "price matrix" ;;
         cacheEntry <- createCacheEntry data ;;
         setItem_MATRIX cacheEntry ;;;
         ret data
     end)
    (fun error =>
       cached <- getItem_MATRIX ;;
       match cached with
       | Some cached => ret (data cached)
       | None => throw (NoCachedData "price matrix")
       end).

(** [fetchMarketDepth(forceRefresh = false)]. *)
Definition fetchMarketDepth (forceRefresh : bool) : Async MarketDepthResponse :=
  try_catch
    (hit <- (if negb forceRefresh then
               cached <- getItem_DEPTH ;;
               valid <- isCacheValid cached ;;
               ret (if valid then cached else None)
             else ret None) ;;
     match hit with
     | Some cached => ret (data cached)
     | None =>
         data <- fetch_json depth_json (BASE_URL ++ "/depth.json")
                   "market depth" ;;
         cacheEntry <- createCacheEntry data ;;
         setItem_DEPTH cacheEntry ;;;
         ret data
     end)
    (fun error =>
       cached <- getItem_DEPTH ;;
       match cached with
       | Some cached => ret (data cached)
       | None => throw (NoCachedData "market depth")
       end).

(** ** Pricing orchestrator *)

Record QuoteDetails := {
  caratBand1 : Q;
  caratBand2 : Q;
  interpolationFactor : Q;
  clarityUsed : string;
  colorUsed : string;
  shapeUsed : PricingCategory
}.

Record DiamondPriceQuote := {
  perCaratPrice : Z;
  totalPrice : Z;
  priceRange : PriceRange;
  dcxIndex : Q;
  trend24h : Q;
  confidence : Q;
  marketDepth : option Q;
  quoteTimestamp : Z;
  _details : option QuoteDetails
}.

(** What [Promise.all] settles with: the values when every promise is
    fulfilled, and otherwise the reason of the promise that is rejected
    first in time. Of two promises rejected at the same instant, the one
    earlier in the array counts as the first. *)
Definition rejection {A} (position : nat) (r : Result A)
  : list (nat * JsError) :=
  match r with Ok _ => [] | Throw e => [(position, e)] end.

Definition earliest (settles : nat -> nat) (first second : nat * JsError)
  : nat * JsError :=
  if (settles (fst second) <? settles (fst first))%nat then second
  else first.

Definition Promise_all {A B C} (settles : nat -> nat)
    (ra : Result A) (rb : Result B) (rc : Result C) : Result (A * B * C) :=
  match (rejection 0 ra ++ rejection 1 rb ++ rejection 2 rc)%list with
  | [] => rbind ra (fun x => rbind rb (fun y => rbind rc (fun z =>
            Ok (x, y, z))))
  | r :: rest => Throw (snd (fold_left (earliest settles) rest r))
  end.

(** [await Promise.all([a, b, c])]. The three computations are started
    in array order and touch different storage keys; each is run to its
    end, also when another one has been rejected. *)
Definition Promise_all3 {A B C} (a : Async A) (b : Async B) (c : Async C)
  : Async (A * B * C) :=
  fun w =>
    let '(ra, w1) := a w in
    let '(rb, w2) := b w1 in
    let '(rc, w3) := c w2 in
    (Promise_all (settles (network w)) ra rb rc, w3).

Definition lift {A} (r : Result A) : Async A := fun w => (r, w).

(** The statements of [calculateDiamondPrice] that follow the
    [await Promise.all(...)], inside its [try]. When a band is [undefined]
    and the grid nevertheless has the key ["NaN"], the source goes on with
    [NaN] prices; the model stops there with [NotANumber]. *)
Definition priceFromData {rt : JsRuntime}
    (caratWeight : Q) (colorGrade shape : string)
    (clarityGrade : option string)
    (matrixData : PriceMatrixResponse) (indexData : DCXIndexResponse)
    (depthData : MarketDepthResponse) : Async DiamondPriceQuote :=
  let normalizedColor :=
    normalizeColorGrade colorGrade (Some (r matrixData)) in
  let usedClarity := Str.or_else clarityGrade DEFAULT_CLARITY in
  let shapeCategory := mapShapeToPricingCategory shape in
  let availableBands :=
    Arr.sort (map parseFloat (map_to_list (l matrixData)).*1) in
  found <- lift (findCaratBands caratWeight availableBands) ;;
  let '(caratBand1, caratBand2) := found in
  logPrice1 <-
    lift (getLogPrice matrixData caratBand1 normalizedColor usedClarity) ;;
  logPrice2 <-
    lift (getLogPrice matrixData caratBand2 normalizedColor usedClarity) ;;
  match caratBand1, caratBand2 with
  | Some caratBand1, Some caratBand2 =>
      let hasExactMatch := Num.strict_eq caratBand1 caratBand2 in
      let i := interpolateLogPrice logPrice1 logPrice2 caratWeight
                 caratBand1 caratBand2 in
      let perCaratPrice := Math_exp (interpolatedLogPrice i) in
      let totalPrice := perCaratPrice * caratWeight in
      let marketDepth :=
        getMarketDepth depthData caratWeight normalizedColor usedClarity in
      let dataTimestamp := Date_getTime (matrix_ts matrixData) in
      t <- Date_now ;;
      let dataAgeHours :=
        Num.Math_floor
          (inject_Z (t - dataTimestamp) / inject_Z (1000 * 60 * 60)) in
      let confidence :=
        calculateConfidence hasExactMatch marketDepth
          (inject_Z dataAgeHours) in
      let priceRange := calculatePriceRange totalPrice confidence in
      t' <- Date_now ;;
      ret {| perCaratPrice := Num.Math_round perCaratPrice;
             totalPrice := Num.Math_round totalPrice;
             priceRange := priceRange;
             dcxIndex := dcx indexData;
             trend24h := trend indexData;
             confidence := confidence;
             marketDepth :=
               if Num.gt marketDepth 0 then Some marketDepth else None;
             quoteTimestamp := t';
             _details :=
               Some {| caratBand1 := caratBand1;
                       caratBand2 := caratBand2;
                       interpolationFactor := lambda i;
                       clarityUsed := usedClarity;
                       colorUsed := normalizedColor;
                       shapeUsed := shapeCategory |} |}
  | _, _ => throw NotANumber
  end.

(** [calculateDiamondPrice(caratWeight, colorGrade, shape, clarityGrade?)]. *)
Definition calculateDiamondPrice {rt : JsRuntime}
    (caratWeight : Q) (colorGrade shape : string)
    (clarityGrade : option string) : Async DiamondPriceQuote :=
  try_catch
    (fetched <-
        Promise_all3 (fetchPriceMatrix false) (fetchDCXIndex false)
                     (fetchMarketDepth false) ;;
     let '(matrixData, indexData, depthData) := fetched in
     priceFromData caratWeight colorGrade shape clarityGrade
       matrixData indexData depthData)
    (fun error => throw (PricingFailed error)).

(** [getConfidenceLevel(confidence)]. *)
Inductive ConfidenceLevel := high | medium | low.

Definition getConfidenceLevel (confidence : Q) : ConfidenceLevel :=
  if Qle_bool 80 confidence then high
  else if Qle_bool 65 confidence then medium
  else low.

Local Close Scope async_scope.

(** ** A sample runtime

    Concrete stand-ins for the runtime parameters, used to evaluate the
    model on closed examples: decimal rendering (with one digit after the
    point for [toFixed(1)]), a reader for unsigned decimal numerals, a
    three-term exponential series, and timestamps written as a count of
    milliseconds. *)

Module Sample.

Definition digits (z : Z) : string :=
  DecimalString.NilZero.string_of_uint (N.to_uint (Z.to_N z)).

Definition toFixed1 (x : Q) : string :=
  let n := Qfloor (Qabs x * 10 + (1 # 2)) in
  ((if Qle_bool 0 x then "" else "-") ++
   digits (n / 10) ++ "." ++ digits (n mod 10))%string.

Fixpoint fraction (fuel : nat) (num den : Z) : string :=
  match fuel with
  | O => ""
  | S fuel' =>
      if (num =? 0)%Z then ""
      else (digits (num * 10 / den)
            ++ fraction fuel' ((num * 10) mod den) den)%string
  end.

Definition toString (x : Q) : string :=
  let a := Qabs x in
  let whole := Qfloor a in
  let num := (Qnum a - whole * Z.pos (Qden a))%Z in
  ((if Qle_bool 0 x then "" else "-") ++ digits whole ++
   (if (num =? 0)%Z then ""
    else "." ++ fraction 17 num (Z.pos (Qden a))))%string.

Definition readNat (t : string) : Z :=
  match DecimalString.NilZero.uint_of_string t with
  | Some u => Z.of_uint u
  | None => 0%Z
  end.

Fixpoint split_dot (t : string) : string * option string :=
  match t with
  | EmptyString => (EmptyString, None)
  | String ch rest =>
      if Ascii.eqb ch "."%char then (EmptyString, Some rest)
      else let '(a, b) := split_dot rest in (String ch a, b)
  end.

Definition parse (t : string) : Q :=
  match split_dot t with
  | (whole, None) => inject_Z (readNat whole)
  | (whole, Some frac) =>
      inject_Z (readNat whole)
      + inject_Z (readNat frac) / inject_Z (10 ^ Z.of_nat (String.length frac))
  end.

Definition exp3 (x : Q) : Q := 1 + x + x * x / 2.

#[export] Instance runtime : JsRuntime := {|
  Math_exp := exp3;
  Number_toFixed1 := toFixed1;
  Number_toString := toString;
  parseFloat := parse;
  Date_getTime := readNat
|}.

(** A grid with the bands 1.0 and 1.5, rows D and E, columns VS1 and
    VS2; an index; depth counts; and worlds around them. *)
Definition grid : PriceMatrixResponse :=
  {| l := {[ "1.0" := [9; 89 # 10; 88 # 10; 87 # 10];
             "1.5" := [94 # 10; 93 # 10; 92 # 10; 91 # 10] ]};
     c := ["VS1"; "VS2"];
     r := ["D"; "E"];
     s := (2%nat, 2%nat);
     matrix_ts := "0" |}.

Definition index : DCXIndexResponse :=
  {| dcx := 5000; specs := []; trend := 13 # 100; index_ts := "0" |}.

Definition depth : MarketDepthResponse :=
  {| clarity := Some ∅;
     color := None;
     colclar := Some {[ "D" := {[ "VS2" := 120 ]} ]};
     depth_ts := "0" |}.

Definition entry {T} (payload : T) (captured : Z) : CachedData T :=
  {| data := payload; timestamp := captured;
     expiresAt := (captured + 86400000)%Z |}.

Definition offline : Network :=
  {| matrix_json := Rejected "Network request failed";
     index_json := NotOk 503 "Service Unavailable";
     depth_json := Garbled;
     settles := fun position => position |}.

Definition online : Network :=
  {| matrix_json := Json grid; index_json := Json index;
     depth_json := Json depth; settles := fun position => position |}.

(** A grid with the single band 1.0. *)
Definition single_band_grid : PriceMatrixResponse :=
  {| l := {[ "1.0" := [9; 89 # 10; 88 # 10; 87 # 10] ]};
     c := ["VS1"; "VS2"];
     r := ["D"; "E"];
     s := (2%nat, 2%nat);
     matrix_ts := "0" |}.

Definition nothing_stored : Storage :=
  {| MATRIX := None; INDEX := None; DEPTH := None |}.

Definition all_stored (captured : Z) : Storage :=
  {| MATRIX := Some (entry grid captured);
     INDEX := Some (entry index captured);
     DEPTH := Some (entry depth captured) |}.

(** Entries captured at time 0: still valid after one hour, expired
    after 100000 seconds. *)
Definition world_valid_offline : World :=
  {| storage := all_stored 0; now := 3600000; network := offline;
     requests := [] |}.

Definition world_stale_offline : World :=
  {| storage := all_stored 0; now := 100000000; network := offline;
     requests := [] |}.

Definition world_stale_online : World :=
  {| storage := all_stored 0; now := 100000000; network := online;
     requests := [] |}.

Definition world_empty_offline : World :=
  {| storage := nothing_stored; now := 100000000; network := offline;
     requests := [] |}.

Definition world_single_band : World :=
  {| storage := nothing_stored; now := 3600000;
     network := {| matrix_json := Json single_band_grid;
                   index_json := Json index; depth_json := Json depth;
                   settles := fun position => position |};
     requests := [] |}.

End Sample.

(** ** Notions used to state the properties *)

(** The count that a table of the depth data holds at an outer and an
    inner key, if it has both. A lookup finds it when it is not [0], and
    finds nothing when the table holds no count there or holds [0]. *)
Definition holds (table : option (gmap string (gmap string Q)))
    (outer inner : string) (count : Q) : Prop :=
  exists t row,
    table = Some t /\ t !! outer = Some row /\ row !! inner = Some count.

Definition finds (table : option (gmap string (gmap string Q)))
    (outer inner : string) (count : Q) : Prop :=
  holds table outer inner count /\ ~ count == 0.

Definition finds_nothing (table : option (gmap string (gmap string Q)))
    (outer inner : string) : Prop :=
  forall count, holds table outer inner count -> count == 0.

(** The least and the greatest of the row labels [first :: rest] in the
    order of the string comparison. *)
Definition leastLabel (first : string) (rest : list string) : string :=
  fold_left (fun m x => if Str.lt x m then x else m) rest first.

Definition greatestLabel (first : string) (rest : list string) : string :=
  fold_left (fun m x => if Str.lt m x then x else m) rest first.

(** A fetch fails when [fetch] rejects, the status is not ok or the body
    cannot be read. *)
Definition failed {T} (resp : Response T) : bool :=
  match resp with Json _ => false | _ => true end.

(** The contract of a cached fetcher, clause by clause, for a fetcher
    [get], the storage slot [slot] it uses, the [endpoint] it reads and
    the [url] it requests. *)

(** A valid entry is served without a request: the world is unchanged. *)
Definition serves_valid_cache {T} (get : bool -> Async T)
    (slot : Storage -> option (CachedData T)) : Prop :=
  forall w cached,
    slot (storage w) = Some cached ->
    (now w < expiresAt cached)%Z ->
    get false w = (Ok (data cached), w).

(** A successful fetch (forced, or without a valid entry) returns the
    body and leaves in the slot an entry captured now that expires 24
    hours later, whatever the slot held. *)
Definition stores_fresh_entry {T} (get : bool -> Async T)
    (slot : Storage -> option (CachedData T))
    (endpoint : Network -> Response T) (url : string) : Prop :=
  forall forceRefresh w body,
    endpoint (network w) = Json body ->
    (forceRefresh = true \/
     forall cached, slot (storage w) = Some cached ->
                    (expiresAt cached <= now w)%Z) ->
    exists w',
      get forceRefresh w = (Ok body, w') /\
      slot (storage w') =
        Some {| data := body; timestamp := now w;
                expiresAt := (now w + 24 * 60 * 60 * 1000)%Z |} /\
      requests w' = url :: requests w.

(** After a failed fetch an entry of the slot is served, expired or not. *)
Definition serves_stale_cache {T} (get : bool -> Async T)
    (slot : Storage -> option (CachedData T))
    (endpoint : Network -> Response T) : Prop :=
  forall forceRefresh w cached,
    failed (endpoint (network w)) = true ->
    slot (storage w) = Some cached ->
    fst (get forceRefresh w) = Ok (data cached).

(** After a failed fetch and with an empty slot the fetcher throws its
    "no cached data available" error, having issued its request. *)
Definition fails_without_data {T} (get : bool -> Async T)
    (slot : Storage -> option (CachedData T))
    (endpoint : Network -> Response T) (url what : string) : Prop :=
  forall forceRefresh w,
    failed (endpoint (network w)) = true ->
    slot (storage w) = None ->
    get forceRefresh w = (Throw (NoCachedData what), requested url w).

(** The entry a fetcher serves without a request, if any; and the entry
    it stores after a successful fetch at time [t]. *)
Definition cache_hit {T} (forceRefresh : bool) (slot : option (CachedData T))
    (t : Z) : option (CachedData T) :=
  if forceRefresh then None
  else match slot with
       | Some cached => if (t <? expiresAt cached)%Z then Some cached else None
       | None => None
       end.

Definition freshEntry {T} (payload : T) (t : Z) : CachedData T :=
  {| data := payload; timestamp := t;
     expiresAt := (t + 24 * 60 * 60 * 1000)%Z |}.

(** How the orchestrator reports the outcome of its [try] body. *)
Definition reported {A} (body : Result A) : Result A :=
  match body with
  | Ok a => Ok a
  | Throw e => Throw (PricingFailed e)
  end.

(** * Further functions of the two services and of their caller *)

(** [getConfidenceColor(confidence)] of [pricingService.ts]. *)
Definition getConfidenceColor (confidence : Q) : string :=
  match getConfidenceLevel confidence with
  | high => "#10b981"
  | medium => "#f59e0b"
  | low => "#ef4444"
  end.

(** ** Cache control ([openFacetAPI.ts]) *)

Local Open Scope async_scope.

(** [clearPricingCache()]: [AsyncStorage.multiRemove] of the three keys;
    an error is logged and thrown again. *)
Definition clearPricingCache : Async unit :=
  try_catch
    (with_storage (fun _ => {| MATRIX := None; INDEX := None; DEPTH := None |}))
    (fun error => throw error).

Module CacheStatus.

(** One entry of the object [getCacheStatus] returns; [age] is
    [undefined] until the entry is found. *)
Record Entry := {
  cached : bool;
  age : option Z
}.

Record t := {
  matrix : Entry;
  index : Entry;
  depth : Entry
}.

End CacheStatus.

(** The three [if (json) { ... }] blocks of [getCacheStatus]. *)
Definition statusOf {T} (item : option (CachedData T))
  : Async CacheStatus.Entry :=
  match item with
  | None => ret {| CacheStatus.cached := false; CacheStatus.age := None |}
  | Some cached =>
      t <- Date_now ;;
      ret {| CacheStatus.cached := true;
             CacheStatus.age :=
               Some (Num.Math_floor
                       (inject_Z (t - timestamp cached)
                        / inject_Z (60 * 60 * 1000))) |}
  end.

(** [getCacheStatus()]. Nothing inside its [try] throws here. *)
Definition getCacheStatus : Async CacheStatus.t :=
  matrixJson <- getItem_MATRIX ;;
  matrix <- statusOf matrixJson ;;
  indexJson <- getItem_INDEX ;;
  index <- statusOf indexJson ;;
  depthJson <- getItem_DEPTH ;;
  depth <- statusOf depthJson ;;
  ret {| CacheStatus.matrix := matrix; CacheStatus.index := index;
         CacheStatus.depth := depth |}.

Local Close Scope async_scope.

(** ** Scan history storage (the storage service) *)

Module History.

(** The [pricingData] member of a history item. *)
Record PricingData := {
  perCaratPrice : Z;
  totalPrice : Z;
  priceRange : PriceRange;
  dcxIndex : Q;
  trend24h : Q;
  confidence : Q;
  marketDepth : option Q;
  pricedAt : Z                  (* [timestamp] *)
}.

Record HistoryItem := {
  id : string;
  timestamp : Z;
  imageUri : string;
  cutGrade : string;
  cutConfidence : Q;
  colorGrade : option string;
  colorConfidence : option Q;
  colorAllProbabilities : option (gmap string Q);
  clarityGrade : option string;
  clarityConfidence : option Q;
  clarityAllProbabilities : option (gmap string Q);
  shape : string;
  shapeConfidence : Q;
  allProbabilities : gmap string Q;
  estimatedPrice : Q;
  caratWeight : option Q;
  pricingData : option PricingData
}.

(** What [AsyncStorage] holds under [HISTORY_STORAGE_KEY]: nothing, the
    text of a list that [saveHistory] wrote, or a text that [JSON.parse]
    rejects. *)
Inductive Held : Type :=
| Absent
| Written (history : list HistoryItem)
| Unparsable.

(** The storage: [getItem] resolves when it is [readable], [setItem] and
    [removeItem] resolve when it is [writable]; otherwise they reject. *)
Record Store := {
  held : Held;
  readable : bool;
  writable : bool
}.

Inductive Error : Type :=
| GetItemRejected
| SetItemRejected
| RemoveItemRejected
| JsonSyntaxError.

Inductive Outcome (A : Type) : Type :=
| Returned (a : A)
| Thrown (e : Error).
Arguments Returned {A} a.
Arguments Thrown {A} e.

Definition IO (A : Type) : Type := Store -> Outcome A * Store.

Definition ret {A} (a : A) : IO A := fun st => (Returned a, st).
Definition throw {A} (e : Error) : IO A := fun st => (Thrown e, st).
Definition bind {A B} (m : IO A) (k : A -> IO B) : IO B :=
  fun st => match m st with
            | (Returned a, st') => k a st'
            | (Thrown e, st') => (Thrown e, st')
            end.
Definition try_catch {A} (body : IO A) (handler : Error -> IO A) : IO A :=
  fun st => match body st with
            | (Returned a, st') => (Returned a, st')
            | (Thrown e, st') => handler e st'
            end.

Definition put (value : Held) (st : Store) : Store :=
  {| held := value; readable := readable st; writable := writable st |}.

(** [AsyncStorage.getItem], [setItem] and [removeItem] on the key. *)
Definition getItem : IO Held :=
  fun st => if readable st then (Returned (held st), st)
            else (Thrown GetItemRejected, st).
Definition setItem (history : list HistoryItem) : IO unit :=
  fun st => if writable st then (Returned tt, put (Written history) st)
            else (Thrown SetItemRejected, st).
Definition removeItem : IO unit :=
  fun st => if writable st then (Returned tt, put Absent st)
            else (Thrown RemoveItemRejected, st).

(** [JSON.parse(jsonValue)] on a text that was read. *)
Definition JSON_parse (jsonValue : Held) : IO (list HistoryItem) :=
  match jsonValue with
  | Written history => ret history
  | _ => throw JsonSyntaxError
  end.

(** [saveHistory(history)]. *)
Definition saveHistory (history : list HistoryItem) : IO unit :=
  try_catch (setItem history) (fun error => throw error).

(** [loadHistory()]. *)
Definition loadHistory : IO (list HistoryItem) :=
  try_catch
    (bind getItem (fun jsonValue =>
       match jsonValue with
       | Absent => ret []
       | _ => JSON_parse jsonValue
       end))
    (fun error => ret []).

(** [clearHistory()]. *)
Definition clearHistory : IO unit :=
  try_catch removeItem (fun error => throw error).

(** [removeHistoryItem(itemId)]. *)
Definition removeHistoryItem (itemId : string) : IO unit :=
  try_catch
    (bind loadHistory (fun history =>
       let filteredHistory :=
         List.filter (fun item => negb (String.eqb (id item) itemId))
           history in
       saveHistory filteredHistory))
    (fun error => throw error).

(** What a read of the storage yields as a history: the list written,
    and the empty list when nothing is held or the read fails. *)
Definition loaded (st : Store) : list HistoryItem :=
  match readable st, held st with
  | true, Written history => history
  | _, _ => []
  end.

Definition without (itemId : string) (history : list HistoryItem)
  : list HistoryItem :=
  List.filter (fun item => negb (String.eqb (id item) itemId)) history.

End History.

(** ** The pricing thunk and its reducers (the diamond slice) *)

Module CutPrediction.
Record t := {
  id : string;
  timestamp : Z;
  imageUri : string;
  cutGrade : string;
  confidence : Q;
  allProbabilities : gmap string Q
}.
End CutPrediction.

Module ColorPrediction.
Record t := {
  id : string;
  timestamp : Z;
  imageUri : string;
  colorGrade : string;
  confidence : Q;
  allProbabilities : gmap string Q;
  giaGrades : option string;
  description : option string
}.
End ColorPrediction.

Module ClarityPrediction.
Record t := {
  id : string;
  timestamp : Z;
  imageUri : string;
  clarityGrade : string;
  confidence : Q;
  allProbabilities : gmap string Q;
  description : option string
}.
End ClarityPrediction.

Module ShapeDetection.
Record t := {
  shape : string;
  confidence : Q;
  timestamp : Z
}.
End ShapeDetection.

Module CaratPrediction.
Inductive Source := ml | manual.
Record t := {
  id : string;
  timestamp : Z;
  imageUri : string;
  caratWeight : Q;
  source : Source;
  confidence : option Q;
  predictedRange : option (Q * Q)
}.
End CaratPrediction.

Record DiamondState := {
  imageData : option string;
  cutPrediction : option CutPrediction.t;
  isPredictingCut : bool;
  cutPredictionError : option string;
  colorPrediction : option ColorPrediction.t;
  isPredictingColor : bool;
  colorPredictionError : option string;
  clarityPrediction : option ClarityPrediction.t;
  isPredictingClarity : bool;
  clarityPredictionError : option string;
  shapeDetection : option ShapeDetection.t;
  isDetectingShape : bool;
  shapeDetectionError : option string;
  caratPrediction : option CaratPrediction.t;
  isPredictingCarat : bool;
  caratPredictionError : option string;
  pricingData : option DiamondPriceQuote;
  isPricingLoading : bool;
  pricingError : option string;
  history : list History.HistoryItem;
  isLoadingHistory : bool
}.

Definition initialState : DiamondState :=
  {| imageData := None;
     cutPrediction := None; isPredictingCut := false;
     cutPredictionError := None;
     colorPrediction := None; isPredictingColor := false;
     colorPredictionError := None;
     clarityPrediction := None; isPredictingClarity := false;
     clarityPredictionError := None;
     shapeDetection := None; isDetectingShape := false;
     shapeDetectionError := None;
     caratPrediction := None; isPredictingCarat := false;
     caratPredictionError := None;
     pricingData := None; isPricingLoading := false; pricingError := None;
     history := []; isLoadingHistory := false |}.

(** [clarityMap] inside [mapClarityToGIA]. *)
Definition clarityMap : gmap string string :=
  list_to_map
    [ ("High Clarity", "VVS2"); ("Medium Clarity", "VS2");
      ("Low Clarity", "SI2") ].

(** [mapClarityToGIA(clarityCategory?)], local to the thunk. *)
Definition mapClarityToGIA (clarityCategory : option string) : option string :=
  match clarityCategory with
  | None => None
  | Some category =>
      if String.eqb category "" then None else clarityMap !! category
  end.

(** What the payload creator of a thunk ends with: the value it returns,
    or [rejectWithValue(error.message || fallback)]. The message of an
    error thrown by the pricing service is kept as the error itself; it
    is never empty, so the fallback text has no counterpart. *)
Inductive RejectValue : Type :=
| Message (text : string)
| MessageOf (e : JsError).

Inductive ThunkOutcome (A : Type) : Type :=
| Fulfilled (payload : A)
| RejectedWithValue (payload : RejectValue).
Arguments Fulfilled {A} payload.
Arguments RejectedWithValue {A} payload.

(** The payload creator of [fetchDiamondPrice], run on the slice
    [getState().diamond]. *)
Definition fetchDiamondPrice {rt : JsRuntime} (state : DiamondState)
  : World -> ThunkOutcome DiamondPriceQuote * World :=
  fun w =>
    match caratPrediction state with
    | None =>
        (RejectedWithValue (Message "Carat weight is required for pricing"),
         w)
    | Some caratPrediction =>
    match colorPrediction state with
    | None =>
        (RejectedWithValue (Message "Color grade is required for pricing"),
         w)
    | Some colorPrediction =>
    match shapeDetection state with
    | None =>
        (RejectedWithValue
           (Message "Shape detection is required for pricing"), w)
    | Some shapeDetection =>
        let clarityForPricing :=
          mapClarityToGIA
            (option_map ClarityPrediction.clarityGrade
               (clarityPrediction state)) in
        match calculateDiamondPrice
                (CaratPrediction.caratWeight caratPrediction)
                (ColorPrediction.colorGrade colorPrediction)
                (ShapeDetection.shape shapeDetection)
                clarityForPricing w with
        | (Ok priceQuote, w') => (Fulfilled priceQuote, w')
        | (Throw error, w') => (RejectedWithValue (MessageOf error), w')
        end
    end end end.

(** The actions of the slice that write the pricing fields, and their
    reducers. A rejected thunk carries the text of its payload. *)
Inductive PricingAction : Type :=
| fetchDiamondPrice_pending
| fetchDiamondPrice_fulfilled (payload : DiamondPriceQuote)
| fetchDiamondPrice_rejected (payload : string)
| clearPricingData.

Definition set_pricing (state : DiamondState)
    (data : option DiamondPriceQuote) (loading : bool)
    (error : option string) : DiamondState :=
  {| imageData := imageData state;
     cutPrediction := cutPrediction state;
     isPredictingCut := isPredictingCut state;
     cutPredictionError := cutPredictionError state;
     colorPrediction := colorPrediction state;
     isPredictingColor := isPredictingColor state;
     colorPredictionError := colorPredictionError state;
     clarityPrediction := clarityPrediction state;
     isPredictingClarity := isPredictingClarity state;
     clarityPredictionError := clarityPredictionError state;
     shapeDetection := shapeDetection state;
     isDetectingShape := isDetectingShape state;
     shapeDetectionError := shapeDetectionError state;
     caratPrediction := caratPrediction state;
     isPredictingCarat := isPredictingCarat state;
     caratPredictionError := caratPredictionError state;
     pricingData := data; isPricingLoading := loading;
     pricingError := error;
     history := history state;
     isLoadingHistory := isLoadingHistory state |}.

Definition pricingReducer (state : DiamondState) (action : PricingAction)
  : DiamondState :=
  match action with
  | fetchDiamondPrice_pending =>
      set_pricing state (pricingData state) true None
  | fetchDiamondPrice_fulfilled payload =>
      set_pricing state (Some payload) false None
  | fetchDiamondPrice_rejected payload =>
      set_pricing state None false (Some payload)
  | clearPricingData =>
      set_pricing state None false None
  end.

(** The world at another reading of the clock. *)
Definition at_time (t : Z) (w : World) : World :=
  {| storage := storage w; now := t; network := network w;
     requests := requests w |}.

(** The errors of the pricing steps proper. *)
Definition grid_error (e : JsError) : bool :=
  match e with
  | UnableToFindCaratBands _ | NoDataForCaratBand _ _ | ColorNotFound _
  | ClarityNotFound _ | IndexOutOfBounds _ _ | NotANumber => true
  | _ => false
  end.

(** A fetcher keeps what it fetched for 24 hours: after a forced fetch
    that succeeded at time [now w], an unforced call at time [t'] is
    served from the slot without a request while [t'] is less than 24
    hours later, and issues a request from then on. *)
Definition cached_for_24_hours {T} (get : bool -> Async T)
    (endpoint : Network -> Response T) (url : string) : Prop :=
  forall w body t',
    endpoint (network w) = Json body ->
    let w1 := snd (get true w) in
    ((t' < now w + 86400000)%Z ->
     get false (at_time t' w1) = (Ok body, at_time t' w1)) /\
    ((now w + 86400000 <= t')%Z ->
     requests (snd (get false (at_time t' w1))) = url :: requests w1).

(** A fetch that fails leaves the storage as it was. *)
Definition failure_keeps_storage {T} (get : bool -> Async T)
    (endpoint : Network -> Response T) : Prop :=
  forall forceRefresh w,
    failed (endpoint (network w)) = true ->
    storage (snd (get forceRefresh w)) = storage w.

(** A quote with another shape category in its details. *)
Definition with_shape (category : PricingCategory) (q : DiamondPriceQuote)
  : DiamondPriceQuote :=
  {| perCaratPrice := perCaratPrice q;
     totalPrice := totalPrice q;
     priceRange := priceRange q;
     dcxIndex := dcxIndex q;
     trend24h := trend24h q;
     confidence := confidence q;
     marketDepth := marketDepth q;
     quoteTimestamp := quoteTimestamp q;
     _details :=
       option_map
         (fun det => {| caratBand1 := caratBand1 det;
                        caratBand2 := caratBand2 det;
                        interpolationFactor := interpolationFactor det;
                        clarityUsed := clarityUsed det;
                        colorUsed := colorUsed det;
                        shapeUsed := category |})
         (_details q) |}.

(** The request a fetcher issues for a slot at time [t]: none when the
    slot holds an entry that has not expired. *)
Definition request_unless_valid {T} (slot : option (CachedData T)) (t : Z)
    (url : string) : list string :=
  match cache_hit false slot t with
  | Some _ => []
  | None => [url]
  end.

(** What [getCacheStatus] reports for a slot at time [t]: the age is in
    whole hours. *)
Definition slotStatus {T} (slot : option (CachedData T)) (t : Z)
  : CacheStatus.Entry :=
  match slot with
  | None => {| CacheStatus.cached := false; CacheStatus.age := None |}
  | Some cached =>
      {| CacheStatus.cached := true;
         CacheStatus.age := Some ((t - timestamp cached) / 3600000)%Z |}
  end.

(** The status and the fetcher agree on an entry that the fetcher
    stored: at any later reading [t'] of the clock the entry is reported
    as cached with its age in whole hours, and the fetcher serves it
    without a request exactly when that age is below 24. *)
Definition age_tells_validity {T} (get : bool -> Async T)
    (endpoint : Network -> Response T)
    (entryOf : CacheStatus.t -> CacheStatus.Entry) : Prop :=
  forall w body t',
    endpoint (network w) = Json body ->
    let w1 := at_time t' (snd (get true w)) in
    exists status,
      getCacheStatus w1 = (Ok status, w1) /\
      CacheStatus.cached (entryOf status) = true /\
      CacheStatus.age (entryOf status) = Some ((t' - now w) / 3600000)%Z /\
      (((t' - now w) / 3600000 < 24)%Z <-> get false w1 = (Ok body, w1)).

(** ** Price estimate from the cut grade (the diamond slice) *)

(** [s.includes(sub)]. *)
Fixpoint includes (s sub : string) : bool :=
  (String.prefix sub s
   || match s with
      | EmptyString => false
      | String _ rest => includes rest sub
      end)%bool.

(** [calculateEstimatedPrice(cutGrade, confidence)]. *)
Definition calculateEstimatedPrice (cutGrade : string) (confidence : Q) : Q :=
  let grade := Str.toUpperCase cutGrade in
  let basePrice :=
    if includes grade "EX" then 8000 + confidence * 20
    else if includes grade "VG" then 6000 + confidence * 15
    else if (includes grade "GD" || includes grade "GOOD")%bool
         then 4000 + confidence * 10
    else if (includes grade "F" || includes grade "FAIR")%bool
         then 2500 + confidence * 8
    else 1500 + confidence * 5 in
  inject_Z (Num.Math_round (basePrice / 100)) * 100.

(** The pricing fields of the slice are consistent when an error is
    shown only without a quote and not while loading. *)
Definition pricing_consistent (state : DiamondState) : Prop :=
  pricingError state <> None ->
  pricingData state = None /\ isPricingLoading state = false.

(** ** The fetchers and the quote on a storage that can fail

    The definitions above take two steps of the fetchers for granted.
    Here [AsyncStorage.getItem] and [AsyncStorage.setItem] may reject,
    and [JSON.parse] throws on a text that is not JSON. *)

Module Faulty.

Record Faults := {
  getItem_rejects : bool;
  setItem_rejects : bool;
  unparsable_MATRIX : bool;     (* the text under the key is not JSON *)
  unparsable_INDEX : bool;
  unparsable_DEPTH : bool
}.

Record Machine := {
  world : World;
  faults : Faults
}.

(** A computation of the world, which leaves the faults as they are. *)
Definition lift {A} (m : Async A) : Machine -> Result A * Machine :=
  fun s => let '(r, w') := m (world s) in
           (r, {| world := w'; faults := faults s |}).

Definition Task (A : Type) : Type := Machine -> Result A * Machine.

Definition ret {A} (a : A) : Task A := fun s => (Ok a, s).
Definition throw {A} (e : JsError) : Task A := fun s => (Throw e, s).
Definition bind {A B} (m : Task A) (k : A -> Task B) : Task B :=
  fun s => match m s with
           | (Ok a, s') => k a s'
           | (Throw e, s') => (Throw e, s')
           end.
Definition try_catch {A} (body : Task A) (handler : JsError -> Task A)
  : Task A :=
  fun s => match body s with
           | (Ok a, s') => (Ok a, s')
           | (Throw e, s') => handler e s'
           end.

Declare Scope task_scope.
Delimit Scope task_scope with task.
Notation "x <- m ;; k" := (bind m (fun x => k))
  (at level 100, m at next level, right associativity) : task_scope.
Notation "m ;;; k" := (bind m (fun _ => k))
  (at level 100, right associativity) : task_scope.

(** The text read under a key: it parses to an entry, or it does not. *)
Inductive Text (T : Type) : Type :=
| Entry (cached : CachedData T)
| Garbage.
Arguments Entry {T} cached.
Arguments Garbage {T}.

Definition text_of {T} (slot : option (CachedData T)) (unparsable : bool)
  : option (Text T) :=
  if unparsable then Some Garbage else option_map Entry slot.

(** [AsyncStorage.getItem(key)], per key. *)
Definition getItem_MATRIX : Task (option (Text PriceMatrixResponse)) :=
  fun s =>
    if getItem_rejects (faults s)
    then (Throw (StorageRejected "getItem"), s)
    else (Ok (text_of (MATRIX (storage (world s)))
                (unparsable_MATRIX (faults s))), s).
Definition getItem_INDEX : Task (option (Text DCXIndexResponse)) :=
  fun s =>
    if getItem_rejects (faults s)
    then (Throw (StorageRejected "getItem"), s)
    else (Ok (text_of (INDEX (storage (world s)))
                (unparsable_INDEX (faults s))), s).
Definition getItem_DEPTH : Task (option (Text MarketDepthResponse)) :=
  fun s =>
    if getItem_rejects (faults s)
    then (Throw (StorageRejected "getItem"), s)
    else (Ok (text_of (DEPTH (storage (world s)))
                (unparsable_DEPTH (faults s))), s).

(** [JSON.parse(cachedJson)]. *)
Definition JSON_parse {T} (cachedJson : Text T) : Task (CachedData T) :=
  match cachedJson with
  | Entry cached => ret cached
  | Garbage => throw JsonSyntaxError
  end.

(** [AsyncStorage.setItem(key, JSON.stringify(entry))], per key: the text
    under the key is then the text of the entry. *)
Definition setItem (store : Storage -> Storage) (reset : Faults -> Faults)
  : Task unit :=
  fun s =>
    if setItem_rejects (faults s)
    then (Throw (StorageRejected "setItem"), s)
    else (Ok tt, {| world := snd (with_storage store (world s));
                    faults := reset (faults s) |}).

Definition setItem_MATRIX (e : CachedData PriceMatrixResponse) : Task unit :=
  setItem
    (fun st => {| MATRIX := Some e; INDEX := INDEX st; DEPTH := DEPTH st |})
    (fun f => {| getItem_rejects := getItem_rejects f;
                 setItem_rejects := setItem_rejects f;
                 unparsable_MATRIX := false;
                 unparsable_INDEX := unparsable_INDEX f;
                 unparsable_DEPTH := unparsable_DEPTH f |}).
Definition setItem_INDEX (e : CachedData DCXIndexResponse) : Task unit :=
  setItem
    (fun st => {| MATRIX := MATRIX st; INDEX := Some e; DEPTH := DEPTH st |})
    (fun f => {| getItem_rejects := getItem_rejects f;
                 setItem_rejects := setItem_rejects f;
                 unparsable_MATRIX := unparsable_MATRIX f;
                 unparsable_INDEX := false;
                 unparsable_DEPTH := unparsable_DEPTH f |}).
Definition setItem_DEPTH (e : CachedData MarketDepthResponse) : Task unit :=
  setItem
    (fun st => {| MATRIX := MATRIX st; INDEX := INDEX st; DEPTH := Some e |})
    (fun f => {| getItem_rejects := getItem_rejects f;
                 setItem_rejects := setItem_rejects f;
                 unparsable_MATRIX := unparsable_MATRIX f;
                 unparsable_INDEX := unparsable_INDEX f;
                 unparsable_DEPTH := false |}).

Local Open Scope task_scope.

(** [fetchDCXIndex(forceRefresh = false)]. *)
Definition fetchDCXIndex (forceRefresh : bool) : Task DCXIndexResponse :=
  try_catch
    (hit <- (if negb forceRefresh then
               cachedJson <- getItem_INDEX ;;
               match cachedJson with
               | Some cachedJson =>
                   cached <- JSON_parse cachedJson ;;
                   valid <- lift (isCacheValid (Some cached)) ;;
                   ret (if valid then Some cached else None)
               | None => ret None
               end
             else ret None) ;;
     match hit with
     | Some cached => ret (data cached)
     | None =>
         data <- lift (fetch_json index_json (BASE_URL ++ "/index.json")
                         "DCX index") ;;
         cacheEntry <- lift (createCacheEntry data) ;;
         setItem_INDEX cacheEntry ;;;
         ret data
     end)
    (fun error =>
       cachedJson <- getItem_INDEX ;;
       match cachedJson with
       | Some cachedJson =>
           cached <- JSON_parse cachedJson ;; ret (data cached)
       | None => throw (NoCachedData "DCX index")
       end).

(** [fetchPriceMatrix(forceRefresh = false)]. *)
Definition fetchPriceMatrix (forceRefresh : bool)
  : Task PriceMatrixResponse :=
  try_catch
    (hit <- (if negb forceRefresh then
               cachedJson <- getItem_MATRIX ;;
               match cachedJson with
               | Some cachedJson =>
                   cached <- JSON_parse cachedJson ;;
                   valid <- lift (isCacheValid (Some cached)) ;;
                   ret (if valid then Some cached else None)
               | None => ret None
               end
             else ret None) ;;
     match hit with
     | Some cached => ret (data cached)
     | None =>
         data <- lift (fetch_json matrix_json (BASE_URL ++ "/matrix.json")
                         "price matrix") ;;
         cacheEntry <- lift (createCacheEntry data) ;;
         setItem_MATRIX cacheEntry ;;;
         ret data
     end)
    (fun error =>
       cachedJson <- getItem_MATRIX ;;
       match cachedJson with
       | Some cachedJson =>
           cached <- JSON_parse cachedJson ;; ret (data cached)
       | None => throw (NoCachedData "price matrix")
       end).

(** [fetchMarketDepth(forceRefresh = false)]. *)
Definition fetchMarketDepth (forceRefresh : bool)
  : Task MarketDepthResponse :=
  try_catch
    (hit <- (if negb forceRefresh then
               cachedJson <- getItem_DEPTH ;;
               match cachedJson with
               | Some cachedJson =>
                   cached <- JSON_parse cachedJson ;;
                   valid <- lift (isCacheValid (Some cached)) ;;
                   ret (if valid then Some cached else None)
               | None => ret None
               end
             else ret None) ;;
     match hit with
     | Some cached => ret (data cached)
     | None =>
         data <- lift (fetch_json depth_json (BASE_URL ++ "/depth.json")
                         "market depth") ;;
         cacheEntry <- lift (createCacheEntry data) ;;
         setItem_DEPTH cacheEntry ;;;
         ret data
     end)
    (fun error =>
       cachedJson <- getItem_DEPTH ;;
       match cachedJson with
       | Some cachedJson =>
           cached <- JSON_parse cachedJson ;; ret (data cached)
       | None => throw (NoCachedData "market depth")
       end).

(** [await Promise.all([a, b, c])]. *)
Definition Promise_all3 {A B C} (a : Task A) (b : Task B) (c : Task C)
  : Task (A * B * C) :=
  fun s =>
    let '(ra, s1) := a s in
    let '(rb, s2) := b s1 in
    let '(rc, s3) := c s2 in
    (Promise_all (settles (network (world s))) ra rb rc, s3).

(** [calculateDiamondPrice(caratWeight, colorGrade, shape, clarityGrade?)]. *)
Definition calculateDiamondPrice {rt : JsRuntime}
    (caratWeight : Q) (colorGrade shape : string)
    (clarityGrade : option string) : Task DiamondPriceQuote :=
  try_catch
    (fetched <-
        Promise_all3 (fetchPriceMatrix false) (fetchDCXIndex false)
                     (fetchMarketDepth false) ;;
     let '(matrixData, indexData, depthData) := fetched in
     lift (priceFromData caratWeight colorGrade shape clarityGrade
             matrixData indexData depthData))
    (fun error => throw (PricingFailed error)).

Local Close Scope task_scope.

(** A storage without faults, and the machine of a world on it. *)
Definition no_faults : Faults :=
  {| getItem_rejects := false; setItem_rejects := false;
     unparsable_MATRIX := false; unparsable_INDEX := false;
     unparsable_DEPTH := false |}.

Definition healthy (w : World) : Machine :=
  {| world := w; faults := no_faults |}.

(** What the [catch] block of a fetcher ends with, from the text under
    its key. *)
Definition served {T} (f : Faults) (cachedJson : option (Text T))
    (what : string) : Result T :=
  if getItem_rejects f then Throw (StorageRejected "getItem")
  else match cachedJson with
       | Some (Entry cached) => Ok (data cached)
       | Some Garbage => Throw JsonSyntaxError
       | None => Throw (NoCachedData what)
       end.

(** How the [try] block of a fetcher starts: it returns the entry read,
    goes on to the request, or throws on the read. *)
Inductive Attempt (T : Type) : Type :=
| Hit (cached : CachedData T)
| Request
| ReadThrows.
Arguments Hit {T} cached.
Arguments Request {T}.
Arguments ReadThrows {T}.

Definition attempt {T} (forceRefresh : bool) (f : Faults)
    (cachedJson : option (Text T)) (t : Z) : Attempt T :=
  if forceRefresh then Request
  else if getItem_rejects f then ReadThrows
  else match cachedJson with
       | Some (Entry cached) =>
           if (t <? expiresAt cached)%Z then Hit cached else Request
       | Some Garbage => ReadThrows
       | None => Request
       end.

End Faulty.




(** ** Sample values *)

Module Cases.

Definition item (itemId cut : string) : History.HistoryItem :=
  {| History.id := itemId; History.timestamp := 0;
     History.imageUri := "file:///scan.jpg";
     History.cutGrade := cut; History.cutConfidence := 90;
     History.colorGrade := None; History.colorConfidence := None;
     History.colorAllProbabilities := None;
     History.clarityGrade := None; History.clarityConfidence := None;
     History.clarityAllProbabilities := None;
     History.shape := "Round"; History.shapeConfidence := 95;
     History.allProbabilities := ∅;
     History.estimatedPrice := 9800;
     History.caratWeight := None;
     History.pricingData := None |}.

Definition scans : list History.HistoryItem :=
  [item "3" "EX"; item "2" "VG"; item "1" "EX"].

Definition healthy (content : History.Held) : History.Store :=
  {| History.held := content; History.readable := true;
     History.writable := true |}.

Definition read_only (content : History.Held) : History.Store :=
  {| History.held := content; History.readable := true;
     History.writable := false |}.

(** A slice on which a rejected pricing is shown. *)
Definition after_rejection : DiamondState :=
  set_pricing initialState None false (Some "Failed to calculate price").

(** Depth data whose colour-by-clarity table holds the count 0, with
    counts by carat weight. *)
Definition depth_by_carat : MarketDepthResponse :=
  {| clarity := Some {[ "1.25" := {[ "VS2" := 80 ]} ]};
     color := Some {[ "1.25" := {[ "D" := 60 ]} ]};
     colclar := Some {[ "D" := {[ "VS2" := 0 ]} ]};
     depth_ts := "0" |}.

(** The stored entries have expired and the provider answers, but the
    text under the matrix key is not JSON. *)
Definition corrupt_matrix : Faulty.Machine :=
  {| Faulty.world := Sample.world_stale_online;
     Faulty.faults :=
       {| Faulty.getItem_rejects := false; Faulty.setItem_rejects := false;
          Faulty.unparsable_MATRIX := true;
          Faulty.unparsable_INDEX := false;
          Faulty.unparsable_DEPTH := false |} |}.

End Cases.

(** * Properties *)

Local Open Scope list_scope.

(** ** Comparisons on numbers *)

Lemma Num_lt_iff (a b : Q) : Num.lt a b = true <-> a < b.
Proof.
  unfold Num.lt. rewrite negb_true_iff.
  split; intro Hab.
  - apply Qnot_le_lt. intro Hle. apply Qle_bool_iff in Hle. congruence.
  - destruct (Qle_bool b a) eqn:E; [|reflexivity].
    apply Qle_bool_iff in E. exfalso. exact (Qlt_not_le _ _ Hab E).
Qed.

Lemma Num_lt_false_iff (a b : Q) : Num.lt a b = false <-> b <= a.
Proof.
  unfold Num.lt. rewrite negb_false_iff. apply Qle_bool_iff.
Qed.

Lemma Num_gt_iff (a b : Q) : Num.gt a b = true <-> b < a.
Proof. apply Num_lt_iff. Qed.

Lemma Num_strict_eq_iff (a b : Q) : Num.strict_eq a b = true <-> a == b.
Proof. apply Qeq_bool_iff. Qed.

Lemma Num_strict_eq_false_iff (a b : Q) :
  Num.strict_eq a b = false <-> ~ a == b.
Proof.
  unfold Num.strict_eq. split.
  - apply Qeq_bool_neq.
  - intro Hne. destruct (Qeq_bool a b) eqn:E; [|reflexivity].
    apply Qeq_bool_iff in E. contradiction.
Qed.

(** Decides a closed comparison of rationals by evaluation. *)
Ltac qclosed :=
  vm_compute; first [ reflexivity | intro; discriminate ].

(** ** Confidence and range *)

Lemma rangeSpread_formula (confidence : Q) :
  rangeSpread confidence == (5 # 100) + (100 - confidence) / 100 * (10 # 100).
Proof. unfold rangeSpread. reflexivity. Qed.

Lemma rangeSpread_full_confidence : rangeSpread 100 == 5 # 100.
Proof. qclosed. Qed.

Lemma calculatePriceRange_formula (totalPrice confidence : Q) :
  calculatePriceRange totalPrice confidence =
  {| min := Num.Math_round (totalPrice * (1 - rangeSpread confidence));
     max := Num.Math_round (totalPrice * (1 + rangeSpread confidence)) |}.
Proof. reflexivity. Qed.

Lemma rangeSpread_antitone (c1 c2 : Q) :
  c1 <= c2 -> rangeSpread c2 <= rangeSpread c1.
Proof.
  intro Hle. unfold rangeSpread.
  apply Qplus_le_r. apply Qmult_le_compat_r; [|qclosed].
  apply Qmult_le_compat_r; [|qclosed].
  apply Qplus_le_r. apply Qopp_le_compat. exact Hle.
Qed.

(** C1. At confidence 50 the source's own comment promises a spread of
    15%, and so does the specification; the formula of
    [calculatePriceRange] gives 10%: on a total of 1000 the range is
    900..1100, where a 15% spread would give 850..1150. *)
Theorem price_range_at_confidence_50 :
  rangeSpread 50 == 10 # 100 /\
  ~ rangeSpread 50 == 15 # 100 /\
  calculatePriceRange 1000 50 = {| min := 900; max := 1100 |} /\
  Num.Math_round (1000 * (1 - (15 # 100))) = 850%Z /\
  Num.Math_round (1000 * (1 + (15 # 100))) = 1150%Z.
Proof.
  repeat split; try qclosed.
Qed.

(** C10. Whatever the exact-band flag, the market depth and the data age,
    the confidence is between 65 and 100, it is the penalised value itself
    (the floor at 50 of the final [Math.max] does not bind), and the spread
    of the range computed from it is at most 8.5%. *)
Theorem confidence_between_65_and_100
    (hasExactCaratBand : bool) (marketDepth dataAgeHours : Q) :
  let confidence :=
    calculateConfidence hasExactCaratBand marketDepth dataAgeHours in
  65 <= confidence /\ confidence <= 100 /\
  confidence =
    penalisedConfidence hasExactCaratBand marketDepth dataAgeHours /\
  rangeSpread confidence <= 85 # 1000.
Proof.
  unfold calculateConfidence, penalisedConfidence.
  destruct hasExactCaratBand;
    destruct (Num.lt marketDepth 50);
    destruct (Num.lt marketDepth 200);
    destruct (Num.gt dataAgeHours 12);
    destruct (Num.gt dataAgeHours 6);
    cbn [negb]; repeat split; qclosed.
Qed.

(** ** Sorting and searching the carat bands *)

Lemma Arr_insert_perm (x : Q) (a : list Q) : Arr.insert x a ≡ₚ x :: a.
Proof.
  induction a as [|y a IH]; cbn.
  - reflexivity.
  - destruct (Qle_bool x y); [reflexivity|].
    rewrite IH. apply Permutation_swap.
Qed.

Lemma Arr_sort_perm (a : list Q) : Arr.sort a ≡ₚ a.
Proof.
  induction a as [|x a IH]; cbn.
  - reflexivity.
  - rewrite Arr_insert_perm. now rewrite IH.
Qed.

Lemma Arr_sort_length (a : list Q) : length (Arr.sort a) = length a.
Proof. apply Permutation_length, Arr_sort_perm. Qed.

Lemma Arr_insert_sorted (x : Q) (a : list Q) :
  StronglySorted Qle a -> StronglySorted Qle (Arr.insert x a).
Proof.
  induction 1 as [|y a Hsorted IH Hall]; cbn.
  - repeat constructor.
  - destruct (Qle_bool x y) eqn:E.
    + apply Qle_bool_iff in E.
      constructor; [constructor; assumption|].
      constructor; [assumption|].
      eapply Forall_impl; [exact Hall|].
      intros z Hz. cbn in Hz. eapply Qle_trans; eassumption.
    + constructor; [assumption|].
      rewrite Arr_insert_perm. constructor; [|assumption].
      apply Qlt_le_weak, Num_lt_iff. unfold Num.lt. now rewrite E.
Qed.

Lemma Arr_sort_sorted (a : list Q) : StronglySorted Qle (Arr.sort a).
Proof.
  induction a as [|x a IH]; cbn.
  - constructor.
  - now apply Arr_insert_sorted.
Qed.

Lemma Arr_includes_iff (a : list Q) (x : Q) :
  Arr.includes a x = true <-> exists y, In y a /\ y == x.
Proof.
  unfold Arr.includes. rewrite existsb_exists.
  split; intros (y & Hin & Hy); exists y; split; try assumption.
  - apply Num_strict_eq_iff. exact Hy.
  - apply Num_strict_eq_iff in Hy. exact Hy.
Qed.

Lemma Arr_includes_perm (a b : list Q) (x : Q) :
  a ≡ₚ b -> Arr.includes a x = Arr.includes b x.
Proof.
  intro Hperm. apply eq_true_iff_eq. rewrite !Arr_includes_iff.
  split; intros (y & Hin & Hy); exists y; split; try assumption.
  - eapply Permutation_in; eassumption.
  - eapply Permutation_in; [symmetry|]; eassumption.
Qed.

Lemma Arr_includes_false (a : list Q) (x : Q) :
  Arr.includes a x = false <-> Forall (fun y => ~ y == x) a.
Proof.
  rewrite <- not_true_iff_false, Arr_includes_iff, List.Forall_forall.
  split.
  - intros Hno y Hin Hy. apply Hno. now exists y.
  - intros Hall (y & Hin & Hy). exact (Hall y Hin Hy).
Qed.

Lemma Arr_at_0 {A} (x : A) (a : list A) : Arr.at_ (x :: a) 0 = Some x.
Proof. reflexivity. Qed.

Lemma Arr_at_1 {A} (x y : A) (a : list A) : Arr.at_ (x :: y :: a) 1 = Some y.
Proof. reflexivity. Qed.

Lemma Arr_at_last {A} (front : list A) (x : A) :
  Arr.at_ (front ++ [x]) (Z.of_nat (length (front ++ [x])) - 1) = Some x.
Proof.
  unfold Arr.at_. rewrite length_app. cbn [length].
  replace (Z.of_nat (length front + 1) - 1)%Z with (Z.of_nat (length front))
    by lia.
  destruct (Z.ltb_spec (Z.of_nat (length front)) 0); [lia|].
  rewrite Nat2Z.id. rewrite lookup_app_r by lia.
  now rewrite Nat.sub_diag.
Qed.

Lemma Arr_at_last_but_one {A} (front : list A) (x y : A) :
  Arr.at_ (front ++ [x; y]) (Z.of_nat (length (front ++ [x; y])) - 2)
  = Some x.
Proof.
  unfold Arr.at_. rewrite length_app. cbn [length].
  replace (Z.of_nat (length front + 2) - 2)%Z with (Z.of_nat (length front))
    by lia.
  destruct (Z.ltb_spec (Z.of_nat (length front)) 0); [lia|].
  rewrite Nat2Z.id. rewrite lookup_app_r by lia.
  now rewrite Nat.sub_diag.
Qed.

(** The loop finds nothing when no band lies below the weight, or none
    above it. *)
Lemma findBracket_none_below (w : Q) (bands : list Q) :
  Forall (fun y => w <= y) bands -> findBracket w bands = None.
Proof.
  induction 1 as [|lo rest Hlo Hrest IH]; [reflexivity|].
  cbn. destruct rest as [|hi rest']; [reflexivity|].
  replace (Num.lt lo w) with false
    by (symmetry; now apply Num_lt_false_iff).
  exact IH.
Qed.

Lemma findBracket_none_above (w : Q) (bands : list Q) :
  Forall (fun y => y <= w) bands -> findBracket w bands = None.
Proof.
  induction 1 as [|lo rest Hlo Hrest IH]; [reflexivity|].
  cbn. destruct rest as [|hi rest']; [reflexivity|].
  replace (Num.lt w hi) with false.
  - rewrite andb_false_r. exact IH.
  - symmetry. apply Num_lt_false_iff. now inversion Hrest.
Qed.

(** What the loop returns is an adjacent pair around the weight. *)
Lemma findBracket_some (w : Q) (bands : list Q) (lo hi : Q) :
  findBracket w bands = Some (lo, hi) ->
  lo < w /\ w < hi /\
  exists front back, bands = front ++ lo :: hi :: back.
Proof.
  induction bands as [|b0 rest IH]; [discriminate|].
  cbn. destruct rest as [|b1 rest']; [discriminate|].
  destruct (Num.lt b0 w && Num.lt w b1)%bool eqn:E.
  - intros [= <- <-]. apply andb_true_iff in E as [E1 E2].
    apply Num_lt_iff in E1, E2. repeat split; try assumption.
    now exists [], rest'.
  - intro Hrec. destruct (IH Hrec) as (H1 & H2 & front & back & ->).
    repeat split; try assumption.
    exists (b0 :: front), back. reflexivity.
Qed.

(** The loop succeeds when the first band is below the weight, a later
    one is above it and none equals it. *)
Lemma findBracket_finds (w : Q) (rest : list Q) :
  forall b0,
    b0 < w ->
    Exists (fun y => w < y) rest ->
    Forall (fun y => ~ y == w) rest ->
    exists p, findBracket w (b0 :: rest) = Some p.
Proof.
  induction rest as [|hi rest' IH]; intros b0 Hb0 Hex Hne.
  - inversion Hex.
  - cbn [findBracket].
    destruct (Num.lt w hi) eqn:E.
    + exists (b0, hi).
      apply Num_lt_iff in Hb0. now rewrite Hb0.
    + rewrite andb_false_r.
      apply Num_lt_false_iff in E.
      inversion Hne as [|? ? Hhi Hne']; subst.
      apply IH.
      * apply Qle_lteq in E as [E|E]; [assumption|contradiction].
      * inversion Hex as [? ? Hlt|]; subst; [|assumption].
        exfalso. exact (Qlt_not_le _ _ Hlt E).
      * assumption.
Qed.

(** The sorted bands, when there are at least two, start with two bands
    and end with two bands. *)
Lemma two_bands_shape (bands : list Q) :
  (2 <= length bands)%nat ->
  (exists b0 b1 rest, bands = b0 :: b1 :: rest) /\
  (exists front h1 h0, bands = front ++ [h1; h0]).
Proof.
  intro Hlen. split.
  - destruct bands as [|b0 [|b1 rest]]; cbn in Hlen; try lia.
    now exists b0, b1, rest.
  - destruct (rev bands) as [|h0 [|h1 tail]] eqn:E.
    + apply (f_equal (@length Q)) in E. rewrite length_rev in E.
      cbn in E. lia.
    + apply (f_equal (@length Q)) in E. rewrite length_rev in E.
      cbn in E. lia.
    + exists (rev tail), h1, h0.
      rewrite <- (rev_involutive bands), E. cbn.
      now rewrite <- !app_assoc.
Qed.

Lemma sorted_above_head (b0 : Q) (rest : list Q) :
  StronglySorted Qle (b0 :: rest) -> Forall (fun y => b0 <= y) (b0 :: rest).
Proof.
  intro Hs. inversion Hs; subst. constructor; [apply Qle_refl|assumption].
Qed.

Lemma sorted_below_last (front : list Q) (h0 : Q) :
  StronglySorted Qle (front ++ [h0]) ->
  Forall (fun y => y <= h0) (front ++ [h0]).
Proof.
  induction front as [|x front IH]; cbn; intro Hs.
  - repeat constructor. apply Qle_refl.
  - inversion Hs as [|? ? Htail Hall]; subst.
    constructor; [|now apply IH].
    rewrite List.Forall_forall in Hall. apply Hall.
    apply in_or_app. right. now left.
Qed.

(** With the weight below every band, the answer is the first two sorted
    bands. *)
Lemma findCaratBands_below (w : Q) (a : list Q) (b0 b1 : Q) (rest : list Q) :
  Arr.sort a = b0 :: b1 :: rest -> w < b0 ->
  findCaratBands w a = Ok (Some b0, Some b1).
Proof.
  intros Hsort Hlt. unfold findCaratBands. rewrite Hsort.
  pose proof (Arr_sort_sorted a) as Hs. rewrite Hsort in Hs.
  apply sorted_above_head in Hs.
  assert (Hall : Forall (fun y => w <= y) (b0 :: b1 :: rest)).
  { eapply Forall_impl; [exact Hs|]. intros y Hy. cbn in Hy.
    apply Qlt_le_weak. eapply Qlt_le_trans; eassumption. }
  replace (Arr.includes (b0 :: b1 :: rest) w) with false.
  2:{ symmetry. apply Arr_includes_false.
      eapply Forall_impl; [exact Hs|]. intros y Hy Heq. cbn in Hy.
      rewrite Heq in Hy. exact (Qlt_not_le _ _ Hlt Hy). }
  rewrite (findBracket_none_below _ _ Hall).
  rewrite Arr_at_0, Arr_at_1. cbn [Num.lt_u].
  apply Num_lt_iff in Hlt. now rewrite Hlt.
Qed.

(** With the weight above every band, the answer is the last two sorted
    bands. *)
Lemma findCaratBands_above (w : Q) (a front : list Q) (h1 h0 : Q) :
  Arr.sort a = front ++ [h1; h0] -> h0 < w ->
  findCaratBands w a = Ok (Some h1, Some h0).
Proof.
  intros Hsort Hlt. unfold findCaratBands. rewrite Hsort.
  pose proof (Arr_sort_sorted a) as Hs. rewrite Hsort in Hs.
  replace (front ++ [h1; h0]) with ((front ++ [h1]) ++ [h0]) in *
    by now rewrite <- app_assoc.
  apply sorted_below_last in Hs.
  assert (Hall : Forall (fun y => y <= w) ((front ++ [h1]) ++ [h0])).
  { eapply Forall_impl; [exact Hs|]. intros y Hy. cbn in Hy.
    apply Qlt_le_weak. eapply Qle_lt_trans; eassumption. }
  replace (Arr.includes ((front ++ [h1]) ++ [h0]) w) with false.
  2:{ symmetry. apply Arr_includes_false.
      eapply Forall_impl; [exact Hs|]. intros y Hy Heq. cbn in Hy.
      rewrite Heq in Hy. exact (Qlt_not_le _ _ Hlt Hy). }
  rewrite (findBracket_none_above _ _ Hall).
  replace (Num.lt_u w (Arr.at_ ((front ++ [h1]) ++ [h0]) 0)) with false.
  2:{ symmetry. destruct front as [|x front]; cbn.
      - apply Num_lt_false_iff. inversion Hall; assumption.
      - apply Num_lt_false_iff. inversion Hall; assumption. }
  rewrite Arr_at_last. cbn [Num.gt_u].
  apply Num_gt_iff in Hlt. rewrite Hlt.
  replace ((front ++ [h1]) ++ [h0]) with (front ++ [h1; h0])
    by now rewrite <- app_assoc.
  now rewrite Arr_at_last_but_one.
Qed.

(** The search raises its error on the empty band list only. *)
Lemma findCaratBands_throws_iff (w : Q) (a : list Q) :
  is_ok (findCaratBands w a) = false <-> a = [].
Proof.
  split.
  2:{ intros ->. reflexivity. }
  intro Hthrow. unfold findCaratBands in Hthrow.
  destruct (Arr.includes (Arr.sort a) w) eqn:Einc; [discriminate|].
  destruct (findBracket w (Arr.sort a)) as [[lo hi]|] eqn:Ebr; [discriminate|].
  destruct (Num.lt_u w (Arr.at_ (Arr.sort a) 0)) eqn:Elt; [discriminate|].
  destruct (Num.gt_u w (Arr.at_ (Arr.sort a)
              (Z.of_nat (length (Arr.sort a)) - 1))) eqn:Egt; [discriminate|].
  destruct a as [|x a']; [reflexivity|exfalso].
  pose proof (Arr_sort_length (x :: a')) as Hlen.
  destruct (Arr.sort (x :: a')) as [|b0 rest] eqn:Es; [discriminate|].
  apply Arr_includes_false in Einc.
  inversion Einc as [|? ? Hb0 Hrest]; subst.
  rewrite Arr_at_0 in Elt. cbn in Elt. apply Num_lt_false_iff in Elt.
  assert (Hb0w : b0 < w).
  { apply Qle_lteq in Elt as [E|E]; [assumption|contradiction]. }
  destruct (rev rest) as [|h0 tail] eqn:Er.
  - assert (rest = []) as ->.
    { rewrite <- (rev_involutive rest), Er. reflexivity. }
    cbn in Egt. apply Num_lt_false_iff in Egt.
    exact (Qlt_not_le _ _ Hb0w Egt).
  - assert (Hrest' : rest = rev tail ++ [h0]).
    { rewrite <- (rev_involutive rest), Er. reflexivity. }
    rewrite Hrest' in *.
    change (b0 :: rev tail ++ [h0]) with ((b0 :: rev tail) ++ [h0]) in Egt.
    rewrite Arr_at_last in Egt. cbn in Egt. apply Num_lt_false_iff in Egt.
    assert (Hh0 : ~ h0 == w).
    { rewrite List.Forall_forall in Hrest. apply Hrest.
      apply in_or_app. right. now left. }
    assert (Hwh0 : w < h0).
    { apply Qle_lteq in Egt as [E|E]; [assumption|].
      exfalso. apply Hh0. now symmetry. }
    destruct (findBracket_finds w (rev tail ++ [h0]) b0 Hb0w) as [p Hp].
    + apply List.Exists_exists. exists h0. split; [|assumption].
      apply in_or_app. right. now left.
    + assumption.
    + rewrite Hp in Ebr. discriminate.
Qed.

(** With at least two bands, the sorted band list starts with two lowest
    bands [b0; b1] and ends with two highest [h1; h0]; a weight below
    [b0] is answered with [(b0, b1)], a weight above [h0] with
    [(h1, h0)], and every weight is answered with a pair of numbers,
    without an error. *)
Theorem findCaratBands_extrapolates
    (caratWeight : Q) (availableBands : list Q) :
  (2 <= length availableBands)%nat ->
  let bands := Arr.sort availableBands in
  StronglySorted Qle bands /\ bands ≡ₚ availableBands /\
  (exists b0 b1 rest front h1 h0,
      bands = b0 :: b1 :: rest /\ bands = front ++ [h1; h0] /\
      (caratWeight < b0 ->
         findCaratBands caratWeight availableBands = Ok (Some b0, Some b1)) /\
      (h0 < caratWeight ->
         findCaratBands caratWeight availableBands = Ok (Some h1, Some h0))) /\
  (exists lo hi,
      findCaratBands caratWeight availableBands = Ok (Some lo, Some hi)).
Proof.
  intros Hlen bands.
  assert (Hlen' : (2 <= length bands)%nat)
    by (unfold bands; now rewrite Arr_sort_length).
  destruct (two_bands_shape bands Hlen')
    as [(b0 & b1 & rest & Hlow) (front & h1 & h0 & Hhigh)].
  split; [apply Arr_sort_sorted|].
  split; [apply Arr_sort_perm|].
  split.
  - exists b0, b1, rest, front, h1, h0.
    split; [assumption|]. split; [assumption|]. split.
    + now apply findCaratBands_below with (rest := rest).
    + now apply findCaratBands_above with (front := front).
  - pose proof (findCaratBands_throws_iff caratWeight availableBands) as Hthrow.
    unfold findCaratBands in *. fold bands in Hthrow |- *.
    destruct (Arr.includes bands caratWeight); [eauto|].
    destruct (findBracket caratWeight bands) as [[lo hi]|]; [eauto|].
    destruct (Num.lt_u caratWeight (Arr.at_ bands 0)).
    { rewrite Hlow. rewrite Arr_at_0, Arr_at_1. eauto. }
    destruct (Num.gt_u caratWeight
                (Arr.at_ bands (Z.of_nat (length bands) - 1))).
    { rewrite Hhigh. rewrite Arr_at_last_but_one.
      replace (front ++ [h1; h0]) with ((front ++ [h1]) ++ [h0])
        by now rewrite <- app_assoc.
      rewrite Arr_at_last. eauto. }
    destruct Hthrow as [Hempty _]. rewrite (Hempty eq_refl) in Hlen.
    cbn in Hlen. lia.
Qed.

Lemma findCaratBands_extrapolates_witness :
  (2 <= length [2; 1; 3 # 2]%Q)%nat /\
  findCaratBands (1 # 5) [2; 1; 3 # 2] = Ok (Some 1, Some (3 # 2)) /\
  findCaratBands 3 [2; 1; 3 # 2] = Ok (Some (3 # 2), Some 2).
Proof.
  assert (Hlen : (2 <= length [2; 1; 3 # 2]%Q)%nat) by (cbn; lia).
  split; [exact Hlen|]. split.
  - destruct (findCaratBands_extrapolates (1 # 5) [2; 1; 3 # 2] Hlen)
      as (_ & _ & (b0 & b1 & rest & front & h1 & h0 & Hlow & _ & Hbelow & _)
          & _).
    vm_compute in Hlow. injection Hlow as <- <- _.
    apply Hbelow. reflexivity.
  - destruct (findCaratBands_extrapolates 3 [2; 1; 3 # 2] Hlen)
      as (_ & _ & (b0 & b1 & rest & front & h1 & h0 & _ & Hhigh & _ & Habove)
          & _).
    vm_compute in Hhigh.
    destruct front as [|f0 [|f1 [|f2 front]]]; cbn in Hhigh;
      try discriminate Hhigh.
    + injection Hhigh as _ <- <-. apply Habove. reflexivity.
    + injection Hhigh as _ _ _ Hnil. destruct front; discriminate Hnil.
Defined.

(** C4. On a band list with a single band the search neither answers
    with two bands nor raises its error: below the band the second
    component of the answer is [undefined], above it the first one is.
    So it is not true that a weight below the lowest band is always
    answered with two bands. *)
Lemma findCaratBands_single_band :
  Arr.sort [1] = [1] /\
  findCaratBands (1 # 2) [1] = Ok (Some 1, None) /\
  findCaratBands 2 [1] = Ok (None, Some 1) /\
  ~ (forall caratWeight availableBands lowest,
        Arr.at_ (Arr.sort availableBands) 0 = Some lowest ->
        caratWeight < lowest ->
        exists b0 b1,
          findCaratBands caratWeight availableBands = Ok (Some b0, Some b1)).
Proof.
  repeat split.
  intro Hclaim.
  destruct (Hclaim (1 # 2) [1] 1) as (b0 & b1 & Hres).
  - reflexivity.
  - qclosed.
  - vm_compute in Hres. discriminate.
Qed.

(** Without any band the search raises its error. *)
Lemma findCaratBands_no_band (caratWeight : Q) :
  findCaratBands caratWeight [] = Throw (UnableToFindCaratBands caratWeight).
Proof. reflexivity. Qed.

(** ** Exact band match *)




(** ** The order on strings *)

Lemma Ascii_compare_lt_trans (a b c : ascii) :
  Ascii.compare a b = Lt -> Ascii.compare b c = Lt -> Ascii.compare a c = Lt.
Proof.
  unfold Ascii.compare. rewrite !N.compare_lt_iff. apply N.lt_trans.
Qed.

Lemma String_compare_lt_trans (a : string) :
  forall b c,
    String.compare a b = Lt -> String.compare b c = Lt ->
    String.compare a c = Lt.
Proof.
  induction a as [|x a IH]; intros [|y b] [|z c]; cbn; try congruence.
  destruct (Ascii.compare x y) eqn:Exy; try discriminate;
    destruct (Ascii.compare y z) eqn:Eyz; try discriminate; intros Hab Hbc.
  - apply Ascii.compare_eq_iff in Exy, Eyz. subst.
    replace (Ascii.compare z z) with Eq.
    + eapply IH; eassumption.
    + symmetry. unfold Ascii.compare. apply N.compare_refl.
  - apply Ascii.compare_eq_iff in Exy. subst. now rewrite Eyz.
  - apply Ascii.compare_eq_iff in Eyz. subst. now rewrite Exy.
  - now rewrite (Ascii_compare_lt_trans _ _ _ Exy Eyz).
Qed.

Lemma String_compare_refl (a : string) : String.compare a a = Eq.
Proof.
  induction a as [|x a IH]; cbn; [reflexivity|].
  replace (Ascii.compare x x) with Eq; [exact IH|].
  symmetry. unfold Ascii.compare. apply N.compare_refl.
Qed.

Lemma Str_le_refl (a : string) : Str.le a a.
Proof. unfold Str.le, String.leb. now rewrite String_compare_refl. Qed.

Lemma Str_lt_false_le (a b : string) : Str.lt a b = false -> Str.le b a.
Proof.
  unfold Str.lt, Str.le, String.ltb, String.leb.
  rewrite (String.compare_antisym a b).
  destruct (String.compare b a); cbn; congruence.
Qed.

Lemma Str_le_lt_false (a b : string) : Str.le a b -> Str.lt b a = false.
Proof.
  unfold Str.lt, Str.le, String.ltb, String.leb.
  rewrite (String.compare_antisym a b).
  destruct (String.compare b a); cbn; congruence.
Qed.

Lemma Str_lt_le (a b : string) : Str.lt a b = true -> Str.le a b.
Proof.
  unfold Str.lt, Str.le, String.ltb, String.leb.
  destruct (String.compare a b); congruence.
Qed.

Lemma Str_le_cases (a b : string) : Str.le a b -> a = b \/ Str.lt a b = true.
Proof.
  unfold Str.lt, Str.le, String.ltb, String.leb.
  destruct (String.compare a b) eqn:E; try congruence.
  - left. now apply String.compare_eq_iff.
  - now right.
Qed.

Lemma Str_lt_trans (a b c : string) :
  Str.lt a b = true -> Str.lt b c = true -> Str.lt a c = true.
Proof.
  unfold Str.lt, String.ltb.
  destruct (String.compare a b) eqn:Eab; try discriminate.
  destruct (String.compare b c) eqn:Ebc; try discriminate.
  now rewrite (String_compare_lt_trans _ _ _ Eab Ebc).
Qed.

Lemma Str_lt_le_trans (a b c : string) :
  Str.lt a b = true -> Str.le b c -> Str.lt a c = true.
Proof.
  intros Hab Hbc. destruct (Str_le_cases _ _ Hbc) as [->|Hlt];
    [assumption|]. eapply Str_lt_trans; eassumption.
Qed.

Lemma Str_le_trans (a b c : string) : Str.le a b -> Str.le b c -> Str.le a c.
Proof.
  intros Hab Hbc. destruct (Str_le_cases _ _ Hab) as [->|Hlt];
    [assumption|]. apply Str_lt_le. eapply Str_lt_le_trans; eassumption.
Qed.

Lemma Str_gt_eq (a b : string) : Str.gt a b = Str.lt b a.
Proof. reflexivity. Qed.

(** ** Grade normaliser *)

(** Clamping keeps the grade between the first and the last label when
    these are in order. *)
Lemma clamp_within (grade minGrade maxGrade : string) :
  Str.le minGrade maxGrade ->
  let g1 := if Str.lt grade minGrade then minGrade else grade in
  let g2 := if Str.gt g1 maxGrade then maxGrade else g1 in
  Str.le minGrade g2 /\ Str.le g2 maxGrade.
Proof.
  intros Hord g1 g2.
  assert (H1 : Str.le minGrade g1).
  { unfold g1. destruct (Str.lt grade minGrade) eqn:E.
    - apply Str_le_refl.
    - now apply Str_lt_false_le. }
  unfold g2. destruct (Str.gt g1 maxGrade) eqn:E.
  - split; [assumption|apply Str_le_refl].
  - split; [assumption|]. now apply Str_lt_false_le.
Qed.

(** When the first label sorts after the last one, clamping always ends
    on the last label. *)
Lemma clamp_disordered (grade minGrade maxGrade : string) :
  Str.lt maxGrade minGrade = true ->
  let g1 := if Str.lt grade minGrade then minGrade else grade in
  (if Str.gt g1 maxGrade then maxGrade else g1) = maxGrade.
Proof.
  intros Hord g1.
  assert (H1 : Str.le minGrade g1).
  { unfold g1. destruct (Str.lt grade minGrade) eqn:E.
    - apply Str_le_refl.
    - now apply Str_lt_false_le. }
  rewrite Str_gt_eq. now rewrite (Str_lt_le_trans _ _ _ Hord H1).
Qed.

Lemma last_cons_default {A} (rest : list A) :
  forall x y, List.last (y :: rest) x = List.last rest y.
Proof.
  induction rest as [|z rest IH]; intros x y; [reflexivity|].
  change (List.last (y :: z :: rest) x) with (List.last (z :: rest) x).
  now rewrite (IH x z), (IH y z).
Qed.

Lemma last_in {A} (rest : list A) :
  forall x, In (List.last rest x) (x :: rest).
Proof.
  induction rest as [|y rest IH]; intro x.
  - now left.
  - right. rewrite last_cons_default. apply IH.
Qed.

Lemma leastLabel_below (rest : list string) :
  forall m, Str.le (leastLabel m rest) m /\
            forall x, In x rest -> Str.le (leastLabel m rest) x.
Proof.
  unfold leastLabel.
  induction rest as [|y rest IH]; intro m; cbn [fold_left].
  - split; [apply Str_le_refl|intros x []].
  - destruct (IH (if Str.lt y m then y else m)) as [Hacc Hin].
    assert (Hm : Str.le (if Str.lt y m then y else m) m).
    { destruct (Str.lt y m) eqn:E; [now apply Str_lt_le|apply Str_le_refl]. }
    assert (Hy : Str.le (if Str.lt y m then y else m) y).
    { destruct (Str.lt y m) eqn:E;
        [apply Str_le_refl|now apply Str_lt_false_le]. }
    split.
    + eapply Str_le_trans; eassumption.
    + intros x [<-|Hx]; [|now apply Hin].
      eapply Str_le_trans; eassumption.
Qed.

Lemma greatestLabel_above (rest : list string) :
  forall m, Str.le m (greatestLabel m rest) /\
            forall x, In x rest -> Str.le x (greatestLabel m rest).
Proof.
  unfold greatestLabel.
  induction rest as [|y rest IH]; intro m; cbn [fold_left].
  - split; [apply Str_le_refl|intros x []].
  - destruct (IH (if Str.lt m y then y else m)) as [Hacc Hin].
    assert (Hm : Str.le m (if Str.lt m y then y else m)).
    { destruct (Str.lt m y) eqn:E; [now apply Str_lt_le|apply Str_le_refl]. }
    assert (Hy : Str.le y (if Str.lt m y then y else m)).
    { destruct (Str.lt m y) eqn:E;
        [apply Str_le_refl|now apply Str_lt_false_le]. }
    split.
    + eapply Str_le_trans; eassumption.
    + intros x [<-|Hx]; [|now apply Hin].
      eapply Str_le_trans; eassumption.
Qed.

Lemma label_bounds (first : string) (rest : list string) (x : string) :
  In x (first :: rest) ->
  Str.le (leastLabel first rest) x /\ Str.le x (greatestLabel first rest).
Proof.
  destruct (leastLabel_below rest first) as [Hl1 Hl2].
  destruct (greatestLabel_above rest first) as [Hg1 Hg2].
  intros [<-|Hx]; split; auto.
Qed.

(** The normalised grade lies between two labels of the grid. *)
Lemma normalizeColorGrade_between_labels
    (colorGrade minGrade : string) (rest : list string) :
  let normalized :=
    normalizeColorGrade colorGrade (Some (minGrade :: rest)) in
  exists lower upper,
    In lower (minGrade :: rest) /\ In upper (minGrade :: rest) /\
    Str.le lower normalized /\ Str.le normalized upper.
Proof.
  intro normalized.
  destruct (Str.lt (List.last rest minGrade) minGrade) eqn:E.
  - exists (List.last rest minGrade), (List.last rest minGrade).
    assert (Hlast : normalized = List.last rest minGrade)
      by (apply (clamp_disordered _ _ _ E)).
    rewrite Hlast.
    repeat split; try apply Str_le_refl; apply last_in.
  - apply Str_lt_false_le in E.
    destruct (clamp_within
                (Str.or_else (colorMap !! colorGrade)
                   (Str.toUpperCase colorGrade)) _ _ E) as [Hlo Hhi].
    exists minGrade, (List.last rest minGrade).
    repeat split; try assumption; [now left|apply last_in].
Qed.

(** C7. When row labels are supplied (a first label [minGrade] and a last
    label [maxGrade]), the normalised grade lies between the least and
    the greatest label of the grid in the order of the string comparison,
    for every input and every such grid; when the first label does not
    sort after the last one, as in the grid D..M, the two are these
    bounds: the grade lies between [minGrade] and [maxGrade]; and ["Z"]
    is normalised to a last label ["M"]. The function is total: no input
    makes it fail. *)
Theorem normalizeColorGrade_within_grid
    (colorGrade minGrade : string) (rest : list string) :
  let availableGrades := minGrade :: rest in
  let maxGrade := List.last rest minGrade in
  let normalized := normalizeColorGrade colorGrade (Some availableGrades) in
  (Str.le (leastLabel minGrade rest) normalized /\
   Str.le normalized (greatestLabel minGrade rest)) /\
  (Str.le minGrade maxGrade ->
     Str.le minGrade normalized /\ Str.le normalized maxGrade) /\
  (maxGrade = "M" -> normalizeColorGrade "Z" (Some availableGrades) = "M").
Proof.
  intros availableGrades maxGrade normalized.
  split; [|split].
  - destruct (normalizeColorGrade_between_labels colorGrade minGrade rest)
      as (lower & upper & Hlower & Hupper & Hlo & Hhi).
    destruct (label_bounds _ _ _ Hlower) as [Hleast _].
    destruct (label_bounds _ _ _ Hupper) as [_ Hgreatest].
    split; eapply Str_le_trans; eassumption.
  - intro Hord. apply (clamp_within _ _ _ Hord).
  - intro HM. unfold maxGrade in HM.
    unfold normalizeColorGrade, availableGrades. rewrite HM.
    replace (Str.or_else (colorMap !! "Z") (Str.toUpperCase "Z")) with "Z"
      by (vm_compute; reflexivity).
    assert (HMZ : Str.lt "M" "Z" = true) by reflexivity.
    destruct (Str.lt "Z" minGrade) eqn:E.
    + rewrite Str_gt_eq.
      now rewrite (Str_lt_trans _ _ _ HMZ E).
    + reflexivity.
Qed.

Lemma normalizeColorGrade_within_grid_witness :
  Str.le "D" "M" /\
  Str.le "D"
    (normalizeColorGrade "Z"
       (Some ["D"; "E"; "F"; "G"; "H"; "I"; "J"; "K"; "L"; "M"])) /\
  Str.le
    (normalizeColorGrade "Z"
       (Some ["D"; "E"; "F"; "G"; "H"; "I"; "J"; "K"; "L"; "M"])) "M" /\
  normalizeColorGrade "Z"
    (Some ["D"; "E"; "F"; "G"; "H"; "I"; "J"; "K"; "L"; "M"]) = "M".
Proof.
  assert (Hord : Str.le "D" "M") by reflexivity.
  pose proof (normalizeColorGrade_within_grid "Z" "D"
                ["E"; "F"; "G"; "H"; "I"; "J"; "K"; "L"; "M"])
    as (_ & Hrange & HZ).
  destruct (Hrange Hord) as [Hlo Hhi].
  split; [exact Hord|]. split; [exact Hlo|]. split; [exact Hhi|].
  exact (HZ eq_refl).
Defined.

(** A single letter is not a key of [colorMap]. *)
Lemma colorMap_single_char (ch : ascii) :
  colorMap !! String ch EmptyString = None.
Proof.
  unfold colorMap. apply not_elem_of_list_to_map_1. cbn.
  rewrite !elem_of_cons, elem_of_nil.
  intros H. repeat destruct H as [H|H]; try discriminate H. exact H.
Qed.

Lemma toUpperCase_upper_letter (letter : string) :
  Str.is_upper_letter letter = true -> Str.toUpperCase letter = letter.
Proof.
  destruct letter as [|ch [|? ?]]; try discriminate. cbn.
  intro Hup. apply andb_true_iff in Hup as [_ H90].
  apply Nat.leb_le in H90.
  unfold Str.upper_char.
  destruct (Nat.leb_spec 97 (nat_of_ascii ch)); [lia|reflexivity].
Qed.

(** C8. A single upper-case letter that lies between the first and the
    last supplied row label (or any such letter when no labels are
    supplied) is returned unchanged, so normalising it again changes
    nothing either. *)
Theorem normalizeColorGrade_canonical_letter
    (letter : string) (availableGrades : option (list string)) :
  Str.is_upper_letter letter = true ->
  match availableGrades with
  | Some (minGrade :: rest) =>
      Str.le minGrade letter /\ Str.le letter (List.last rest minGrade)
  | _ => True
  end ->
  normalizeColorGrade letter availableGrades = letter /\
  normalizeColorGrade (normalizeColorGrade letter availableGrades)
    availableGrades = letter.
Proof.
  intros Hup Hrange.
  assert (Hfix : normalizeColorGrade letter availableGrades = letter).
  { unfold normalizeColorGrade.
    rewrite (toUpperCase_upper_letter _ Hup).
    assert (Hmap : colorMap !! letter = None).
    { destruct letter as [|ch [|? ?]]; try discriminate.
      apply colorMap_single_char. }
    rewrite Hmap. cbn [Str.or_else].
    destruct availableGrades as [[|minGrade rest]|]; try reflexivity.
    destruct Hrange as [Hlo Hhi].
    rewrite (Str_le_lt_false _ _ Hlo).
    rewrite Str_gt_eq. now rewrite (Str_le_lt_false _ _ Hhi). }
  split; [exact Hfix|]. now rewrite !Hfix.
Qed.

Lemma normalizeColorGrade_canonical_letter_witness :
  Str.is_upper_letter "G" = true /\
  (Str.le "D" "G" /\ Str.le "G" "M") /\
  normalizeColorGrade "G"
    (Some ["D"; "E"; "F"; "G"; "H"; "I"; "J"; "K"; "L"; "M"]) = "G".
Proof.
  assert (Hup : Str.is_upper_letter "G" = true) by reflexivity.
  assert (Hrange : Str.le "D" "G" /\ Str.le "G" "M")
    by (split; reflexivity).
  split; [exact Hup|]. split; [exact Hrange|].
  exact (proj1 (normalizeColorGrade_canonical_letter "G"
                  (Some ["D"; "E"; "F"; "G"; "H"; "I"; "J"; "K"; "L"; "M"])
                  Hup Hrange)).
Defined.

(** ** Market depth *)

(** A nested lookup never fails; it is [undefined] as soon as the table,
    the outer key or the inner key is missing. *)
Lemma nested_missing (table : option (gmap string (gmap string Q)))
    (outer inner : string) :
  nested table outer inner = None <->
  table = None \/
  (exists t, table = Some t /\ t !! outer = None) \/
  (exists t row, table = Some t /\ t !! outer = Some row /\
                 row !! inner = None).
Proof.
  unfold nested. split.
  - destruct table as [t|]; [|now left].
    destruct (t !! outer) as [row|] eqn:E.
    + intro Hrow. right. right. now exists t, row.
    + intros _. right. left. now exists t.
  - intros [->|[(t & -> & ->)|(t & row & -> & -> & Hrow)]];
      [reflexivity|reflexivity|exact Hrow].
Qed.

Lemma resolved_none : resolved None = false.
Proof. reflexivity. Qed.

Lemma depth_zero_penalty (hasExactCaratBand : bool) (dataAgeHours : Q) :
  calculateConfidence hasExactCaratBand 0 dataAgeHours ==
  calculateConfidence hasExactCaratBand 200 dataAgeHours - 15.
Proof.
  unfold calculateConfidence, penalisedConfidence.
  replace (Num.lt 0 50) with true by reflexivity.
  replace (Num.lt 200 50) with false by reflexivity.
  replace (Num.lt 200 200) with false by reflexivity.
  destruct hasExactCaratBand;
    destruct (Num.gt dataAgeHours 12);
    destruct (Num.gt dataAgeHours 6);
    cbn [negb]; qclosed.
Qed.

Lemma nested_holds (table : option (gmap string (gmap string Q)))
    (outer inner : string) (count : Q) :
  nested table outer inner = Some count <-> holds table outer inner count.
Proof.
  unfold nested, holds. split.
  - destruct table as [t|]; [|discriminate].
    destruct (t !! outer) as [row|] eqn:E; [|discriminate].
    intro Hrow. now exists t, row.
  - intros (t & row & -> & Hrow & Hcount). now rewrite Hrow.
Qed.

Lemma resolved_finds (table : option (gmap string (gmap string Q)))
    (outer inner : string) (count : Q) :
  finds table outer inner count ->
  resolved (nested table outer inner) = true /\
  default 0 (nested table outer inner) = count.
Proof.
  intros [Hholds Hnonzero]. apply nested_holds in Hholds. rewrite Hholds.
  split; [|reflexivity]. unfold resolved, Num.truthy.
  apply negb_true_iff. destruct (Qeq_bool count 0) eqn:E; [|reflexivity].
  apply Qeq_bool_iff in E. contradiction.
Qed.

Lemma unresolved_finds_nothing
    (table : option (gmap string (gmap string Q))) (outer inner : string) :
  finds_nothing table outer inner ->
  resolved (nested table outer inner) = false.
Proof.
  intro Hnothing. unfold resolved.
  destruct (nested table outer inner) as [count|] eqn:E; [|reflexivity].
  apply nested_holds in E. apply Hnothing in E.
  unfold Num.truthy. apply Qeq_bool_iff in E. now rewrite E.
Qed.

(** C3. The depth is the count found by the first of three lookups that
    finds one, in the order colour-by-clarity, carat-by-clarity,
    carat-by-colour, the carat key being the text of the requested
    weight; a lookup finds nothing when the table, the outer key or the
    inner key is missing or the count is 0; the depth is 0 when none of
    the three finds a count, in particular when the three tables are
    missing; and a depth of 0 lowers the confidence by 15 with respect to
    a depth that carries no penalty. *)
Theorem getMarketDepth_resolution_order {rt : JsRuntime}
    (depthData : MarketDepthResponse) (caratWeight : Q)
    (colorGrade clarityGrade : string) :
  let caratKey := Number_toString caratWeight in
  let depth := getMarketDepth depthData caratWeight colorGrade clarityGrade in
  (forall count,
     finds (colclar depthData) colorGrade clarityGrade count ->
     depth = count) /\
  (finds_nothing (colclar depthData) colorGrade clarityGrade ->
   forall count,
     finds (clarity depthData) caratKey clarityGrade count ->
     depth = count) /\
  (finds_nothing (colclar depthData) colorGrade clarityGrade ->
   finds_nothing (clarity depthData) caratKey clarityGrade ->
   forall count,
     finds (color depthData) caratKey colorGrade count ->
     depth = count) /\
  (finds_nothing (colclar depthData) colorGrade clarityGrade ->
   finds_nothing (clarity depthData) caratKey clarityGrade ->
   finds_nothing (color depthData) caratKey colorGrade ->
   depth = 0) /\
  (colclar depthData = None -> clarity depthData = None ->
   color depthData = None -> depth = 0) /\
  (forall hasExactCaratBand dataAgeHours,
      depth = 0 ->
      calculateConfidence hasExactCaratBand depth dataAgeHours ==
      calculateConfidence hasExactCaratBand 200 dataAgeHours - 15).
Proof.
  intros caratKey depth. unfold depth, getMarketDepth. fold caratKey.
  split; [|split; [|split; [|split; [|split]]]].
  - intros count Hfound.
    destruct (resolved_finds _ _ _ _ Hfound) as [Hres Hval].
    now rewrite Hres.
  - intros H1 count Hfound.
    rewrite (unresolved_finds_nothing _ _ _ H1).
    destruct (resolved_finds _ _ _ _ Hfound) as [Hres Hval].
    now rewrite Hres.
  - intros H1 H2 count Hfound.
    rewrite (unresolved_finds_nothing _ _ _ H1),
            (unresolved_finds_nothing _ _ _ H2).
    destruct (resolved_finds _ _ _ _ Hfound) as [Hres Hval].
    now rewrite Hres.
  - intros H1 H2 H3.
    now rewrite (unresolved_finds_nothing _ _ _ H1),
                (unresolved_finds_nothing _ _ _ H2),
                (unresolved_finds_nothing _ _ _ H3).
  - intros -> -> ->. reflexivity.
  - intros hasExactCaratBand dataAgeHours ->. apply depth_zero_penalty.
Qed.

Lemma getMarketDepth_resolution_order_witness :
  finds (colclar Sample.depth) "D" "VS2" 120 /\
  getMarketDepth (rt := Sample.runtime) Sample.depth 1 "D" "VS2" = 120 /\
  finds_nothing (colclar Cases.depth_by_carat) "D" "VS2" /\
  finds (clarity Cases.depth_by_carat) "1.25" "VS2" 80 /\
  getMarketDepth (rt := Sample.runtime) Cases.depth_by_carat (5 # 4)
    "D" "VS2" = 80.
Proof.
  assert (H1 : finds (colclar Sample.depth) "D" "VS2" 120).
  { split; [|intro H; discriminate H].
    eexists _, _. split; [reflexivity|]. split; reflexivity. }
  assert (H2 : finds_nothing (colclar Cases.depth_by_carat) "D" "VS2").
  { intros count (t & row & [= <-] & Hrow & Hcount).
    vm_compute in Hrow. injection Hrow as <-.
    vm_compute in Hcount. now injection Hcount as <-. }
  assert (H3 : finds (clarity Cases.depth_by_carat) "1.25" "VS2" 80).
  { split; [|intro H; discriminate H].
    eexists _, _. split; [reflexivity|]. split; reflexivity. }
  split; [exact H1|].
  split; [exact (proj1 (getMarketDepth_resolution_order
                          (rt := Sample.runtime) Sample.depth 1 "D" "VS2")
                   120 H1)|].
  split; [exact H2|]. split; [exact H3|].
  exact (proj1 (proj2 (getMarketDepth_resolution_order
                         (rt := Sample.runtime) Cases.depth_by_carat
                         (5 # 4) "D" "VS2")) H2 80 H3).
Defined.

(** ** Interpolation in log space *)

Lemma lambda_between (caratWeight caratBand1 caratBand2 : Q) :
  caratBand1 < caratWeight -> caratWeight < caratBand2 ->
  let lambda := (caratWeight - caratBand1) / (caratBand2 - caratBand1) in
  0 < lambda /\ lambda < 1.
Proof.
  intros Hlo Hhi lambda.
  assert (Hnum : 0 < caratWeight - caratBand1) by lra.
  assert (Hden : 0 < caratBand2 - caratBand1) by lra.
  split.
  - apply Qlt_shift_div_l; [exact Hden|]. lra.
  - apply Qlt_shift_div_r; [exact Hden|]. lra.
Qed.

(** C6. Between two bands [caratBand1 < caratBand2] whose grid prices
    [exp logPrice1 < exp logPrice2], for a weight strictly between the
    bands, the interpolation factor is
    [(caratWeight - caratBand1) / (caratBand2 - caratBand1)], the
    interpolated log-price is [(1 - lambda) * log price1 + lambda * log
    price2], and its exponential, the per-carat price, is strictly
    between the two prices. [Math.exp] and the logarithm are read as the
    real functions. *)
Theorem interpolated_price_strictly_between
    (logPrice1 logPrice2 caratWeight caratBand1 caratBand2 : Q) :
  caratBand1 < caratBand2 ->
  caratBand1 < caratWeight -> caratWeight < caratBand2 ->
  let price1 := exp (Q2R logPrice1) in
  let price2 := exp (Q2R logPrice2) in
  (price1 < price2)%R ->
  let i := interpolateLogPrice logPrice1 logPrice2 caratWeight
             caratBand1 caratBand2 in
  lambda i == (caratWeight - caratBand1) / (caratBand2 - caratBand1) /\
  Q2R (interpolatedLogPrice i) =
    ((1 - Q2R (lambda i)) * ln price1 + Q2R (lambda i) * ln price2)%R /\
  (price1 < exp (Q2R (interpolatedLogPrice i)) < price2)%R.
Proof.
  intros Hbands Hlo Hhi price1 price2 Hprices i.
  assert (Hne : Num.strict_eq caratBand1 caratBand2 = false).
  { apply Num_strict_eq_false_iff. intro Heq. rewrite Heq in Hbands.
    exact (Qlt_irrefl _ Hbands). }
  unfold i, interpolateLogPrice. rewrite Hne. cbn [lambda interpolatedLogPrice].
  set (lam := (caratWeight - caratBand1) / (caratBand2 - caratBand1)).
  destruct (lambda_between caratWeight caratBand1 caratBand2 Hlo Hhi)
    as [Hlam0 Hlam1]. fold lam in Hlam0, Hlam1.
  apply Qlt_Rlt in Hlam0, Hlam1.
  replace (Q2R 0) with 0%R in Hlam0 by (unfold Q2R; cbn; lra).
  replace (Q2R 1) with 1%R in Hlam1 by (unfold Q2R; cbn; lra).
  assert (Hinterp : Q2R ((1 - lam) * logPrice1 + lam * logPrice2) =
            ((1 - Q2R lam) * Q2R logPrice1 + Q2R lam * Q2R logPrice2)%R).
  { rewrite Q2R_plus, !Q2R_mult, Q2R_minus.
    replace (Q2R 1) with 1%R by (unfold Q2R; cbn; lra). reflexivity. }
  assert (Hlogs : (Q2R logPrice1 < Q2R logPrice2)%R)
    by (apply exp_lt_inv; exact Hprices).
  split; [reflexivity|]. split.
  - unfold price1, price2. rewrite !ln_exp. exact Hinterp.
  - rewrite Hinterp. unfold price1, price2.
    split; apply exp_increasing; nra.
Qed.

Lemma interpolated_price_strictly_between_witness :
  1 < 3 # 2 /\ 1 < 5 # 4 /\ 5 # 4 < 3 # 2 /\
  (exp (Q2R 9) < exp (Q2R (94 # 10)))%R /\
  lambda (interpolateLogPrice 9 (94 # 10) (5 # 4) 1 (3 # 2)) == 1 # 2 /\
  (exp (Q2R 9)
   < exp (Q2R (interpolatedLogPrice
                 (interpolateLogPrice 9 (94 # 10) (5 # 4) 1 (3 # 2))))
   < exp (Q2R (94 # 10)))%R.
Proof.
  assert (H1 : 1 < 3 # 2) by reflexivity.
  assert (H2 : 1 < 5 # 4) by reflexivity.
  assert (H3 : 5 # 4 < 3 # 2) by reflexivity.
  assert (H4 : (exp (Q2R 9) < exp (Q2R (94 # 10)))%R).
  { apply exp_increasing. apply Qlt_Rlt. reflexivity. }
  destruct (interpolated_price_strictly_between
              9 (94 # 10) (5 # 4) 1 (3 # 2) H1 H2 H3 H4)
    as (Hlam & _ & Hbetween).
  split; [exact H1|]. split; [exact H2|]. split; [exact H3|].
  split; [exact H4|]. split; [|exact Hbetween].
  rewrite Hlam. reflexivity.
Defined.

(** ** Cached fetchers *)

(** Unfolds a fetcher down to its case analysis on the force flag, the
    slot, the expiry test and the answer of the endpoint. *)
Ltac run_fetcher :=
  unfold fetchPriceMatrix, fetchDCXIndex, fetchMarketDepth,
    try_catch, bind, ret, throw, isCacheValid, createCacheEntry,
    fetch_json, Date_now, getItem_MATRIX, getItem_INDEX, getItem_DEPTH,
    setItem_MATRIX, setItem_INDEX, setItem_DEPTH, with_storage, failed in *;
  cbn in *.

Ltac fetcher_cases :=
  repeat match goal with
    | H : ?x = _ |- context [match ?x with _ => _ end] => rewrite H; cbn
    | |- context [if (?a <? ?b)%Z then _ else _] =>
        destruct (Z.ltb_spec a b); cbn; try lia
    | |- context [match ?x with _ => _ end] =>
        destruct x eqn:?; cbn in *; try congruence
    end.

Lemma isCacheValid_iff {T} (cached : CachedData T) (w : World) :
  isCacheValid (Some cached) w = (Ok (now w <? expiresAt cached)%Z, w) /\
  (fst (isCacheValid (Some cached) w) = Ok true <->
   (now w < expiresAt cached)%Z).
Proof.
  split; [reflexivity|].
  cbn. split.
  - intros [= Hlt]. now apply Z.ltb_lt.
  - intro Hlt. apply Z.ltb_lt in Hlt. now rewrite Hlt.
Qed.

Lemma isCacheValid_null {T} (w : World) :
  isCacheValid (@None (CachedData T)) w = (Ok false, w).
Proof. reflexivity. Qed.

Lemma createCacheEntry_now {T} (payload : T) (w : World) :
  createCacheEntry payload w =
  (Ok {| data := payload; timestamp := now w;
         expiresAt := (now w + 24 * 60 * 60 * 1000)%Z |}, w).
Proof. reflexivity. Qed.

Lemma valid_cache_matrix : serves_valid_cache fetchPriceMatrix MATRIX.
Proof.
  intros w cached Hslot Hvalid. run_fetcher. fetcher_cases. reflexivity.
Qed.

Lemma valid_cache_index : serves_valid_cache fetchDCXIndex INDEX.
Proof.
  intros w cached Hslot Hvalid. run_fetcher. fetcher_cases. reflexivity.
Qed.

Lemma valid_cache_depth : serves_valid_cache fetchMarketDepth DEPTH.
Proof.
  intros w cached Hslot Hvalid. run_fetcher. fetcher_cases. reflexivity.
Qed.

Ltac fresh_entry :=
  intros forceRefresh w body Hbody Hmiss; run_fetcher;
  destruct forceRefresh; cbn;
  [ | destruct Hmiss as [Hforce | Hmiss]; [discriminate Hforce|];
      match goal with
      | |- context [match ?slot with Some _ => _ | None => _ end] =>
          let entry := fresh "entry" in
          destruct slot as [entry|]; cbn;
          [ specialize (Hmiss entry eq_refl);
            destruct (Z.ltb_spec (now w) (expiresAt entry)); [lia|]; cbn
          | ]
      end ];
  rewrite Hbody; cbn; eexists; repeat split; reflexivity.

Lemma fresh_entry_matrix :
  stores_fresh_entry fetchPriceMatrix MATRIX matrix_json
    (BASE_URL ++ "/matrix.json")%string.
Proof. fresh_entry. Qed.

Lemma fresh_entry_index :
  stores_fresh_entry fetchDCXIndex INDEX index_json
    (BASE_URL ++ "/index.json")%string.
Proof. fresh_entry. Qed.

Lemma fresh_entry_depth :
  stores_fresh_entry fetchMarketDepth DEPTH depth_json
    (BASE_URL ++ "/depth.json")%string.
Proof. fresh_entry. Qed.

Ltac stale_cache :=
  intros forceRefresh w cached Hfail Hslot; run_fetcher;
  destruct forceRefresh; cbn; rewrite ?Hslot; cbn;
  [ | destruct (Z.ltb_spec (now w) (expiresAt cached)); cbn;
      [reflexivity|] ];
  match goal with
  | |- context [match ?e (network w) with _ => _ end] =>
      destruct (e (network w)); cbn in *; try discriminate;
      rewrite ?Hslot; reflexivity
  end.

Lemma stale_cache_matrix :
  serves_stale_cache fetchPriceMatrix MATRIX matrix_json.
Proof. stale_cache. Qed.

Lemma stale_cache_index : serves_stale_cache fetchDCXIndex INDEX index_json.
Proof. stale_cache. Qed.

Lemma stale_cache_depth :
  serves_stale_cache fetchMarketDepth DEPTH depth_json.
Proof. stale_cache. Qed.

Ltac without_data :=
  intros forceRefresh w Hfail Hslot; run_fetcher;
  destruct forceRefresh; cbn; rewrite ?Hslot; cbn;
  match goal with
  | |- context [match ?e (network w) with _ => _ end] =>
      destruct (e (network w)); cbn in *; try discriminate;
      rewrite ?Hslot; reflexivity
  end.

Lemma without_data_matrix :
  fails_without_data fetchPriceMatrix MATRIX matrix_json
    (BASE_URL ++ "/matrix.json")%string "price matrix".
Proof. without_data. Qed.

Lemma without_data_index :
  fails_without_data fetchDCXIndex INDEX index_json
    (BASE_URL ++ "/index.json")%string "DCX index".
Proof. without_data. Qed.

Lemma without_data_depth :
  fails_without_data fetchMarketDepth DEPTH depth_json
    (BASE_URL ++ "/depth.json")%string "market depth".
Proof. without_data. Qed.

(** What a fetcher does, case by case: the entry it serves from the
    cache, and otherwise the outcome of the request. *)
Ltac fetcher_run slot endpoint :=
  let cached := fresh "cached" in
  let Hslot := fresh "Hslot" in
  let Hnet := fresh "Hnet" in
  intros forceRefresh w; unfold cache_hit, freshEntry; run_fetcher;
  unfold requested;
  destruct (slot (storage w)) as [cached|] eqn:Hslot;
  destruct (endpoint (network w)) eqn:Hnet;
  destruct forceRefresh; cbn;
  repeat first
    [ rewrite Hslot | rewrite Hnet | progress cbn
    | match goal with
      | |- context [if (?a <? ?b)%Z then _ else _] => destruct (a <? b)%Z
      end ];
  reflexivity.

Lemma fetchPriceMatrix_run : forall forceRefresh w,
  fetchPriceMatrix forceRefresh w =
  let w' := requested (BASE_URL ++ "/matrix.json")%string w in
  match cache_hit forceRefresh (MATRIX (storage w)) (now w) with
  | Some cached => (Ok (data cached), w)
  | None =>
      match matrix_json (network w) with
      | Json body =>
          (Ok body,
           {| storage := {| MATRIX := Some (freshEntry body (now w));
                            INDEX := INDEX (storage w);
                            DEPTH := DEPTH (storage w) |};
              now := now w; network := network w; requests := requests w' |})
      | _ =>
          match MATRIX (storage w) with
          | Some cached => (Ok (data cached), w')
          | None => (Throw (NoCachedData "price matrix"), w')
          end
      end
  end.
Proof. fetcher_run MATRIX matrix_json. Qed.

Lemma fetchDCXIndex_run : forall forceRefresh w,
  fetchDCXIndex forceRefresh w =
  let w' := requested (BASE_URL ++ "/index.json")%string w in
  match cache_hit forceRefresh (INDEX (storage w)) (now w) with
  | Some cached => (Ok (data cached), w)
  | None =>
      match index_json (network w) with
      | Json body =>
          (Ok body,
           {| storage := {| MATRIX := MATRIX (storage w);
                            INDEX := Some (freshEntry body (now w));
                            DEPTH := DEPTH (storage w) |};
              now := now w; network := network w; requests := requests w' |})
      | _ =>
          match INDEX (storage w) with
          | Some cached => (Ok (data cached), w')
          | None => (Throw (NoCachedData "DCX index"), w')
          end
      end
  end.
Proof. fetcher_run INDEX index_json. Qed.

Lemma fetchMarketDepth_run : forall forceRefresh w,
  fetchMarketDepth forceRefresh w =
  let w' := requested (BASE_URL ++ "/depth.json")%string w in
  match cache_hit forceRefresh (DEPTH (storage w)) (now w) with
  | Some cached => (Ok (data cached), w)
  | None =>
      match depth_json (network w) with
      | Json body =>
          (Ok body,
           {| storage := {| MATRIX := MATRIX (storage w);
                            INDEX := INDEX (storage w);
                            DEPTH := Some (freshEntry body (now w)) |};
              now := now w; network := network w; requests := requests w' |})
      | _ =>
          match DEPTH (storage w) with
          | Some cached => (Ok (data cached), w')
          | None => (Throw (NoCachedData "market depth"), w')
          end
      end
  end.
Proof. fetcher_run DEPTH depth_json. Qed.

Ltac by_run run :=
  rewrite run; cbv zeta;
  repeat match goal with
    | |- context [match ?x with _ => _ end] => destruct x; cbn
    end.

(** Each fetcher leaves the clock, the network and the other two slots
    as they were. *)
Lemma fetchPriceMatrix_frame (forceRefresh : bool) (w : World) :
  let w' := snd (fetchPriceMatrix forceRefresh w) in
  now w' = now w /\ network w' = network w /\
  INDEX (storage w') = INDEX (storage w) /\
  DEPTH (storage w') = DEPTH (storage w).
Proof. by_run fetchPriceMatrix_run; repeat split; reflexivity. Qed.

Lemma fetchDCXIndex_frame (forceRefresh : bool) (w : World) :
  let w' := snd (fetchDCXIndex forceRefresh w) in
  now w' = now w /\ network w' = network w /\
  MATRIX (storage w') = MATRIX (storage w) /\
  DEPTH (storage w') = DEPTH (storage w).
Proof. by_run fetchDCXIndex_run; repeat split; reflexivity. Qed.

Lemma fetchMarketDepth_frame (forceRefresh : bool) (w : World) :
  let w' := snd (fetchMarketDepth forceRefresh w) in
  now w' = now w /\ network w' = network w /\
  MATRIX (storage w') = MATRIX (storage w) /\
  INDEX (storage w') = INDEX (storage w).
Proof. by_run fetchMarketDepth_run; repeat split; reflexivity. Qed.

(** A fetcher throws nothing but its "no cached data available" error,
    and only after a failed fetch with an empty slot. *)
Lemma fetchPriceMatrix_throws (forceRefresh : bool) (w : World) (e : JsError) :
  fst (fetchPriceMatrix forceRefresh w) = Throw e ->
  e = NoCachedData "price matrix" /\
  failed (matrix_json (network w)) = true /\ MATRIX (storage w) = None.
Proof.
  rewrite fetchPriceMatrix_run; cbv zeta.
  destruct (cache_hit _ _ _); [discriminate|].
  destruct (matrix_json (network w)), (MATRIX (storage w)); cbn;
    try discriminate; intros [= <-]; auto.
Qed.

Lemma fetchDCXIndex_throws (forceRefresh : bool) (w : World) (e : JsError) :
  fst (fetchDCXIndex forceRefresh w) = Throw e ->
  e = NoCachedData "DCX index" /\
  failed (index_json (network w)) = true /\ INDEX (storage w) = None.
Proof.
  rewrite fetchDCXIndex_run; cbv zeta.
  destruct (cache_hit _ _ _); [discriminate|].
  destruct (index_json (network w)), (INDEX (storage w)); cbn;
    try discriminate; intros [= <-]; auto.
Qed.

Lemma fetchMarketDepth_throws (forceRefresh : bool) (w : World) (e : JsError) :
  fst (fetchMarketDepth forceRefresh w) = Throw e ->
  e = NoCachedData "market depth" /\
  failed (depth_json (network w)) = true /\ DEPTH (storage w) = None.
Proof.
  rewrite fetchMarketDepth_run; cbv zeta.
  destruct (cache_hit _ _ _); [discriminate|].
  destruct (depth_json (network w)), (DEPTH (storage w)); cbn;
    try discriminate; intros [= <-]; auto.
Qed.

(** ** The orchestrator and its data *)

Section Orchestrator.

Context {rt : JsRuntime}.
Variables (caratWeight : Q) (colorGrade shape : string)
          (clarityGrade : option string).

(** What [Promise.all] settles with, case by case. *)
Lemma Promise_all_ok {A B C} (settles : nat -> nat)
    (ra : Result A) (rb : Result B) (rc : Result C) (x : A) (y : B) (z : C) :
  Promise_all settles ra rb rc = Ok (x, y, z) <->
  ra = Ok x /\ rb = Ok y /\ rc = Ok z.
Proof.
  unfold Promise_all.
  destruct ra as [x'|ea], rb as [y'|eb], rc as [z'|ec]; cbn;
    split; try discriminate; try (intros (? & ? & ?); discriminate).
  - intros [= -> -> ->]. auto.
  - intros ([= ->] & [= ->] & [= ->]). reflexivity.
Qed.

Lemma Promise_all_fulfilled {A B C} (settles : nat -> nat)
    (x : A) (y : B) (z : C) :
  Promise_all settles (Ok x) (Ok y) (Ok z) = Ok (x, y, z).
Proof. reflexivity. Qed.

(** A rejection of [Promise.all] is the rejection of one of the three. *)
Lemma Promise_all_throws {A B C} (settles : nat -> nat)
    (ra : Result A) (rb : Result B) (rc : Result C) (e : JsError) :
  Promise_all settles ra rb rc = Throw e ->
  ra = Throw e \/ rb = Throw e \/ rc = Throw e.
Proof.
  unfold Promise_all, earliest.
  destruct ra as [x|ea], rb as [y|eb], rc as [z|ec]; cbn;
    try discriminate;
    repeat match goal with
      | |- context [if ?b then _ else _] => destruct b; cbn
      end;
    intros [= <-]; auto.
Qed.

(** As soon as one of the three is rejected, so is [Promise.all]. *)
Lemma Promise_all_rejected {A B C} (settles : nat -> nat)
    (ra : Result A) (rb : Result B) (rc : Result C) :
  is_ok ra && is_ok rb && is_ok rc = false ->
  exists e, Promise_all settles ra rb rc = Throw e.
Proof.
  unfold Promise_all.
  destruct ra as [x|ea], rb as [y|eb], rc as [z|ec]; cbn;
    try discriminate; intros _; eexists; reflexivity.
Qed.

(** The rejection of the first promise is the one reported when it
    settles no later than the other two. *)
Lemma Promise_all_first {A B C} (settles : nat -> nat)
    (rb : Result B) (rc : Result C) (e : JsError) :
  (settles 0 <= settles 1)%nat -> (settles 0 <= settles 2)%nat ->
  Promise_all (A := A) settles (Throw e) rb rc = Throw e.
Proof.
  intros H1 H2.
  assert (E1 : (settles 1 <? settles 0)%nat = false)
    by (apply Nat.ltb_ge; lia).
  assert (E2 : (settles 2 <? settles 0)%nat = false)
    by (apply Nat.ltb_ge; lia).
  destruct rb as [y|eb], rc as [z|ec];
    cbv [Promise_all rejection app fold_left earliest fst snd];
    rewrite ?E1, ?E2; cbv [fst snd]; rewrite ?E2; reflexivity.
Qed.

(** The outcome of the quote: the three fetchers run in turn, and the
    pricing steps run on what they returned. *)
Lemma calculateDiamondPrice_run (w : World) :
  fst (calculateDiamondPrice caratWeight colorGrade shape clarityGrade w) =
  let '(rm, w1) := fetchPriceMatrix false w in
  let '(ri, w2) := fetchDCXIndex false w1 in
  let '(rd, w3) := fetchMarketDepth false w2 in
  reported
    (rbind (Promise_all (settles (network w)) rm ri rd) (fun fetched =>
       let '(matrixData, indexData, depthData) := fetched in
       fst (priceFromData caratWeight colorGrade shape clarityGrade
              matrixData indexData depthData w3))).
Proof.
  unfold calculateDiamondPrice, try_catch, bind, Promise_all3, throw.
  destruct (fetchPriceMatrix false w) as [rm w1].
  destruct (fetchDCXIndex false w1) as [ri w2].
  destruct (fetchMarketDepth false w2) as [rd w3].
  destruct (Promise_all _ rm ri rd) as [[[m i] d]|e]; [|reflexivity].
  cbn [rbind].
  destruct (priceFromData caratWeight colorGrade shape clarityGrade
              m i d w3) as [[q|e] w4]; reflexivity.
Qed.

(** The pricing steps read the world for the time only. *)
Lemma priceFromData_clock (m : PriceMatrixResponse) (i : DCXIndexResponse)
    (d : MarketDepthResponse) (w1 w2 : World) :
  now w1 = now w2 ->
  fst (priceFromData caratWeight colorGrade shape clarityGrade m i d w1) =
  fst (priceFromData caratWeight colorGrade shape clarityGrade m i d w2).
Proof.
  intro Hnow. unfold priceFromData, bind, lift, ret, throw, Date_now.
  destruct (findCaratBands _ _) as [[b1 b2]|e]; [|reflexivity].
  destruct (getLogPrice m b1 _ _) as [lp1|e]; [|reflexivity].
  destruct (getLogPrice m b2 _ _) as [lp2|e]; [|reflexivity].
  destruct b1 as [b1|], b2 as [b2|]; try reflexivity.
  cbn. now rewrite Hnow.
Qed.

Lemma findCaratBands_error (w : Q) (a : list Q) (e : JsError) :
  findCaratBands w a = Throw e -> e = UnableToFindCaratBands w.
Proof.
  unfold findCaratBands.
  repeat match goal with
    | |- context [match ?x with _ => _ end] => destruct x
    end; congruence.
Qed.

Lemma getLogPrice_error (m : PriceMatrixResponse) (band : option Q)
    (color clar : string) (e : JsError) :
  getLogPrice m band color clar = Throw e ->
  forall what, e <> NoCachedData what.
Proof.
  unfold getLogPrice.
  repeat match goal with
    | |- context [match ?x with _ => _ end] => destruct x
    end; intros [= <-] what; discriminate.
Qed.

(** The pricing steps never throw a "no cached data available" error. *)
Lemma priceFromData_error (m : PriceMatrixResponse) (i : DCXIndexResponse)
    (d : MarketDepthResponse) (w : World) (e : JsError) :
  fst (priceFromData caratWeight colorGrade shape clarityGrade m i d w)
    = Throw e ->
  forall what, e <> NoCachedData what.
Proof.
  unfold priceFromData, bind, lift, ret, throw, Date_now.
  destruct (findCaratBands _ _) as [[b1 b2]|e1] eqn:Eb.
  2:{ cbn. intros [= <-] what. apply findCaratBands_error in Eb.
      subst. discriminate. }
  destruct (getLogPrice m b1 _ _) as [lp1|e1] eqn:E1.
  2:{ cbn. intros [= <-]. eapply getLogPrice_error; eassumption. }
  destruct (getLogPrice m b2 _ _) as [lp2|e2] eqn:E2.
  2:{ cbn. intros [= <-]. eapply getLogPrice_error; eassumption. }
  destruct b1 as [b1|], b2 as [b2|]; cbn;
    try discriminate; intros [= <-] what; discriminate.
Qed.

Lemma getLogPrice_error_number (m : PriceMatrixResponse) (band : option Q)
    (color clar : string) (e : JsError) :
  getLogPrice m band color clar = Throw e -> e <> NotANumber.
Proof.
  unfold getLogPrice.
  repeat match goal with
    | |- context [match ?x with _ => _ end] => destruct x
    end; intros [= <-]; discriminate.
Qed.

(** The [NotANumber] stop of the model is not reached on a grid without
    the key ["NaN"]. *)
Lemma getLogPrice_undefined_band (m : PriceMatrixResponse)
    (color clar : string) :
  l m !! "NaN" = None ->
  getLogPrice m None color clar = Throw (NoDataForCaratBand None "NaN").
Proof. intro Hkey. unfold getLogPrice. now rewrite Hkey. Qed.

Lemma priceFromData_number (m : PriceMatrixResponse) (i : DCXIndexResponse)
    (d : MarketDepthResponse) (w : World) :
  l m !! "NaN" = None ->
  fst (priceFromData caratWeight colorGrade shape clarityGrade m i d w)
    <> Throw NotANumber.
Proof.
  intro Hkey. unfold priceFromData, bind, lift, ret, throw, Date_now.
  destruct (findCaratBands _ _) as [[b1 b2]|e1] eqn:Eb.
  2:{ apply findCaratBands_error in Eb. subst. cbn. intro Hc.
      discriminate Hc. }
  destruct b1 as [b1|].
  2:{ rewrite (getLogPrice_undefined_band _ _ _ Hkey). cbn. intro Hc.
      discriminate Hc. }
  destruct (getLogPrice m (Some b1) _ _) as [lp1|e1] eqn:E1.
  2:{ cbn. intros [= ->].
      exact (getLogPrice_error_number _ _ _ _ _ E1 eq_refl). }
  destruct b2 as [b2|].
  2:{ rewrite (getLogPrice_undefined_band _ _ _ Hkey). cbn. intro Hc.
      discriminate Hc. }
  destruct (getLogPrice m (Some b2) _ _) as [lp2|e2] eqn:E2.
  2:{ cbn. intros [= ->].
      exact (getLogPrice_error_number _ _ _ _ _ E2 eq_refl). }
  cbn. intro Hc. discriminate Hc.
Qed.

End Orchestrator.

(** What a fetcher returns depends on its own slot, its own endpoint and
    the clock only. *)
Lemma fetchDCXIndex_local (forceRefresh : bool) (w w' : World) :
  now w' = now w -> network w' = network w ->
  INDEX (storage w') = INDEX (storage w) ->
  fst (fetchDCXIndex forceRefresh w') = fst (fetchDCXIndex forceRefresh w).
Proof.
  intros Hnow Hnet Hslot. rewrite !fetchDCXIndex_run. cbv zeta.
  rewrite Hnow, Hnet, Hslot.
  destruct (cache_hit _ _ _); [reflexivity|].
  destruct (index_json (network w)), (INDEX (storage w)); reflexivity.
Qed.

Lemma fetchMarketDepth_local (forceRefresh : bool) (w w' : World) :
  now w' = now w -> network w' = network w ->
  DEPTH (storage w') = DEPTH (storage w) ->
  fst (fetchMarketDepth forceRefresh w') =
  fst (fetchMarketDepth forceRefresh w).
Proof.
  intros Hnow Hnet Hslot. rewrite !fetchMarketDepth_run. cbv zeta.
  rewrite Hnow, Hnet, Hslot.
  destruct (cache_hit _ _ _); [reflexivity|].
  destruct (depth_json (network w)), (DEPTH (storage w)); reflexivity.
Qed.

Section Quote.

Context {rt : JsRuntime}.
Variables (caratWeight : Q) (colorGrade shape : string)
          (clarityGrade : option string).

(** The quote in terms of what each fetcher returns in the initial
    world. *)
Lemma calculateDiamondPrice_outcome (w : World) :
  fst (calculateDiamondPrice caratWeight colorGrade shape clarityGrade w) =
  reported
    (rbind (Promise_all (settles (network w))
              (fst (fetchPriceMatrix false w))
              (fst (fetchDCXIndex false w))
              (fst (fetchMarketDepth false w)))
       (fun fetched =>
          let '(matrixData, indexData, depthData) := fetched in
          fst (priceFromData caratWeight colorGrade shape clarityGrade
                 matrixData indexData depthData w))).
Proof.
  rewrite calculateDiamondPrice_run.
  pose proof (fetchPriceMatrix_frame false w) as (Hn1 & Hk1 & Hi1 & Hd1).
  destruct (fetchPriceMatrix false w) as [rm w1]. cbn [fst snd] in *.
  pose proof (fetchDCXIndex_frame false w1) as (Hn2 & Hk2 & Hm2 & Hd2).
  rewrite <- (fetchDCXIndex_local false w w1 Hn1 Hk1 Hi1).
  destruct (fetchDCXIndex false w1) as [ri w2]. cbn [fst snd] in *.
  pose proof (fetchMarketDepth_frame false w2) as (Hn3 & Hk3 & Hm3 & Hi3).
  rewrite <- (fetchMarketDepth_local false w w2);
    [|congruence|congruence|congruence].
  destruct (fetchMarketDepth false w2) as [rd w3]. cbn [fst snd] in *.
  destruct (Promise_all _ rm ri rd) as [[[m i] d]|e]; [|reflexivity].
  cbn [rbind]. f_equal. apply priceFromData_clock. congruence.
Qed.

(** When the three fetchers return data, the quote is the outcome of the
    pricing steps on that data. *)
Lemma calculateDiamondPrice_on_data (w : World)
    (m : PriceMatrixResponse) (i : DCXIndexResponse)
    (d : MarketDepthResponse) :
  fst (fetchPriceMatrix false w) = Ok m ->
  fst (fetchDCXIndex false w) = Ok i ->
  fst (fetchMarketDepth false w) = Ok d ->
  fst (calculateDiamondPrice caratWeight colorGrade shape clarityGrade w) =
  reported
    (fst (priceFromData caratWeight colorGrade shape clarityGrade m i d w)).
Proof.
  intros Hm Hi Hd. rewrite calculateDiamondPrice_outcome, Hm, Hi, Hd.
  reflexivity.
Qed.

(** A rejected quote wraps the rejection of a fetcher or the error of
    the pricing steps on the data of the three. *)
Lemma calculateDiamondPrice_throws (w : World) (e : JsError) :
  fst (calculateDiamondPrice caratWeight colorGrade shape clarityGrade w)
    = Throw e ->
  exists cause,
    e = PricingFailed cause /\
    (fst (fetchPriceMatrix false w) = Throw cause \/
     fst (fetchDCXIndex false w) = Throw cause \/
     fst (fetchMarketDepth false w) = Throw cause \/
     exists m i d,
       fst (fetchPriceMatrix false w) = Ok m /\
       fst (fetchDCXIndex false w) = Ok i /\
       fst (fetchMarketDepth false w) = Ok d /\
       fst (priceFromData caratWeight colorGrade shape clarityGrade m i d w)
         = Throw cause).
Proof.
  rewrite calculateDiamondPrice_outcome.
  destruct (Promise_all _ _ _ _) as [[[m i] d]|cause] eqn:Eall;
    cbn [rbind reported].
  - apply Promise_all_ok in Eall as (Hm & Hi & Hd).
    destruct (fst (priceFromData _ _ _ _ m i d w)) as [q|cause] eqn:Eq;
      [discriminate|].
    intros [= <-]. exists cause. split; [reflexivity|].
    do 3 right. now exists m, i, d.
  - intros [= <-]. exists cause. split; [reflexivity|].
    apply Promise_all_throws in Eall. tauto.
Qed.

(** Without matrix data the quote is rejected, with the "no cached data
    available" error of a dataset that is not available: the matrix, or
    another one whose fetcher is rejected earlier. *)
Lemma quote_without_matrix (w : World) :
  failed (matrix_json (network w)) = true ->
  MATRIX (storage w) = None ->
  exists what,
    fst (calculateDiamondPrice caratWeight colorGrade shape clarityGrade w)
      = Throw (PricingFailed (NoCachedData what)) /\
    (what = "price matrix" \/
     (what = "DCX index" /\ failed (index_json (network w)) = true /\
      INDEX (storage w) = None) \/
     (what = "market depth" /\ failed (depth_json (network w)) = true /\
      DEPTH (storage w) = None)).
Proof.
  intros Hfail Hslot. rewrite calculateDiamondPrice_outcome.
  pose proof (without_data_matrix false w Hfail Hslot) as Hm.
  apply (f_equal fst) in Hm. cbn [fst] in Hm. rewrite Hm.
  destruct (Promise_all_rejected (A := PriceMatrixResponse)
              (settles (network w))
              (Throw (NoCachedData "price matrix"))
              (fst (fetchDCXIndex false w))
              (fst (fetchMarketDepth false w)) eq_refl) as [e He].
  rewrite He. cbn [rbind reported].
  apply Promise_all_throws in He as [[= <-]|[Hi|Hd]].
  - exists "price matrix". split; [reflexivity|]. now left.
  - apply fetchDCXIndex_throws in Hi as (-> & ? & ?).
    exists "DCX index". split; [reflexivity|]. right. left. auto.
  - apply fetchMarketDepth_throws in Hd as (-> & ? & ?).
    exists "market depth". split; [reflexivity|]. right. right. auto.
Qed.

(** It is the error of the matrix when the matrix fetcher is rejected no
    later than the other two. *)
Lemma quote_without_matrix_first (w : World) :
  failed (matrix_json (network w)) = true ->
  MATRIX (storage w) = None ->
  (settles (network w) 0 <= settles (network w) 1)%nat ->
  (settles (network w) 0 <= settles (network w) 2)%nat ->
  fst (calculateDiamondPrice caratWeight colorGrade shape clarityGrade w) =
  Throw (PricingFailed (NoCachedData "price matrix")).
Proof.
  intros Hfail Hslot H1 H2. rewrite calculateDiamondPrice_outcome.
  pose proof (without_data_matrix false w Hfail Hslot) as Hm.
  apply (f_equal fst) in Hm. cbn [fst] in Hm. rewrite Hm.
  now rewrite Promise_all_first.
Qed.

Lemma quote_on_stale_matrix (w : World)
    (cached : CachedData PriceMatrixResponse)
    (indexData : DCXIndexResponse) (depthData : MarketDepthResponse) :
  failed (matrix_json (network w)) = true ->
  MATRIX (storage w) = Some cached ->
  fst (fetchDCXIndex false w) = Ok indexData ->
  fst (fetchMarketDepth false w) = Ok depthData ->
  fst (calculateDiamondPrice caratWeight colorGrade shape clarityGrade w) =
  reported
    (fst (priceFromData caratWeight colorGrade shape clarityGrade
            (data cached) indexData depthData w)).
Proof.
  intros Hfail Hslot Hindex Hdepth.
  apply calculateDiamondPrice_on_data; [|exact Hindex|exact Hdepth].
  exact (stale_cache_matrix false w cached Hfail Hslot).
Qed.

Lemma quote_no_data_only_when_unavailable (w : World) (what : string) :
  fst (calculateDiamondPrice caratWeight colorGrade shape clarityGrade w) =
    Throw (PricingFailed (NoCachedData what)) ->
  (what = "price matrix" /\ failed (matrix_json (network w)) = true /\
   MATRIX (storage w) = None) \/
  (what = "DCX index" /\ failed (index_json (network w)) = true /\
   INDEX (storage w) = None) \/
  (what = "market depth" /\ failed (depth_json (network w)) = true /\
   DEPTH (storage w) = None).
Proof.
  intro Hquote.
  apply calculateDiamondPrice_throws in Hquote
    as (cause & [= <-] & [Em|[Ei|[Ed|(m & i & d & _ & _ & _ & Eq)]]]).
  - apply fetchPriceMatrix_throws in Em as ([= ->] & ? & ?). auto.
  - apply fetchDCXIndex_throws in Ei as ([= ->] & ? & ?). auto.
  - apply fetchMarketDepth_throws in Ed as ([= ->] & ? & ?). auto.
  - exfalso.
    exact (priceFromData_error _ _ _ _ _ _ _ _ _ Eq what eq_refl).
Qed.

End Quote.

(** C9. Each of the three fetchers, when not forced, serves an entry that
    has not expired without issuing a request (the world is unchanged);
    a successful fetch returns the body and leaves in the slot an entry
    captured at the current time and expiring 24 hours (86400000 ms)
    later, whatever the slot held; and an entry is valid exactly when the
    current time is before its expiry, no entry being invalid. *)
Theorem cache_serves_valid_and_stores_fresh :
  (serves_valid_cache fetchPriceMatrix MATRIX /\
   serves_valid_cache fetchDCXIndex INDEX /\
   serves_valid_cache fetchMarketDepth DEPTH) /\
  (stores_fresh_entry fetchPriceMatrix MATRIX matrix_json
     "https://data.openfacet.net/matrix.json" /\
   stores_fresh_entry fetchDCXIndex INDEX index_json
     "https://data.openfacet.net/index.json" /\
   stores_fresh_entry fetchMarketDepth DEPTH depth_json
     "https://data.openfacet.net/depth.json") /\
  (24 * 60 * 60 * 1000 = 86400000)%Z /\
  (forall T (cached : CachedData T) w,
      fst (isCacheValid (Some cached) w) = Ok true <->
      (now w < expiresAt cached)%Z) /\
  (forall T w, fst (isCacheValid (@None (CachedData T)) w) = Ok false).
Proof.
  split; [|split; [|split; [|split]]].
  - exact (conj valid_cache_matrix (conj valid_cache_index valid_cache_depth)).
  - exact (conj fresh_entry_matrix (conj fresh_entry_index fresh_entry_depth)).
  - reflexivity.
  - intros T cached w. apply isCacheValid_iff.
  - reflexivity.
Qed.

Lemma cache_serves_valid_and_stores_fresh_witness :
  MATRIX (storage Sample.world_valid_offline)
    = Some (Sample.entry Sample.grid 0) /\
  (now Sample.world_valid_offline
   < expiresAt (Sample.entry Sample.grid 0))%Z /\
  fetchPriceMatrix false Sample.world_valid_offline
    = (Ok Sample.grid, Sample.world_valid_offline).
Proof.
  assert (Hslot : MATRIX (storage Sample.world_valid_offline)
                  = Some (Sample.entry Sample.grid 0)) by reflexivity.
  assert (Hvalid : (now Sample.world_valid_offline
                    < expiresAt (Sample.entry Sample.grid 0))%Z)
    by (cbn; lia).
  split; [exact Hslot|]. split; [exact Hvalid|].
  exact (proj1 (proj1 cache_serves_valid_and_stores_fresh)
           Sample.world_valid_offline _ Hslot Hvalid).
Defined.

(** ** The fetchers on a storage that can fail *)

(** What a fetcher does, case by case. *)
Ltac faulty_run slot unparsable endpoint :=
  intros forceRefresh s;
  destruct s as [w f];
  unfold Faulty.attempt, Faulty.served, Faulty.text_of, freshEntry;
  unfold Faulty.fetchPriceMatrix, Faulty.fetchDCXIndex,
    Faulty.fetchMarketDepth, Faulty.try_catch, Faulty.bind, Faulty.ret,
    Faulty.throw, Faulty.lift, Faulty.JSON_parse,
    Faulty.getItem_MATRIX, Faulty.getItem_INDEX, Faulty.getItem_DEPTH,
    Faulty.setItem_MATRIX, Faulty.setItem_INDEX, Faulty.setItem_DEPTH,
    Faulty.setItem, isCacheValid, createCacheEntry, fetch_json, Date_now,
    bind, ret, with_storage, requested;
  cbn [Faulty.world Faulty.faults];
  destruct forceRefresh;
  destruct (Faulty.getItem_rejects f) eqn:?;
  destruct (unparsable f) eqn:?;
  destruct (slot (storage w)) as [cached|] eqn:?;
  destruct (endpoint (network w)) eqn:?;
  destruct (Faulty.setItem_rejects f) eqn:?;
  cbn;
  repeat first
    [ match goal with
      | H : ?x = _ |- context [?x] => rewrite H
      end
    | progress cbn
    | match goal with
      | |- context [if (?a <? ?b)%Z then _ else _] => destruct (a <? b)%Z
      end ];
  reflexivity.

Lemma Faulty_fetchPriceMatrix_run : forall forceRefresh s,
  Faulty.fetchPriceMatrix forceRefresh s =
  let w := Faulty.world s in
  let f := Faulty.faults s in
  let cachedJson :=
    Faulty.text_of (MATRIX (storage w)) (Faulty.unparsable_MATRIX f) in
  let fallback := Faulty.served f cachedJson "price matrix" in
  let s' :=
    {| Faulty.world := requested (BASE_URL ++ "/matrix.json")%string w;
       Faulty.faults := f |} in
  match Faulty.attempt forceRefresh f cachedJson (now w) with
  | Faulty.Hit cached => (Ok (data cached), s)
  | Faulty.ReadThrows => (fallback, s)
  | Faulty.Request =>
      match matrix_json (network w) with
      | Json body =>
          if Faulty.setItem_rejects f then (fallback, s')
          else
            (Ok body,
             {| Faulty.world :=
                  {| storage :=
                       {| MATRIX := Some (freshEntry body (now w));
                          INDEX := INDEX (storage w);
                          DEPTH := DEPTH (storage w) |};
                     now := now w; network := network w;
                     requests :=
                       (BASE_URL ++ "/matrix.json")%string :: requests w |};
                Faulty.faults :=
                  {| Faulty.getItem_rejects := Faulty.getItem_rejects f;
                     Faulty.setItem_rejects := Faulty.setItem_rejects f;
                     Faulty.unparsable_MATRIX := false;
                     Faulty.unparsable_INDEX := Faulty.unparsable_INDEX f;
                     Faulty.unparsable_DEPTH := Faulty.unparsable_DEPTH f
                  |} |})
      | _ => (fallback, s')
      end
  end.
Proof. faulty_run MATRIX Faulty.unparsable_MATRIX matrix_json. Qed.

Lemma Faulty_fetchDCXIndex_run : forall forceRefresh s,
  Faulty.fetchDCXIndex forceRefresh s =
  let w := Faulty.world s in
  let f := Faulty.faults s in
  let cachedJson :=
    Faulty.text_of (INDEX (storage w)) (Faulty.unparsable_INDEX f) in
  let fallback := Faulty.served f cachedJson "DCX index" in
  let s' :=
    {| Faulty.world := requested (BASE_URL ++ "/index.json")%string w;
       Faulty.faults := f |} in
  match Faulty.attempt forceRefresh f cachedJson (now w) with
  | Faulty.Hit cached => (Ok (data cached), s)
  | Faulty.ReadThrows => (fallback, s)
  | Faulty.Request =>
      match index_json (network w) with
      | Json body =>
          if Faulty.setItem_rejects f then (fallback, s')
          else
            (Ok body,
             {| Faulty.world :=
                  {| storage :=
                       {| MATRIX := MATRIX (storage w);
                          INDEX := Some (freshEntry body (now w));
                          DEPTH := DEPTH (storage w) |};
                     now := now w; network := network w;
                     requests :=
                       (BASE_URL ++ "/index.json")%string :: requests w |};
                Faulty.faults :=
                  {| Faulty.getItem_rejects := Faulty.getItem_rejects f;
                     Faulty.setItem_rejects := Faulty.setItem_rejects f;
                     Faulty.unparsable_MATRIX := Faulty.unparsable_MATRIX f;
                     Faulty.unparsable_INDEX := false;
                     Faulty.unparsable_DEPTH := Faulty.unparsable_DEPTH f
                  |} |})
      | _ => (fallback, s')
      end
  end.
Proof. faulty_run INDEX Faulty.unparsable_INDEX index_json. Qed.

Lemma Faulty_fetchMarketDepth_run : forall forceRefresh s,
  Faulty.fetchMarketDepth forceRefresh s =
  let w := Faulty.world s in
  let f := Faulty.faults s in
  let cachedJson :=
    Faulty.text_of (DEPTH (storage w)) (Faulty.unparsable_DEPTH f) in
  let fallback := Faulty.served f cachedJson "market depth" in
  let s' :=
    {| Faulty.world := requested (BASE_URL ++ "/depth.json")%string w;
       Faulty.faults := f |} in
  match Faulty.attempt forceRefresh f cachedJson (now w) with
  | Faulty.Hit cached => (Ok (data cached), s)
  | Faulty.ReadThrows => (fallback, s)
  | Faulty.Request =>
      match depth_json (network w) with
      | Json body =>
          if Faulty.setItem_rejects f then (fallback, s')
          else
            (Ok body,
             {| Faulty.world :=
                  {| storage :=
                       {| MATRIX := MATRIX (storage w);
                          INDEX := INDEX (storage w);
                          DEPTH := Some (freshEntry body (now w)) |};
                     now := now w; network := network w;
                     requests :=
                       (BASE_URL ++ "/depth.json")%string :: requests w |};
                Faulty.faults :=
                  {| Faulty.getItem_rejects := Faulty.getItem_rejects f;
                     Faulty.setItem_rejects := Faulty.setItem_rejects f;
                     Faulty.unparsable_MATRIX := Faulty.unparsable_MATRIX f;
                     Faulty.unparsable_INDEX := Faulty.unparsable_INDEX f;
                     Faulty.unparsable_DEPTH := false
                  |} |})
      | _ => (fallback, s')
      end
  end.
Proof. faulty_run DEPTH Faulty.unparsable_DEPTH depth_json. Qed.

(** On a storage without faults the fetchers are those of the world. *)
Ltac healthy_run run faulty_run slot endpoint :=
  intros forceRefresh w; rewrite faulty_run, run; cbv zeta;
  unfold Faulty.healthy, Faulty.attempt, Faulty.served, Faulty.text_of,
    cache_hit, requested;
  cbn [Faulty.world Faulty.faults Faulty.no_faults Faulty.getItem_rejects
       Faulty.setItem_rejects Faulty.unparsable_MATRIX
       Faulty.unparsable_INDEX Faulty.unparsable_DEPTH];
  destruct forceRefresh, (endpoint (network w)), (slot (storage w));
  cbn;
  try match goal with
    | |- context [if (?a <? ?b)%Z then _ else _] => destruct (a <? b)%Z
    end;
  reflexivity.

Lemma healthy_fetchPriceMatrix : forall forceRefresh w,
  Faulty.fetchPriceMatrix forceRefresh (Faulty.healthy w) =
  (fst (fetchPriceMatrix forceRefresh w),
   Faulty.healthy (snd (fetchPriceMatrix forceRefresh w))).
Proof.
  healthy_run fetchPriceMatrix_run Faulty_fetchPriceMatrix_run
    MATRIX matrix_json.
Qed.

Lemma healthy_fetchDCXIndex : forall forceRefresh w,
  Faulty.fetchDCXIndex forceRefresh (Faulty.healthy w) =
  (fst (fetchDCXIndex forceRefresh w),
   Faulty.healthy (snd (fetchDCXIndex forceRefresh w))).
Proof.
  healthy_run fetchDCXIndex_run Faulty_fetchDCXIndex_run
    INDEX index_json.
Qed.

Lemma healthy_fetchMarketDepth : forall forceRefresh w,
  Faulty.fetchMarketDepth forceRefresh (Faulty.healthy w) =
  (fst (fetchMarketDepth forceRefresh w),
   Faulty.healthy (snd (fetchMarketDepth forceRefresh w))).
Proof.
  healthy_run fetchMarketDepth_run Faulty_fetchMarketDepth_run
    DEPTH depth_json.
Qed.

(** A fetcher leaves alone what the other two read. *)
Ltac faulty_frame run :=
  intros forceRefresh s; rewrite run; cbv zeta;
  destruct (Faulty.attempt _ _ _ _);
  [ | match goal with
      | |- context [match ?e (network _) with _ => _ end] =>
          destruct (e (network (Faulty.world s)))
      end;
      try destruct (Faulty.setItem_rejects (Faulty.faults s)) eqn:? | ];
  cbn; repeat split; congruence.

Lemma Faulty_fetchPriceMatrix_frame : forall forceRefresh s,
  let s' := snd (Faulty.fetchPriceMatrix forceRefresh s) in
  (now (Faulty.world s') = now (Faulty.world s) /\
   network (Faulty.world s') = network (Faulty.world s)) /\
  (Faulty.getItem_rejects (Faulty.faults s')
   = Faulty.getItem_rejects (Faulty.faults s) /\
   Faulty.setItem_rejects (Faulty.faults s')
   = Faulty.setItem_rejects (Faulty.faults s)) /\
  (INDEX (storage (Faulty.world s')) = INDEX (storage (Faulty.world s)) /\
   Faulty.unparsable_INDEX (Faulty.faults s')
   = Faulty.unparsable_INDEX (Faulty.faults s)) /\
  (DEPTH (storage (Faulty.world s')) = DEPTH (storage (Faulty.world s)) /\
   Faulty.unparsable_DEPTH (Faulty.faults s')
   = Faulty.unparsable_DEPTH (Faulty.faults s)).
Proof. faulty_frame Faulty_fetchPriceMatrix_run. Qed.

Lemma Faulty_fetchDCXIndex_frame : forall forceRefresh s,
  let s' := snd (Faulty.fetchDCXIndex forceRefresh s) in
  (now (Faulty.world s') = now (Faulty.world s) /\
   network (Faulty.world s') = network (Faulty.world s)) /\
  (Faulty.getItem_rejects (Faulty.faults s')
   = Faulty.getItem_rejects (Faulty.faults s) /\
   Faulty.setItem_rejects (Faulty.faults s')
   = Faulty.setItem_rejects (Faulty.faults s)) /\
  (DEPTH (storage (Faulty.world s')) = DEPTH (storage (Faulty.world s)) /\
   Faulty.unparsable_DEPTH (Faulty.faults s')
   = Faulty.unparsable_DEPTH (Faulty.faults s)).
Proof. faulty_frame Faulty_fetchDCXIndex_run. Qed.

Lemma Faulty_fetchMarketDepth_frame : forall forceRefresh s,
  let s' := snd (Faulty.fetchMarketDepth forceRefresh s) in
  now (Faulty.world s') = now (Faulty.world s) /\
  network (Faulty.world s') = network (Faulty.world s).
Proof. faulty_frame Faulty_fetchMarketDepth_run. Qed.

(** What a fetcher returns depends on the clock, the network, the two
    storage faults and the text under its own key only. *)
Ltac faulty_local run :=
  intros forceRefresh s s' [Hnow Hnet] [Hget Hset] [Hslot Htext];
  rewrite !run; cbv zeta; unfold Faulty.attempt, Faulty.served;
  rewrite Hnow, Hnet, Hget, Hset, Hslot, Htext;
  repeat match goal with
    | |- context [match ?x with _ => _ end] => destruct x; cbn [fst]
    end;
  reflexivity.

Lemma Faulty_fetchDCXIndex_local : forall forceRefresh s s',
  (now (Faulty.world s') = now (Faulty.world s) /\
   network (Faulty.world s') = network (Faulty.world s)) ->
  (Faulty.getItem_rejects (Faulty.faults s')
   = Faulty.getItem_rejects (Faulty.faults s) /\
   Faulty.setItem_rejects (Faulty.faults s')
   = Faulty.setItem_rejects (Faulty.faults s)) ->
  (INDEX (storage (Faulty.world s')) = INDEX (storage (Faulty.world s)) /\
   Faulty.unparsable_INDEX (Faulty.faults s')
   = Faulty.unparsable_INDEX (Faulty.faults s)) ->
  fst (Faulty.fetchDCXIndex forceRefresh s')
  = fst (Faulty.fetchDCXIndex forceRefresh s).
Proof. faulty_local Faulty_fetchDCXIndex_run. Qed.

Lemma Faulty_fetchMarketDepth_local : forall forceRefresh s s',
  (now (Faulty.world s') = now (Faulty.world s) /\
   network (Faulty.world s') = network (Faulty.world s)) ->
  (Faulty.getItem_rejects (Faulty.faults s')
   = Faulty.getItem_rejects (Faulty.faults s) /\
   Faulty.setItem_rejects (Faulty.faults s')
   = Faulty.setItem_rejects (Faulty.faults s)) ->
  (DEPTH (storage (Faulty.world s')) = DEPTH (storage (Faulty.world s)) /\
   Faulty.unparsable_DEPTH (Faulty.faults s')
   = Faulty.unparsable_DEPTH (Faulty.faults s)) ->
  fst (Faulty.fetchMarketDepth forceRefresh s')
  = fst (Faulty.fetchMarketDepth forceRefresh s).
Proof. faulty_local Faulty_fetchMarketDepth_run. Qed.

(** Why a fetcher is rejected: its [catch] block found no text under the
    key, could not read, or could not parse what it read; and it was
    reached because the read or the parse threw, the request failed, or
    the write was rejected. The errors of the request and of the write
    themselves are never the rejection. *)
Ltac faulty_throws run slot unparsable endpoint :=
  intros forceRefresh s e; rewrite run; cbv zeta;
  unfold Faulty.attempt, Faulty.served, Faulty.text_of, failed;
  destruct forceRefresh;
  destruct (Faulty.getItem_rejects (Faulty.faults s));
  destruct (unparsable (Faulty.faults s));
  destruct (slot (storage (Faulty.world s))) as [cached|];
  cbn;
  try match goal with
    | |- context [if (?a <? ?b)%Z then _ else _] => destruct (a <? b)%Z
    end;
  cbn;
  destruct (endpoint (network (Faulty.world s)));
  destruct (Faulty.setItem_rejects (Faulty.faults s));
  cbn; try discriminate; intros [= <-]; tauto.

Lemma Faulty_fetchPriceMatrix_throws : forall forceRefresh s e,
  fst (Faulty.fetchPriceMatrix forceRefresh s) = Throw e ->
  (e = NoCachedData "price matrix" /\
   Faulty.getItem_rejects (Faulty.faults s) = false /\
   Faulty.unparsable_MATRIX (Faulty.faults s) = false /\
   MATRIX (storage (Faulty.world s)) = None /\
   (failed (matrix_json (network (Faulty.world s))) = true \/
    Faulty.setItem_rejects (Faulty.faults s) = true)) \/
  (e = StorageRejected "getItem" /\
   Faulty.getItem_rejects (Faulty.faults s) = true) \/
  (e = JsonSyntaxError /\
   Faulty.getItem_rejects (Faulty.faults s) = false /\
   Faulty.unparsable_MATRIX (Faulty.faults s) = true).
Proof.
  faulty_throws Faulty_fetchPriceMatrix_run MATRIX Faulty.unparsable_MATRIX
    matrix_json.
Qed.

Lemma Faulty_fetchDCXIndex_throws : forall forceRefresh s e,
  fst (Faulty.fetchDCXIndex forceRefresh s) = Throw e ->
  (e = NoCachedData "DCX index" /\
   Faulty.getItem_rejects (Faulty.faults s) = false /\
   Faulty.unparsable_INDEX (Faulty.faults s) = false /\
   INDEX (storage (Faulty.world s)) = None /\
   (failed (index_json (network (Faulty.world s))) = true \/
    Faulty.setItem_rejects (Faulty.faults s) = true)) \/
  (e = StorageRejected "getItem" /\
   Faulty.getItem_rejects (Faulty.faults s) = true) \/
  (e = JsonSyntaxError /\
   Faulty.getItem_rejects (Faulty.faults s) = false /\
   Faulty.unparsable_INDEX (Faulty.faults s) = true).
Proof.
  faulty_throws Faulty_fetchDCXIndex_run INDEX Faulty.unparsable_INDEX
    index_json.
Qed.

Lemma Faulty_fetchMarketDepth_throws : forall forceRefresh s e,
  fst (Faulty.fetchMarketDepth forceRefresh s) = Throw e ->
  (e = NoCachedData "market depth" /\
   Faulty.getItem_rejects (Faulty.faults s) = false /\
   Faulty.unparsable_DEPTH (Faulty.faults s) = false /\
   DEPTH (storage (Faulty.world s)) = None /\
   (failed (depth_json (network (Faulty.world s))) = true \/
    Faulty.setItem_rejects (Faulty.faults s) = true)) \/
  (e = StorageRejected "getItem" /\
   Faulty.getItem_rejects (Faulty.faults s) = true) \/
  (e = JsonSyntaxError /\
   Faulty.getItem_rejects (Faulty.faults s) = false /\
   Faulty.unparsable_DEPTH (Faulty.faults s) = true).
Proof.
  faulty_throws Faulty_fetchMarketDepth_run DEPTH Faulty.unparsable_DEPTH
    depth_json.
Qed.

Section FaultyQuote.

Context {rt : JsRuntime}.
Variables (caratWeight : Q) (colorGrade shape : string)
          (clarityGrade : option string).

(** The quote in terms of what each fetcher returns in the initial
    state. *)
Lemma Faulty_calculateDiamondPrice_outcome (s : Faulty.Machine) :
  fst (Faulty.calculateDiamondPrice caratWeight colorGrade shape
         clarityGrade s) =
  reported
    (rbind (Promise_all (settles (network (Faulty.world s)))
              (fst (Faulty.fetchPriceMatrix false s))
              (fst (Faulty.fetchDCXIndex false s))
              (fst (Faulty.fetchMarketDepth false s)))
       (fun fetched =>
          let '(matrixData, indexData, depthData) := fetched in
          fst (priceFromData caratWeight colorGrade shape clarityGrade
                 matrixData indexData depthData (Faulty.world s)))).
Proof.
  unfold Faulty.calculateDiamondPrice, Faulty.try_catch, Faulty.bind,
    Faulty.Promise_all3, Faulty.throw, Faulty.lift.
  pose proof (Faulty_fetchPriceMatrix_frame false s)
    as (Hc1 & Hf1 & Hi1 & Hd1).
  destruct (Faulty.fetchPriceMatrix false s) as [rm s1]. cbn [fst snd] in *.
  pose proof (Faulty_fetchDCXIndex_frame false s1) as (Hc2 & Hf2 & Hd2).
  rewrite <- (Faulty_fetchDCXIndex_local false s s1 Hc1 Hf1 Hi1).
  destruct (Faulty.fetchDCXIndex false s1) as [ri s2]. cbn [fst snd] in *.
  pose proof (Faulty_fetchMarketDepth_frame false s2) as Hc3.
  rewrite <- (Faulty_fetchMarketDepth_local false s s2);
    [|split; [destruct Hc1, Hc2|destruct Hc1, Hc2]; congruence
     |split; [destruct Hf1, Hf2|destruct Hf1, Hf2]; congruence
     |split; [destruct Hd1, Hd2|destruct Hd1, Hd2]; congruence].
  destruct (Faulty.fetchMarketDepth false s2) as [rd s3]. cbn [fst snd] in *.
  destruct (Promise_all _ rm ri rd) as [[[m i] d]|e]; [|reflexivity].
  cbn [rbind].
  assert (Hnow : now (Faulty.world s3) = now (Faulty.world s))
    by (destruct Hc1, Hc2, Hc3; congruence).
  rewrite <- (priceFromData_clock caratWeight colorGrade shape clarityGrade
                m i d _ _ Hnow).
  destruct (priceFromData caratWeight colorGrade shape clarityGrade
              m i d (Faulty.world s3)) as [[q|e] w4]; reflexivity.
Qed.

(** On a storage without faults the quote is that of the world. *)
Lemma healthy_calculateDiamondPrice (w : World) :
  fst (Faulty.calculateDiamondPrice caratWeight colorGrade shape
         clarityGrade (Faulty.healthy w))
  = fst (calculateDiamondPrice caratWeight colorGrade shape clarityGrade w).
Proof.
  rewrite Faulty_calculateDiamondPrice_outcome,
    calculateDiamondPrice_outcome.
  now rewrite healthy_fetchPriceMatrix, healthy_fetchDCXIndex,
    healthy_fetchMarketDepth.
Qed.


Lemma Faulty_calculateDiamondPrice_throws (s : Faulty.Machine)
    (e : JsError) :
  fst (Faulty.calculateDiamondPrice caratWeight colorGrade shape
         clarityGrade s) = Throw e ->
  exists cause,
    e = PricingFailed cause /\
    (fst (Faulty.fetchPriceMatrix false s) = Throw cause \/
     fst (Faulty.fetchDCXIndex false s) = Throw cause \/
     fst (Faulty.fetchMarketDepth false s) = Throw cause \/
     exists m i d,
       fst (priceFromData caratWeight colorGrade shape clarityGrade m i d
              (Faulty.world s)) = Throw cause).
Proof.
  rewrite Faulty_calculateDiamondPrice_outcome.
  destruct (Promise_all _ _ _ _) as [[[m i] d]|cause] eqn:Eall;
    cbn [rbind reported].
  - destruct (fst (priceFromData _ _ _ _ m i d _)) as [q|cause] eqn:Eq;
      [discriminate|].
    intros [= <-]. exists cause. split; [reflexivity|].
    do 3 right. now exists m, i, d.
  - intros [= <-]. exists cause. split; [reflexivity|].
    apply Promise_all_throws in Eall. tauto.
Qed.


End FaultyQuote.














(** ** Worked examples on the sample runtime *)

(** The scenarios of the specification: bands 1.0 and 1.5 with
    log-prices 9.0 and 9.4, a request for 1.25 carat; and an exact
    request for 1.0 carat. *)
Example interpolate_between_bands :
  let i := interpolateLogPrice 9 (94 # 10) (5 # 4) 1 (3 # 2) in
  lambda i == 1 # 2 /\ interpolatedLogPrice i == 92 # 10.
Proof. split; reflexivity. Qed.

Example interpolate_exact_band :
  findCaratBands 1 [1; 3 # 2] = Ok (Some 1, Some 1) /\
  interpolateLogPrice 9 9 1 1 1
  = {| interpolatedLogPrice := 9; lambda := 0 |}.
Proof. split; reflexivity. Qed.

Example normalize_Colorless :
  normalizeColorGrade "Colorless"
    (Some ["D"; "E"; "F"; "G"; "H"; "I"; "J"; "K"; "L"; "M"]) = "E".
Proof. vm_compute. reflexivity. Qed.

Example normalize_Z :
  normalizeColorGrade "Z"
    (Some ["D"; "E"; "F"; "G"; "H"; "I"; "J"; "K"; "L"; "M"]) = "M".
Proof. vm_compute. reflexivity. Qed.

(** With labels listed in descending order the clamp ends on the last
    label, which is then the least one. *)
Example normalize_descending_grid :
  normalizeColorGrade "Z" (Some ["M"; "D"]) = "D" /\
  normalizeColorGrade "E" (Some ["M"; "D"]) = "D".
Proof. split; vm_compute; reflexivity. Qed.

Example depth_first_match :
  getMarketDepth (rt := Sample.runtime) Sample.depth 1 "D" "VS2" = 120 /\
  getMarketDepth (rt := Sample.runtime) Sample.depth 1 "E" "VS2" = 0.
Proof. split; vm_compute; reflexivity. Qed.

(** The network is down and every entry has expired: the quote is
    computed from the stale entries. *)
Example quote_on_stale_cache :
  exists quote,
    fst (calculateDiamondPrice (rt := Sample.runtime)
           (5 # 4) "Colorless" "Round" None Sample.world_stale_offline)
    = Ok quote /\
    confidence quote = 65 /\
    option_map colorUsed (_details quote) = Some "E" /\
    option_map interpolationFactor (_details quote) = Some (1000 # 2000).
Proof.
  eexists. split; [vm_compute; reflexivity|]. repeat split.
Qed.

(** The network is down and nothing is stored: the quote rejects. *)
Example quote_without_any_data :
  fst (calculateDiamondPrice (rt := Sample.runtime)
         1 "D" "Oval" (Some "VS2") Sample.world_empty_offline)
  = Throw (PricingFailed (NoCachedData "price matrix")).
Proof. vm_compute. reflexivity. Qed.

(** Data at hand does not make every request priceable: a clarity grade
    absent from the grid's columns is rejected. *)
Example quote_unknown_clarity :
  fst (calculateDiamondPrice (rt := Sample.runtime)
         1 "D" "Oval" (Some "SI9") Sample.world_stale_offline)
  = Throw (PricingFailed (ClarityNotFound "SI9")).
Proof. vm_compute. reflexivity. Qed.

(** A valid cache is used without any request; a forced or expired one
    leads to the three requests. *)
Example requests_issued :
  requests (snd (calculateDiamondPrice (rt := Sample.runtime)
                   1 "D" "Oval" (Some "VS2") Sample.world_valid_offline))
  = [] /\
  requests (snd (calculateDiamondPrice (rt := Sample.runtime)
                   1 "D" "Oval" (Some "VS2") Sample.world_stale_online))
  = ["https://data.openfacet.net/depth.json";
     "https://data.openfacet.net/index.json";
     "https://data.openfacet.net/matrix.json"].
Proof. split; vm_compute; reflexivity. Qed.

(** On a grid with a single band, a weight off that band makes the quote
    reject: the band search hands over an [undefined] band and the grid
    has no such key. *)
Example quote_single_band_grid :
  fst (calculateDiamondPrice (rt := Sample.runtime)
         (1 # 2) "D" "Round" None Sample.world_single_band)
  = Throw (PricingFailed (NoDataForCaratBand None "NaN")) /\
  fst (calculateDiamondPrice (rt := Sample.runtime)
         2 "D" "Round" None Sample.world_single_band)
  = Throw (PricingFailed (NoDataForCaratBand None "NaN")).
Proof. split; vm_compute; reflexivity. Qed.

(** * Further properties *)

(** ** Grid lookup *)

Lemma indexOf_some (a : list string) (x : string) (i : nat) :
  Arr.indexOf a x = Some i -> a !! i = Some x /\ (i < length a)%nat.
Proof.
  revert i. induction a as [|y a IH]; intro i; cbn; [discriminate|].
  destruct (String.eqb_spec y x) as [->|Hne].
  - intros [= <-]. split; [reflexivity|cbn; lia].
  - destruct (Arr.indexOf a x) as [j|]; cbn; [|discriminate].
    intros [= <-]. destruct (IH j eq_refl) as [Hj Hlt].
    split; [exact Hj|cbn; lia].
Qed.

Lemma indexOf_in (a : list string) (x : string) :
  In x a -> exists i, Arr.indexOf a x = Some i.
Proof.
  induction a as [|y a IH]; cbn; [intros []|].
  intros [->|Hin].
  - rewrite String.eqb_refl. now exists 0%nat.
  - destruct (String.eqb y x); [now exists 0%nat|].
    destruct (IH Hin) as [i ->]. now exists (S i).
Qed.

Lemma indexOf_none (a : list string) (x : string) :
  ~ In x a -> Arr.indexOf a x = None.
Proof.
  intro Hnot. destruct (Arr.indexOf a x) as [i|] eqn:E; [|reflexivity].
  exfalso. apply Hnot. apply indexOf_some in E as [Hi _].
  apply list_elem_of_In. eapply list_elem_of_lookup_2. exact Hi.
Qed.

(** In the concatenation of rows of one width, cell [j] of row [i] sits
    at position [i * width + j]. *)
Lemma concat_row_major (rows : list (list Q)) (width : nat) :
  Forall (fun row => length row = width) rows ->
  forall i j row,
    rows !! i = Some row -> (j < width)%nat ->
    concat rows !! (i * width + j)%nat = row !! j.
Proof.
  induction 1 as [|first rows Hfirst Hrows IH]; intros i j row Hrow Hj.
  - destruct i; discriminate.
  - destruct i as [|i]; cbn in *.
    + injection Hrow as ->. apply lookup_app_l. lia.
    + rewrite lookup_app_r by lia.
      replace (width + i * width + j - length first)%nat
        with (i * width + j)%nat by lia.
      now apply IH.
Qed.

(** X1. On a grid laid out as its comment says ([s] holds the numbers of
    row and column labels, and the array of a band is the concatenation
    of one row of log-prices per colour, each with one entry per
    clarity), [getLogPrice] succeeds for every colour of [r] and clarity
    of [c], and returns the entry of the colour's row at the clarity's
    column. *)
Theorem getLogPrice_row_major {rt : JsRuntime}
    (matrix : PriceMatrixResponse) (caratBand : Q)
    (rows : list (list Q)) (colorGrade clarityGrade : string) :
  s matrix = (length (r matrix), length (c matrix)) ->
  l matrix !! Number_toFixed1 caratBand = Some (concat rows) ->
  length rows = length (r matrix) ->
  Forall (fun row => length row = length (c matrix)) rows ->
  In colorGrade (r matrix) -> In clarityGrade (c matrix) ->
  exists i j row logPrice,
    Arr.indexOf (r matrix) colorGrade = Some i /\
    Arr.indexOf (c matrix) clarityGrade = Some j /\
    rows !! i = Some row /\ row !! j = Some logPrice /\
    getLogPrice matrix (Some caratBand) colorGrade clarityGrade
      = Ok logPrice.
Proof.
  intros Hshape Hband Hrows Hwidth Hcolor Hclarity.
  destruct (indexOf_in _ _ Hcolor) as [i Hi].
  destruct (indexOf_in _ _ Hclarity) as [j Hj].
  destruct (indexOf_some _ _ _ Hi) as [_ Hilt].
  destruct (indexOf_some _ _ _ Hj) as [_ Hjlt].
  destruct (lookup_lt_is_Some_2 rows i) as [row Hrow]; [lia|].
  assert (Hlen : length row = length (c matrix)).
  { rewrite List.Forall_forall in Hwidth. apply Hwidth.
    apply list_elem_of_In. eapply list_elem_of_lookup_2. exact Hrow. }
  destruct (lookup_lt_is_Some_2 row j) as [logPrice Hcell]; [lia|].
  exists i, j, row, logPrice.
  repeat split; try assumption.
  unfold getLogPrice. rewrite Hband, Hi, Hj, Hshape.
  rewrite (concat_row_major rows _ Hwidth i j row Hrow Hjlt).
  now rewrite Hcell.
Qed.

Lemma getLogPrice_row_major_witness :
  In "E" (r Sample.grid) /\ In "VS2" (c Sample.grid) /\
  getLogPrice (rt := Sample.runtime) Sample.grid (Some (3 # 2)) "E" "VS2"
    = Ok (91 # 10).
Proof.
  assert (Hcolor : In "E" (r Sample.grid)) by (right; left; reflexivity).
  assert (Hclarity : In "VS2" (c Sample.grid)) by (right; left; reflexivity).
  split; [exact Hcolor|]. split; [exact Hclarity|].
  assert (Hwidth : Forall (fun row : list Q =>
                             length row = length (c Sample.grid))
                     [[94 # 10; 93 # 10]; [92 # 10; 91 # 10]])
    by (repeat constructor).
  destruct (getLogPrice_row_major (rt := Sample.runtime) Sample.grid (3 # 2)
              [[94 # 10; 93 # 10]; [92 # 10; 91 # 10]] "E" "VS2"
              eq_refl eq_refl eq_refl Hwidth Hcolor Hclarity)
    as (i & j & row & logPrice & Hi & Hj & Hrow & Hcell & Hget).
  vm_compute in Hi. injection Hi as <-.
  vm_compute in Hj. injection Hj as <-.
  cbn in Hrow. injection Hrow as <-.
  cbn in Hcell. injection Hcell as <-.
  exact Hget.
Defined.

(** X2. The failures of [getLogPrice], in the order it tests them: a band
    key absent from [l] is reported whatever the grades; on a present
    band a colour absent from [r] is reported, also when the clarity is
    absent too; then a clarity absent from [c]. *)
Theorem getLogPrice_rejections {rt : JsRuntime}
    (matrix : PriceMatrixResponse) (caratBand : Q)
    (colorGrade clarityGrade : string) :
  (l matrix !! Number_toFixed1 caratBand = None ->
   getLogPrice matrix (Some caratBand) colorGrade clarityGrade
   = Throw (NoDataForCaratBand (Some caratBand)
              (Number_toFixed1 caratBand))) /\
  (is_Some (l matrix !! Number_toFixed1 caratBand) ->
   ~ In colorGrade (r matrix) ->
   getLogPrice matrix (Some caratBand) colorGrade clarityGrade
   = Throw (ColorNotFound colorGrade)) /\
  (is_Some (l matrix !! Number_toFixed1 caratBand) ->
   In colorGrade (r matrix) -> ~ In clarityGrade (c matrix) ->
   getLogPrice matrix (Some caratBand) colorGrade clarityGrade
   = Throw (ClarityNotFound clarityGrade)).
Proof.
  unfold getLogPrice. split; [|split].
  - intros ->. reflexivity.
  - intros [flat ->] Hcolor. now rewrite (indexOf_none _ _ Hcolor).
  - intros [flat ->] Hcolor Hclarity.
    destruct (indexOf_in _ _ Hcolor) as [i ->].
    now rewrite (indexOf_none _ _ Hclarity).
Qed.

Lemma getLogPrice_rejections_witness :
  is_Some (l Sample.grid !! @Number_toFixed1 Sample.runtime 1) /\
  ~ In "Z" (r Sample.grid) /\
  getLogPrice (rt := Sample.runtime) Sample.grid (Some 1) "Z" "FL"
    = Throw (ColorNotFound "Z").
Proof.
  assert (Hband : is_Some (l Sample.grid
                             !! @Number_toFixed1 Sample.runtime 1))
    by (vm_compute; eauto).
  assert (Hcolor : ~ In "Z" (r Sample.grid)).
  { cbn. intros [H|[H|[]]]; discriminate H. }
  split; [exact Hband|]. split; [exact Hcolor|].
  exact (proj1 (proj2 (getLogPrice_rejections (rt := Sample.runtime)
                         Sample.grid 1 "Z" "FL")) Hband Hcolor).
Defined.

(** ** Confidence and range *)

(** Turns the boolean comparisons of the context into inequalities. *)
Ltac comparisons :=
  repeat match goal with
    | H : Num.lt _ _ = true |- _ => apply Num_lt_iff in H
    | H : Num.lt _ _ = false |- _ => apply Num_lt_false_iff in H
    | H : Num.gt _ _ = true |- _ => apply Num_gt_iff in H
    | H : Num.gt _ _ = false |- _ => apply Num_lt_false_iff in H
    end.

(** X3. The confidence never goes down when the match becomes exact, the
    market gets deeper or the data gets fresher. *)
Theorem calculateConfidence_monotone
    (exact1 exact2 : bool) (depth1 depth2 age1 age2 : Q) :
  (exact1 = true -> exact2 = true) ->
  depth1 <= depth2 -> age2 <= age1 ->
  calculateConfidence exact1 depth1 age1
  <= calculateConfidence exact2 depth2 age2.
Proof.
  intros Hexact Hdepth Hage.
  unfold calculateConfidence, penalisedConfidence.
  destruct exact1, exact2; try (specialize (Hexact eq_refl); discriminate);
    clear Hexact;
    destruct (Num.lt depth1 50) eqn:?, (Num.lt depth1 200) eqn:?,
             (Num.lt depth2 50) eqn:?, (Num.lt depth2 200) eqn:?,
             (Num.gt age1 12) eqn:?, (Num.gt age1 6) eqn:?,
             (Num.gt age2 12) eqn:?, (Num.gt age2 6) eqn:?;
    cbn [negb]; comparisons; first [ qclosed | exfalso; lra ].
Qed.

Lemma calculateConfidence_monotone_witness :
  (false = true -> true = true) /\ 40 <= 250 /\ 2 <= 13 /\
  calculateConfidence false 40 13 <= calculateConfidence true 250 2.
Proof.
  assert (H1 : false = true -> true = true) by (intros _; reflexivity).
  assert (H2 : 40 <= 250) by (intro H; discriminate H).
  assert (H3 : 2 <= 13) by (intro H; discriminate H).
  split; [exact H1|]. split; [exact H2|]. split; [exact H3|].
  exact (calculateConfidence_monotone false true 40 250 13 2 H1 H2 H3).
Defined.

(** X4. A confidence computed by [calculateConfidence] is never classed
    [low] by [getConfidenceLevel] and never shown in the colour of that
    class; it is classed [high] exactly when it is at least 80. *)
Theorem confidence_level_never_low
    (hasExactCaratBand : bool) (marketDepth dataAgeHours : Q) :
  let confidence :=
    calculateConfidence hasExactCaratBand marketDepth dataAgeHours in
  getConfidenceLevel confidence <> low /\
  getConfidenceColor confidence <> "#ef4444" /\
  (getConfidenceLevel confidence = high <-> 80 <= confidence).
Proof.
  unfold getConfidenceColor, calculateConfidence, penalisedConfidence.
  destruct hasExactCaratBand;
    destruct (Num.lt marketDepth 50), (Num.lt marketDepth 200),
             (Num.gt dataAgeHours 12), (Num.gt dataAgeHours 6);
    cbn [negb]; vm_compute; repeat split; intros; congruence.
Qed.

Lemma rangeSpread_nonneg (confidence : Q) :
  confidence <= 150 -> 0 <= rangeSpread confidence.
Proof.
  intro Hc. unfold rangeSpread, Qdiv. change (/ 100) with (1 # 100).
  lra.
Qed.

Lemma Math_round_le (x y : Q) :
  x <= y -> (Num.Math_round x <= Num.Math_round y)%Z.
Proof.
  intro Hle. unfold Num.Math_round. apply Qfloor_resp_le. lra.
Qed.

(** Taking the spread off a total that is not negative, or adding it,
    moves the total down, respectively up. *)
Lemma total_within_spread (totalPrice confidence : Q) :
  0 <= totalPrice -> confidence <= 150 ->
  totalPrice * (1 - rangeSpread confidence) <= totalPrice /\
  totalPrice <= totalPrice * (1 + rangeSpread confidence).
Proof.
  intros Htotal Hconf.
  pose proof (rangeSpread_nonneg confidence Hconf) as Hspread.
  pose proof (Qmult_le_0_compat _ _ Htotal Hspread) as Hprod.
  split.
  - setoid_replace (totalPrice * (1 - rangeSpread confidence))
      with (totalPrice - totalPrice * rangeSpread confidence)
      using relation Qeq by ring.
    lra.
  - setoid_replace (totalPrice * (1 + rangeSpread confidence))
      with (totalPrice + totalPrice * rangeSpread confidence)
      using relation Qeq by ring.
    lra.
Qed.

(** X5. For a total price that is not negative and a confidence of at
    most 150 (where the spread reaches 0), the range brackets the
    rounded total: [min <= round(total) <= max]. *)
Theorem calculatePriceRange_brackets_total (totalPrice confidence : Q) :
  0 <= totalPrice -> confidence <= 150 ->
  let range := calculatePriceRange totalPrice confidence in
  (min range <= Num.Math_round totalPrice)%Z /\
  (Num.Math_round totalPrice <= max range)%Z.
Proof.
  intros Htotal Hconf range.
  destruct (total_within_spread _ _ Htotal Hconf) as [Hlow Hhigh].
  unfold range, calculatePriceRange. cbn [min max].
  split; apply Math_round_le; assumption.
Qed.

Lemma calculatePriceRange_brackets_total_witness :
  0 <= 12371 /\ 90 <= 150 /\
  (min (calculatePriceRange 12371 90) <= Num.Math_round 12371)%Z /\
  (Num.Math_round 12371 <= max (calculatePriceRange 12371 90))%Z.
Proof.
  assert (H1 : 0 <= 12371) by (intro H; discriminate H).
  assert (H2 : 90 <= 150) by (intro H; discriminate H).
  split; [exact H1|]. split; [exact H2|].
  exact (calculatePriceRange_brackets_total 12371 90 H1 H2).
Defined.

(** X6. For a total price that is not negative, a lower confidence never
    narrows the range: the minimum does not rise and the maximum does not
    fall. *)
Theorem calculatePriceRange_widens (totalPrice confidence1 confidence2 : Q) :
  0 <= totalPrice -> confidence1 <= confidence2 ->
  (min (calculatePriceRange totalPrice confidence1)
   <= min (calculatePriceRange totalPrice confidence2))%Z /\
  (max (calculatePriceRange totalPrice confidence2)
   <= max (calculatePriceRange totalPrice confidence1))%Z.
Proof.
  intros Htotal Hconf.
  pose proof (rangeSpread_antitone _ _ Hconf) as Hspread.
  assert (Hprod : totalPrice * rangeSpread confidence2
                  <= totalPrice * rangeSpread confidence1).
  { rewrite (Qmult_comm totalPrice (rangeSpread confidence2)),
            (Qmult_comm totalPrice (rangeSpread confidence1)).
    now apply Qmult_le_compat_r. }
  unfold calculatePriceRange. cbn [min max].
  split; apply Math_round_le.
  - setoid_replace (totalPrice * (1 - rangeSpread confidence1))
      with (totalPrice - totalPrice * rangeSpread confidence1)
      using relation Qeq by ring.
    setoid_replace (totalPrice * (1 - rangeSpread confidence2))
      with (totalPrice - totalPrice * rangeSpread confidence2)
      using relation Qeq by ring.
    lra.
  - setoid_replace (totalPrice * (1 + rangeSpread confidence1))
      with (totalPrice + totalPrice * rangeSpread confidence1)
      using relation Qeq by ring.
    setoid_replace (totalPrice * (1 + rangeSpread confidence2))
      with (totalPrice + totalPrice * rangeSpread confidence2)
      using relation Qeq by ring.
    lra.
Qed.

Lemma calculatePriceRange_widens_witness :
  0 <= 1000 /\ 65 <= 100 /\
  (min (calculatePriceRange 1000 65) <= min (calculatePriceRange 1000 100))%Z /\
  (max (calculatePriceRange 1000 100) <= max (calculatePriceRange 1000 65))%Z.
Proof.
  assert (H1 : 0 <= 1000) by (intro H; discriminate H).
  assert (H2 : 65 <= 100) by (intro H; discriminate H).
  split; [exact H1|]. split; [exact H2|].
  exact (calculatePriceRange_widens 1000 65 100 H1 H2).
Defined.

(** With a negative total the two ends come out in the other order. *)
Example calculatePriceRange_negative_total :
  calculatePriceRange (-1000) 100 = {| min := -950; max := -1050 |}.
Proof. reflexivity. Qed.

(** ** Interpolation and band search *)

(** X7. Inside a bracket [caratBand1 < caratBand2] the interpolation
    factor lies between 0 and 1 and the interpolated log-price lies
    between the two log-prices, whichever is the larger; at the lower
    band it is the first log-price and at the upper band the second. *)
Theorem interpolateLogPrice_within_bracket
    (logPrice1 logPrice2 caratWeight caratBand1 caratBand2 : Q) :
  caratBand1 < caratBand2 ->
  caratBand1 <= caratWeight -> caratWeight <= caratBand2 ->
  let i := interpolateLogPrice logPrice1 logPrice2 caratWeight
             caratBand1 caratBand2 in
  (0 <= lambda i /\ lambda i <= 1) /\
  (logPrice1 <= logPrice2 ->
   logPrice1 <= interpolatedLogPrice i /\
   interpolatedLogPrice i <= logPrice2) /\
  (logPrice2 <= logPrice1 ->
   logPrice2 <= interpolatedLogPrice i /\
   interpolatedLogPrice i <= logPrice1) /\
  (caratWeight == caratBand1 ->
   lambda i == 0 /\ interpolatedLogPrice i == logPrice1) /\
  (caratWeight == caratBand2 ->
   lambda i == 1 /\ interpolatedLogPrice i == logPrice2).
Proof.
  intros Hbands Hlo Hhi i.
  assert (Hne : Num.strict_eq caratBand1 caratBand2 = false).
  { apply Num_strict_eq_false_iff. intro Heq. rewrite Heq in Hbands.
    exact (Qlt_irrefl _ Hbands). }
  unfold i, interpolateLogPrice. rewrite Hne.
  cbn [lambda interpolatedLogPrice].
  set (lam := (caratWeight - caratBand1) / (caratBand2 - caratBand1)).
  assert (Hden : 0 < caratBand2 - caratBand1) by lra.
  assert (Hlam0 : 0 <= lam).
  { apply Qle_shift_div_l; [exact Hden|]. lra. }
  assert (Hlam1 : lam <= 1).
  { apply Qle_shift_div_r; [exact Hden|]. lra. }
  split; [split; assumption|].
  split; [|split; [|split]].
  - intro Hprices. split; nra.
  - intro Hprices. split; nra.
  - intro Hw.
    assert (Hzero : lam == 0).
    { unfold lam. rewrite Hw. field. lra. }
    split; [exact Hzero|]. rewrite Hzero. ring.
  - intro Hw.
    assert (Hone : lam == 1).
    { unfold lam. rewrite Hw. field. lra. }
    split; [exact Hone|]. rewrite Hone. ring.
Qed.

Lemma interpolateLogPrice_within_bracket_witness :
  1 < 3 # 2 /\ 1 <= 5 # 4 /\ 5 # 4 <= 3 # 2 /\
  9 <= interpolatedLogPrice
         (interpolateLogPrice 9 (94 # 10) (5 # 4) 1 (3 # 2)) /\
  interpolatedLogPrice
    (interpolateLogPrice 9 (94 # 10) (5 # 4) 1 (3 # 2)) <= 94 # 10.
Proof.
  assert (H1 : 1 < 3 # 2) by reflexivity.
  assert (H2 : 1 <= 5 # 4) by (intro H; discriminate H).
  assert (H3 : 5 # 4 <= 3 # 2) by (intro H; discriminate H).
  assert (H4 : 9 <= 94 # 10) by (intro H; discriminate H).
  split; [exact H1|]. split; [exact H2|]. split; [exact H3|].
  exact (proj1 (proj2 (interpolateLogPrice_within_bracket
                         9 (94 # 10) (5 # 4) 1 (3 # 2) H1 H2 H3)) H4).
Defined.

(** X8. Outside the two bands the same formula extrapolates: below the
    lower band the factor is negative and, when the log-price rises from
    the first band to the second, the result is below the first
    log-price; above the upper band the factor exceeds 1 and the result
    is above the second log-price. *)
Theorem interpolateLogPrice_extrapolates
    (logPrice1 logPrice2 caratWeight caratBand1 caratBand2 : Q) :
  caratBand1 < caratBand2 -> logPrice1 < logPrice2 ->
  let i := interpolateLogPrice logPrice1 logPrice2 caratWeight
             caratBand1 caratBand2 in
  (caratWeight < caratBand1 ->
   lambda i < 0 /\ interpolatedLogPrice i < logPrice1) /\
  (caratBand2 < caratWeight ->
   1 < lambda i /\ logPrice2 < interpolatedLogPrice i).
Proof.
  intros Hbands Hprices i.
  assert (Hne : Num.strict_eq caratBand1 caratBand2 = false).
  { apply Num_strict_eq_false_iff. intro Heq. rewrite Heq in Hbands.
    exact (Qlt_irrefl _ Hbands). }
  unfold i, interpolateLogPrice. rewrite Hne.
  cbn [lambda interpolatedLogPrice].
  set (lam := (caratWeight - caratBand1) / (caratBand2 - caratBand1)).
  assert (Hden : 0 < caratBand2 - caratBand1) by lra.
  split; intro Hw.
  - assert (Hlam : lam < 0).
    { apply Qlt_shift_div_r; [exact Hden|]. lra. }
    split; [exact Hlam|]. nra.
  - assert (Hlam : 1 < lam).
    { apply Qlt_shift_div_l; [exact Hden|]. lra. }
    split; [exact Hlam|]. nra.
Qed.

Lemma interpolateLogPrice_extrapolates_witness :
  1 < 3 # 2 /\ 9 < 94 # 10 /\ 1 # 2 < 1 /\
  interpolatedLogPrice
    (interpolateLogPrice 9 (94 # 10) (1 # 2) 1 (3 # 2)) < 9.
Proof.
  assert (H1 : 1 < 3 # 2) by reflexivity.
  assert (H2 : 9 < 94 # 10) by reflexivity.
  assert (H3 : 1 # 2 < 1) by reflexivity.
  split; [exact H1|]. split; [exact H2|]. split; [exact H3|].
  exact (proj2 (proj1 (interpolateLogPrice_extrapolates
                         9 (94 # 10) (1 # 2) 1 (3 # 2) H1 H2) H3)).
Defined.

(** In a sorted list every element is at most the left one of two
    neighbours or at least the right one. *)
Lemma sorted_neighbours (front back : list Q) (lo hi : Q) :
  StronglySorted Qle (front ++ lo :: hi :: back) ->
  lo <= hi /\
  forall x, In x (front ++ lo :: hi :: back) -> x <= lo \/ hi <= x.
Proof.
  induction front as [|f front IH]; cbn; intro Hs.
  - inversion Hs as [|? ? Htail Hall]; subst.
    inversion Hall as [|? ? Hlohi Hback]; subst.
    inversion Htail as [|? ? _ Hhi]; subst.
    split; [exact Hlohi|].
    intros x [<-|[<-|Hx]].
    + left. apply Qle_refl.
    + right. apply Qle_refl.
    + right. rewrite List.Forall_forall in Hhi. now apply Hhi.
  - inversion Hs as [|? ? Htail Hall]; subst.
    destruct (IH Htail) as [Hlohi Hrest].
    split; [exact Hlohi|].
    intros x [<-|Hx]; [|now apply Hrest].
    left. rewrite List.Forall_forall in Hall. apply Hall.
    apply in_or_app. right. now left.
Qed.

(** Unless the weight is itself a band, the answer of the search is a
    pair of neighbours of the sorted band list. *)
Lemma findCaratBands_neighbours (w : Q) (a : list Q) (b1 b2 : Q) :
  Arr.includes (Arr.sort a) w = false ->
  findCaratBands w a = Ok (Some b1, Some b2) ->
  exists front back, Arr.sort a = front ++ b1 :: b2 :: back.
Proof.
  intros Hinc. unfold findCaratBands. rewrite Hinc.
  destruct (findBracket w (Arr.sort a)) as [[lo hi]|] eqn:Ebr.
  { intros [= <- <-]. now apply findBracket_some in Ebr as (_ & _ & Hshape). }
  destruct (Num.lt_u w (Arr.at_ (Arr.sort a) 0)).
  { destruct (Arr.sort a) as [|x [|y rest]]; cbn; try discriminate.
    intros [= <- <-]. now exists [], rest. }
  destruct (Num.gt_u w _); [|discriminate].
  destruct (le_lt_dec 2 (length (Arr.sort a))) as [Hlen|Hlen].
  - destruct (two_bands_shape _ Hlen) as [_ (front & h1 & h0 & Hshape)].
    rewrite Hshape. rewrite Arr_at_last_but_one.
    replace (front ++ [h1; h0]) with ((front ++ [h1]) ++ [h0])
      by now rewrite <- app_assoc.
    rewrite Arr_at_last. intros [= <- <-].
    exists front, []. now rewrite <- app_assoc.
  - destruct (Arr.sort a) as [|x [|y rest]]; cbn in *;
      try discriminate; lia.
Qed.

(** X9. Whenever [findCaratBands] answers with two bands, the first is
    at most the second and no available band lies strictly between
    them; either both are the requested weight, which then equals a
    band, or both are available bands. *)
Theorem findCaratBands_adjacent_bands
    (caratWeight : Q) (availableBands : list Q) (band1 band2 : Q) :
  findCaratBands caratWeight availableBands = Ok (Some band1, Some band2) ->
  band1 <= band2 /\
  (forall x, In x availableBands -> x <= band1 \/ band2 <= x) /\
  ((band1 = caratWeight /\ band2 = caratWeight /\
    exists band, In band availableBands /\ band == caratWeight) \/
   (In band1 availableBands /\ In band2 availableBands /\
    forall band, In band availableBands -> ~ band == caratWeight)).
Proof.
  intro Hfound.
  destruct (Arr.includes (Arr.sort availableBands) caratWeight) eqn:Hinc.
  - unfold findCaratBands in Hfound. rewrite Hinc in Hfound.
    injection Hfound as <- <-.
    split; [apply Qle_refl|]. split.
    + intros x _. destruct (Qlt_le_dec caratWeight x) as [Hlt|Hle].
      * right. now apply Qlt_le_weak.
      * now left.
    + left. split; [reflexivity|]. split; [reflexivity|].
      rewrite (Arr_includes_perm _ _ _ (Arr_sort_perm availableBands))
        in Hinc.
      now apply Arr_includes_iff.
  - destruct (findCaratBands_neighbours _ _ _ _ Hinc Hfound)
      as (front & back & Hshape).
    pose proof (Arr_sort_sorted availableBands) as Hs. rewrite Hshape in Hs.
    destruct (sorted_neighbours _ _ _ _ Hs) as [Hle Hnone].
    assert (Hin : forall x, In x availableBands <->
                            In x (front ++ band1 :: band2 :: back)).
    { intro x. rewrite <- Hshape. split; intro Hx.
      - eapply Permutation_in; [symmetry; apply Arr_sort_perm|exact Hx].
      - eapply Permutation_in; [apply Arr_sort_perm|exact Hx]. }
    split; [exact Hle|]. split.
    + intros x Hx. apply Hnone. now apply Hin.
    + right. split; [|split].
      * apply Hin. apply in_or_app. right. now left.
      * apply Hin. apply in_or_app. right. right. now left.
      * rewrite (Arr_includes_perm _ _ _ (Arr_sort_perm availableBands))
          in Hinc.
        apply Arr_includes_false in Hinc.
        rewrite List.Forall_forall in Hinc. exact Hinc.
Qed.

Lemma findCaratBands_adjacent_bands_witness :
  findCaratBands (7 # 4) [2; 1; 3; 3 # 2] = Ok (Some (3 # 2), Some 2) /\
  3 # 2 <= 2 /\
  (forall x, In x [2; 1; 3; 3 # 2] -> x <= 3 # 2 \/ 2 <= x).
Proof.
  assert (Hfound : findCaratBands (7 # 4) [2; 1; 3; 3 # 2]
                   = Ok (Some (3 # 2), Some 2)) by reflexivity.
  split; [exact Hfound|].
  destruct (findCaratBands_adjacent_bands _ _ _ _ Hfound) as (Hle & Hnone & _).
  split; [exact Hle|exact Hnone].
Defined.

Lemma Arr_sort_sorted_id (a : list Q) :
  StronglySorted Qle a -> Arr.sort a = a.
Proof.
  induction 1 as [|x a Hs IH Hall]; [reflexivity|].
  change (Arr.sort (x :: a)) with (Arr.insert x (Arr.sort a)).
  rewrite IH. destruct a as [|y a']; [reflexivity|].
  cbn. inversion Hall as [|? ? Hxy _]; subst.
  apply Qle_bool_iff in Hxy. now rewrite Hxy.
Qed.

(** X10. Sorting twice is sorting once, so the search gives the same
    answer on a band list and on its sorted copy, which is what the
    orchestrator hands over. *)
Theorem findCaratBands_on_sorted_bands
    (caratWeight : Q) (availableBands : list Q) :
  Arr.sort (Arr.sort availableBands) = Arr.sort availableBands /\
  findCaratBands caratWeight (Arr.sort availableBands)
  = findCaratBands caratWeight availableBands.
Proof.
  assert (Hid : Arr.sort (Arr.sort availableBands) = Arr.sort availableBands)
    by (apply Arr_sort_sorted_id, Arr_sort_sorted).
  split; [exact Hid|]. unfold findCaratBands. now rewrite Hid.
Qed.

(** ** Fetchers over time *)

Ltac cached_window run :=
  let E := fresh "E" in
  intros w body t' Hbody w1;
  pose proof (run true w) as E; cbv zeta in E;
  unfold cache_hit in E; cbv beta iota in E; rewrite Hbody in E;
  apply (f_equal snd) in E; cbn [snd] in E; fold w1 in E;
  clearbody w1; subst w1;
  split; intro Ht; rewrite run; cbv zeta; unfold cache_hit, freshEntry;
  cbn [storage now network requests at_time MATRIX INDEX DEPTH expiresAt
       data];
  [ destruct (Z.ltb_spec t' (now w + 24 * 60 * 60 * 1000)); [|lia];
    reflexivity
  | destruct (Z.ltb_spec t' (now w + 24 * 60 * 60 * 1000)); [lia|];
    rewrite Hbody; reflexivity ].

(** X11. Each of the three fetchers keeps what it fetched for 24 hours:
    after a forced fetch that succeeded, an unforced call less than
    86400000 ms later returns the same body and leaves the world as it
    is (no request), and an unforced call at that time or later issues a
    request again. *)
Theorem fetched_data_is_cached_for_24_hours :
  cached_for_24_hours fetchPriceMatrix matrix_json
    "https://data.openfacet.net/matrix.json" /\
  cached_for_24_hours fetchDCXIndex index_json
    "https://data.openfacet.net/index.json" /\
  cached_for_24_hours fetchMarketDepth depth_json
    "https://data.openfacet.net/depth.json".
Proof.
  split; [|split].
  - cached_window fetchPriceMatrix_run.
  - cached_window fetchDCXIndex_run.
  - cached_window fetchMarketDepth_run.
Qed.

Lemma fetched_data_is_cached_for_24_hours_witness :
  matrix_json (network Sample.world_stale_online) = Json Sample.grid /\
  (100000000 + 86399999 < now Sample.world_stale_online + 86400000)%Z /\
  fst (fetchPriceMatrix false
         (at_time (100000000 + 86399999)
            (snd (fetchPriceMatrix true Sample.world_stale_online))))
  = Ok Sample.grid.
Proof.
  assert (Hbody : matrix_json (network Sample.world_stale_online)
                  = Json Sample.grid) by reflexivity.
  assert (Ht : (100000000 + 86399999
                < now Sample.world_stale_online + 86400000)%Z)
    by (cbn; lia).
  split; [exact Hbody|]. split; [exact Ht|].
  rewrite (proj1 (proj1 fetched_data_is_cached_for_24_hours
                    Sample.world_stale_online Sample.grid
                    (100000000 + 86399999)%Z Hbody) Ht).
  reflexivity.
Defined.

Ltac keeps_storage run :=
  intros forceRefresh w Hfail; rewrite run; cbv zeta;
  destruct (cache_hit _ _ _); [reflexivity|];
  unfold failed in Hfail;
  match goal with
  | |- context [match ?e (network w) with _ => _ end] =>
      destruct (e (network w)); try discriminate Hfail
  end;
  match goal with
  | |- context [match ?slot (storage w) with _ => _ end] =>
      destruct (slot (storage w)); reflexivity
  end.

(** X12. A fetch that fails never changes the storage, forced or not:
    the entry that was there, expired or not, is still there. *)
Theorem failed_fetch_keeps_storage :
  failure_keeps_storage fetchPriceMatrix matrix_json /\
  failure_keeps_storage fetchDCXIndex index_json /\
  failure_keeps_storage fetchMarketDepth depth_json.
Proof.
  split; [|split].
  - keeps_storage fetchPriceMatrix_run.
  - keeps_storage fetchDCXIndex_run.
  - keeps_storage fetchMarketDepth_run.
Qed.

Lemma failed_fetch_keeps_storage_witness :
  failed (matrix_json (network Sample.world_stale_offline)) = true /\
  storage (snd (fetchPriceMatrix true Sample.world_stale_offline))
  = storage Sample.world_stale_offline.
Proof.
  assert (Hfail : failed (matrix_json (network Sample.world_stale_offline))
                  = true) by reflexivity.
  split; [exact Hfail|].
  exact (proj1 failed_fetch_keeps_storage true Sample.world_stale_offline
           Hfail).
Defined.

(** ** What a quote holds *)

Lemma calculateConfidence_range
    (hasExactCaratBand : bool) (marketDepth dataAgeHours : Q) :
  65 <= calculateConfidence hasExactCaratBand marketDepth dataAgeHours /\
  calculateConfidence hasExactCaratBand marketDepth dataAgeHours <= 100.
Proof.
  unfold calculateConfidence, penalisedConfidence.
  destruct hasExactCaratBand;
    destruct (Num.lt marketDepth 50), (Num.lt marketDepth 200),
             (Num.gt dataAgeHours 12), (Num.gt dataAgeHours 6);
    cbn [negb]; split; qclosed.
Qed.

Lemma findCaratBands_ordered (w : Q) (a : list Q) (b1 b2 : Q) :
  findCaratBands w a = Ok (Some b1, Some b2) -> b1 <= b2.
Proof.
  intro Hfound.
  destruct (Arr.includes (Arr.sort a) w) eqn:Hinc.
  - unfold findCaratBands in Hfound. rewrite Hinc in Hfound.
    injection Hfound as <- <-. apply Qle_refl.
  - destruct (findCaratBands_neighbours _ _ _ _ Hinc Hfound)
      as (front & back & Hshape).
    pose proof (Arr_sort_sorted a) as Hs. rewrite Hshape in Hs.
    now destruct (sorted_neighbours _ _ _ _ Hs) as [Hle _].
Qed.

Lemma exp3_positive (x : Q) : 0 < Sample.exp3 x.
Proof.
  unfold Sample.exp3, Qdiv. change (/ 2) with (1 # 2). nra.
Qed.

Section Quote.

Context {rt : JsRuntime}.

Lemma getLogPrice_ok (m : PriceMatrixResponse) (band : Q)
    (color clar : string) (logPrice : Q) :
  getLogPrice m (Some band) color clar = Ok logPrice ->
  is_Some (l m !! Number_toFixed1 band) /\ In color (r m) /\ In clar (c m).
Proof.
  unfold getLogPrice.
  destruct (l m !! Number_toFixed1 band) as [flat|]; [|discriminate].
  destruct (Arr.indexOf (r m) color) as [i|] eqn:Ei; [|discriminate].
  destruct (Arr.indexOf (c m) clar) as [j|] eqn:Ej; [|discriminate].
  intros _. split; [now exists flat|].
  apply indexOf_some in Ei as [Hi _]. apply indexOf_some in Ej as [Hj _].
  split; apply list_elem_of_In; eapply list_elem_of_lookup_2; eassumption.
Qed.

Variables (caratWeight : Q) (colorGrade shape : string)
          (clarityGrade : option string).

(** What the pricing steps did when they returned a quote. *)
Lemma priceFromData_ok (m : PriceMatrixResponse) (i : DCXIndexResponse)
    (d : MarketDepthResponse) (w : World) (q : DiamondPriceQuote) :
  fst (priceFromData caratWeight colorGrade shape clarityGrade m i d w)
    = Ok q ->
  let normalizedColor := normalizeColorGrade colorGrade (Some (r m)) in
  let usedClarity := Str.or_else clarityGrade DEFAULT_CLARITY in
  exists band1 band2 logPrice1 logPrice2,
    findCaratBands caratWeight
      (Arr.sort (map parseFloat (map_to_list (l m)).*1))
      = Ok (Some band1, Some band2) /\
    getLogPrice m (Some band1) normalizedColor usedClarity = Ok logPrice1 /\
    getLogPrice m (Some band2) normalizedColor usedClarity = Ok logPrice2 /\
    let ip := interpolateLogPrice logPrice1 logPrice2 caratWeight
                band1 band2 in
    let total := Math_exp (interpolatedLogPrice ip) * caratWeight in
    let depth := getMarketDepth d caratWeight normalizedColor usedClarity in
    let age :=
      Num.Math_floor
        (inject_Z (now w - Date_getTime (matrix_ts m))
         / inject_Z (1000 * 60 * 60)) in
    let conf :=
      calculateConfidence (Num.strict_eq band1 band2) depth (inject_Z age) in
    q = {| perCaratPrice := Num.Math_round (Math_exp (interpolatedLogPrice ip));
           totalPrice := Num.Math_round total;
           priceRange := calculatePriceRange total conf;
           dcxIndex := dcx i;
           trend24h := trend i;
           confidence := conf;
           marketDepth := if Num.gt depth 0 then Some depth else None;
           quoteTimestamp := now w;
           _details :=
             Some {| caratBand1 := band1;
                     caratBand2 := band2;
                     interpolationFactor := lambda ip;
                     clarityUsed := usedClarity;
                     colorUsed := normalizedColor;
                     shapeUsed := mapShapeToPricingCategory shape |} |}.
Proof.
  unfold priceFromData, bind, lift, ret, throw, Date_now.
  destruct (findCaratBands _ _) as [[b1 b2]|e1] eqn:Eb; [|discriminate].
  destruct (getLogPrice m b1 _ _) as [lp1|e1] eqn:E1; [|discriminate].
  destruct (getLogPrice m b2 _ _) as [lp2|e2] eqn:E2; [|discriminate].
  destruct b1 as [b1|], b2 as [b2|]; cbn; try discriminate.
  intros [= <-]. exists b1, b2, lp1, lp2. repeat split; assumption.
Qed.

(** The pricing steps leave the world as it is. *)
Lemma priceFromData_world (m : PriceMatrixResponse) (i : DCXIndexResponse)
    (d : MarketDepthResponse) (w : World) :
  snd (priceFromData caratWeight colorGrade shape clarityGrade m i d w) = w.
Proof.
  unfold priceFromData, bind, lift, ret, throw, Date_now.
  destruct (findCaratBands _ _) as [[b1 b2]|e1]; [|reflexivity].
  destruct (getLogPrice m b1 _ _) as [lp1|e1]; [|reflexivity].
  destruct (getLogPrice m b2 _ _) as [lp2|e2]; [|reflexivity].
  destruct b1 as [b1|], b2 as [b2|]; reflexivity.
Qed.

(** A quote was computed from data that the three fetchers returned. *)
Lemma calculateDiamondPrice_ok (w : World) (q : DiamondPriceQuote) :
  fst (calculateDiamondPrice caratWeight colorGrade shape clarityGrade w)
    = Ok q ->
  exists m i d,
    fst (fetchPriceMatrix false w) = Ok m /\
    fst (fetchDCXIndex false w) = Ok i /\
    fst (fetchMarketDepth false w) = Ok d /\
    fst (priceFromData caratWeight colorGrade shape clarityGrade m i d w)
      = Ok q.
Proof.
  rewrite calculateDiamondPrice_outcome.
  destruct (Promise_all _ _ _ _) as [[[m i] d]|e] eqn:Eall;
    cbn [rbind reported]; [|discriminate].
  apply Promise_all_ok in Eall as (Hm & Hi & Hd).
  destruct (fst (priceFromData _ _ _ _ m i d w)) as [q'|e] eqn:E;
    [|discriminate].
  intros [= <-]. now exists m, i, d.
Qed.

(** X13. A quote names only what the grid has: the colour used is a row
    label of the price matrix that was fetched and is the normalised
    grade, the clarity used is a column label and is the grade asked for
    or the default ["VS2"], the two bands are in order and are keys of
    the grid, and the shape used is the category of the shape. *)
Theorem quote_details_are_of_the_grid (w : World) (q : DiamondPriceQuote) :
  fst (calculateDiamondPrice caratWeight colorGrade shape clarityGrade w)
    = Ok q ->
  exists m det,
    fst (fetchPriceMatrix false w) = Ok m /\
    _details q = Some det /\
    colorUsed det = normalizeColorGrade colorGrade (Some (r m)) /\
    In (colorUsed det) (r m) /\
    clarityUsed det = Str.or_else clarityGrade "VS2" /\
    In (clarityUsed det) (c m) /\
    shapeUsed det = mapShapeToPricingCategory shape /\
    caratBand1 det <= caratBand2 det /\
    is_Some (l m !! Number_toFixed1 (caratBand1 det)) /\
    is_Some (l m !! Number_toFixed1 (caratBand2 det)).
Proof.
  intro Hq.
  apply calculateDiamondPrice_ok in Hq as (m & i & d & Hm & _ & _ & Hq).
  apply priceFromData_ok in Hq
    as (b1 & b2 & lp1 & lp2 & Hb & H1 & H2 & ->).
  apply getLogPrice_ok in H1 as (Hk1 & Hcol & Hcla).
  apply getLogPrice_ok in H2 as (Hk2 & _ & _).
  apply findCaratBands_ordered in Hb.
  exists m. eexists. split; [exact Hm|]. split; [reflexivity|].
  cbn [colorUsed clarityUsed shapeUsed caratBand1 caratBand2].
  repeat split; assumption.
Qed.

(** X14. In a quote the confidence is between 65 and 100, the time is
    the time of the call, the index and the trend are those of the
    fetched index, and a market depth is reported only if positive. *)
Theorem quote_values (w : World) (q : DiamondPriceQuote) :
  fst (calculateDiamondPrice caratWeight colorGrade shape clarityGrade w)
    = Ok q ->
  65 <= confidence q /\ confidence q <= 100 /\
  getConfidenceLevel (confidence q) <> low /\
  quoteTimestamp q = now w /\
  (exists i, fst (fetchDCXIndex false w) = Ok i /\
             dcxIndex q = dcx i /\ trend24h q = trend i) /\
  (forall depth, marketDepth q = Some depth -> 0 < depth).
Proof.
  intro Hq.
  apply calculateDiamondPrice_ok in Hq as (m & i & d & _ & Hi & _ & Hq).
  apply priceFromData_ok in Hq
    as (b1 & b2 & lp1 & lp2 & _ & _ & _ & ->).
  cbn [confidence quoteTimestamp dcxIndex trend24h marketDepth].
  match goal with
  | |- context [calculateConfidence ?h ?x ?a] =>
      destruct (calculateConfidence_range h x a) as [Hlow Hhigh]
  end.
  split; [exact Hlow|]. split; [exact Hhigh|]. split.
  { unfold getConfidenceLevel.
    destruct (Qle_bool 80 _); [discriminate|].
    apply Qle_bool_iff in Hlow. rewrite Hlow. discriminate. }
  split; [reflexivity|]. split; [now exists i|].
  intros depth.
  destruct (Num.gt _ 0) eqn:Egt; [|discriminate].
  intros [= <-]. now apply Num_gt_iff.
Qed.

(** X15. When the runtime's exponential is positive and the weight is
    not negative, the prices of a quote are not negative and the range
    brackets the total: [0 <= min <= total <= max]. *)
Theorem quote_range_brackets_total (w : World) (q : DiamondPriceQuote) :
  (forall x, 0 < Math_exp x) -> 0 <= caratWeight ->
  fst (calculateDiamondPrice caratWeight colorGrade shape clarityGrade w)
    = Ok q ->
  (0 <= perCaratPrice q)%Z /\
  (0 <= min (priceRange q))%Z /\
  (min (priceRange q) <= totalPrice q)%Z /\
  (totalPrice q <= max (priceRange q))%Z.
Proof.
  intros Hexp Hw Hq.
  apply calculateDiamondPrice_ok in Hq as (m & i & d & _ & _ & _ & Hq).
  apply priceFromData_ok in Hq
    as (b1 & b2 & lp1 & lp2 & _ & _ & _ & ->).
  cbn [perCaratPrice totalPrice priceRange].
  match goal with
  | |- context [calculateConfidence ?h ?x ?a] =>
      destruct (calculateConfidence_range h x a) as [Hlow Hhigh];
      set (conf := calculateConfidence h x a) in *
  end.
  match goal with
  | |- context [Math_exp ?x] =>
      pose proof (Hexp x) as Hpos; set (perCarat := Math_exp x) in *
  end.
  assert (Htotal : 0 <= perCarat * caratWeight).
  { apply Qmult_le_0_compat; [now apply Qlt_le_weak|exact Hw]. }
  assert (Hconf : conf <= 150) by lra.
  destruct (total_within_spread _ _ Htotal Hconf) as [Hdown Hup].
  unfold calculatePriceRange. cbn [min max].
  split; [|split; [|split]].
  - change 0%Z with (Num.Math_round 0). apply Math_round_le.
    now apply Qlt_le_weak.
  - change 0%Z with (Num.Math_round 0). apply Math_round_le.
    apply Qmult_le_0_compat; [exact Htotal|].
    pose proof (rangeSpread_antitone _ _ Hlow) as Hs.
    assert (rangeSpread 65 == 85 # 1000) by reflexivity. lra.
  - now apply Math_round_le.
  - now apply Math_round_le.
Qed.

End Quote.

Lemma quote_details_are_of_the_grid_witness :
  exists q m det,
    fst (calculateDiamondPrice (rt := Sample.runtime)
           (5 # 4) "Colorless" "Round" None Sample.world_stale_offline)
      = Ok q /\
    fst (fetchPriceMatrix false Sample.world_stale_offline) = Ok m /\
    _details q = Some det /\
    In (colorUsed det) (r m) /\ In (clarityUsed det) (c m).
Proof.
  destruct (fst (calculateDiamondPrice (rt := Sample.runtime)
                   (5 # 4) "Colorless" "Round" None
                   Sample.world_stale_offline)) as [q|e] eqn:Hq;
    [|vm_compute in Hq; discriminate Hq].
  destruct (quote_details_are_of_the_grid (rt := Sample.runtime)
              (5 # 4) "Colorless" "Round" None
              Sample.world_stale_offline q Hq)
    as (m & det & Hm & Hdet & _ & Hcolor & _ & Hclarity & _).
  exists q, m, det. split; [reflexivity|]. split; [exact Hm|].
  split; [exact Hdet|]. split; [exact Hcolor|exact Hclarity].
Defined.

Lemma quote_values_witness :
  exists q,
    fst (calculateDiamondPrice (rt := Sample.runtime)
           (5 # 4) "D" "Oval" (Some "VS2") Sample.world_valid_offline)
      = Ok q /\
    65 <= confidence q /\ confidence q <= 100 /\
    quoteTimestamp q = 3600000%Z.
Proof.
  destruct (fst (calculateDiamondPrice (rt := Sample.runtime)
                   (5 # 4) "D" "Oval" (Some "VS2")
                   Sample.world_valid_offline)) as [q|e] eqn:Hq;
    [|vm_compute in Hq; discriminate Hq].
  destruct (quote_values (rt := Sample.runtime)
              (5 # 4) "D" "Oval" (Some "VS2")
              Sample.world_valid_offline q Hq)
    as (Hlow & Hhigh & _ & Htime & _).
  exists q. split; [reflexivity|]. split; [exact Hlow|].
  split; [exact Hhigh|exact Htime].
Defined.

Lemma quote_range_brackets_total_witness :
  exists q,
    (forall x, 0 < Math_exp (JsRuntime := Sample.runtime) x) /\
    0 <= 5 # 4 /\
    fst (calculateDiamondPrice (rt := Sample.runtime)
           (5 # 4) "D" "Oval" (Some "VS2") Sample.world_valid_offline)
      = Ok q /\
    (0 <= min (priceRange q))%Z /\
    (min (priceRange q) <= totalPrice q)%Z /\
    (totalPrice q <= max (priceRange q))%Z.
Proof.
  assert (Hw : 0 <= 5 # 4) by (intro H; discriminate H).
  destruct (fst (calculateDiamondPrice (rt := Sample.runtime)
                   (5 # 4) "D" "Oval" (Some "VS2")
                   Sample.world_valid_offline)) as [q|e] eqn:Hq;
    [|vm_compute in Hq; discriminate Hq].
  destruct (quote_range_brackets_total (rt := Sample.runtime)
              (5 # 4) "D" "Oval" (Some "VS2")
              Sample.world_valid_offline q exp3_positive Hw Hq)
    as (_ & Hmin & Hlow & Hhigh).
  exists q. split; [exact exp3_positive|]. split; [exact Hw|].
  split; [reflexivity|]. split; [exact Hmin|]. split; [exact Hlow|exact Hhigh].
Defined.

(** ** The quote and the world *)

Section QuoteWorld.

Context {rt : JsRuntime}.

Lemma getLogPrice_grid_error (m : PriceMatrixResponse) (band : option Q)
    (color clar : string) (e : JsError) :
  getLogPrice m band color clar = Throw e -> grid_error e = true.
Proof.
  unfold getLogPrice.
  destruct (l m !! _); [|now intros [= <-]].
  destruct (Arr.indexOf (r m) color); [|now intros [= <-]].
  destruct (Arr.indexOf (c m) clar); [|now intros [= <-]].
  destruct (s m) as [numRows numCols].
  destruct (_ !! _); [discriminate|now intros [= <-]].
Qed.

Variables (caratWeight : Q) (colorGrade : string)
          (clarityGrade : option string).

Lemma priceFromData_grid_error (shape : string) (m : PriceMatrixResponse)
    (i : DCXIndexResponse) (d : MarketDepthResponse) (w : World)
    (e : JsError) :
  fst (priceFromData caratWeight colorGrade shape clarityGrade m i d w)
    = Throw e ->
  grid_error e = true.
Proof.
  unfold priceFromData, bind, lift, ret, throw, Date_now.
  destruct (findCaratBands _ _) as [[b1 b2]|e1] eqn:Eb.
  2:{ cbn. intros [= <-]. apply findCaratBands_error in Eb. now subst. }
  destruct (getLogPrice m b1 _ _) as [lp1|e1] eqn:E1.
  2:{ cbn. intros [= <-]. eapply getLogPrice_grid_error; eassumption. }
  destruct (getLogPrice m b2 _ _) as [lp2|e2] eqn:E2.
  2:{ cbn. intros [= <-]. eapply getLogPrice_grid_error; eassumption. }
  destruct b1 as [b1|], b2 as [b2|]; cbn;
    try discriminate; now intros [= <-].
Qed.

(** X16. On a storage that can fail, a quote that is rejected is
    rejected with the wrapped message of one of three kinds of causes: a
    fetcher had no stored entry to fall back on, a pricing step did not
    find what it looked up in the grid, or the storage could not be read
    (the read is rejected, or the text under a key does not parse). The
    errors of [fetch] and of the write never reach the caller. *)
Theorem quote_rejection_causes (shape : string) (s : Faulty.Machine)
    (e : JsError) :
  fst (Faulty.calculateDiamondPrice caratWeight colorGrade shape
         clarityGrade s) = Throw e ->
  exists cause,
    e = PricingFailed cause /\
    (cause = NoCachedData "price matrix" \/
     cause = NoCachedData "DCX index" \/
     cause = NoCachedData "market depth" \/
     grid_error cause = true \/
     (cause = StorageRejected "getItem" /\
      Faulty.getItem_rejects (Faulty.faults s) = true) \/
     (cause = JsonSyntaxError /\
      Faulty.getItem_rejects (Faulty.faults s) = false /\
      (Faulty.unparsable_MATRIX (Faulty.faults s) = true \/
       Faulty.unparsable_INDEX (Faulty.faults s) = true \/
       Faulty.unparsable_DEPTH (Faulty.faults s) = true))).
Proof.
  intro Hquote.
  apply Faulty_calculateDiamondPrice_throws in Hquote
    as (cause & -> & [Em|[Ei|[Ed|(m & i & d & Eq)]]]);
    exists cause; (split; [reflexivity|]).
  - apply Faulty_fetchPriceMatrix_throws in Em
      as [(-> & _)|[(-> & ?)|(-> & ? & ?)]]; auto 10.
  - apply Faulty_fetchDCXIndex_throws in Ei
      as [(-> & _)|[(-> & ?)|(-> & ? & ?)]]; auto 10.
  - apply Faulty_fetchMarketDepth_throws in Ed
      as [(-> & _)|[(-> & ?)|(-> & ? & ?)]]; auto 10.
  - apply priceFromData_grid_error in Eq. auto.
Qed.

(** When the text under its key does not parse, a fetcher that is not
    forced is rejected on the spot: it issues no request and changes
    nothing. *)
Lemma unparsable_entry_blocks_fetcher (s : Faulty.Machine) :
  Faulty.getItem_rejects (Faulty.faults s) = false ->
  (Faulty.unparsable_MATRIX (Faulty.faults s) = true ->
   Faulty.fetchPriceMatrix false s = (Throw JsonSyntaxError, s)) /\
  (Faulty.unparsable_INDEX (Faulty.faults s) = true ->
   Faulty.fetchDCXIndex false s = (Throw JsonSyntaxError, s)) /\
  (Faulty.unparsable_DEPTH (Faulty.faults s) = true ->
   Faulty.fetchMarketDepth false s = (Throw JsonSyntaxError, s)).
Proof.
  intro Hget. split; [|split]; intro Htext.
  - rewrite Faulty_fetchPriceMatrix_run. cbv zeta.
    unfold Faulty.attempt, Faulty.served, Faulty.text_of.
    now rewrite Hget, Htext.
  - rewrite Faulty_fetchDCXIndex_run. cbv zeta.
    unfold Faulty.attempt, Faulty.served, Faulty.text_of.
    now rewrite Hget, Htext.
  - rewrite Faulty_fetchMarketDepth_run. cbv zeta.
    unfold Faulty.attempt, Faulty.served, Faulty.text_of.
    now rewrite Hget, Htext.
Qed.

(** When the write is rejected, what was fetched is not returned either:
    the fetcher falls back on the text under its key. *)
Lemma rejected_write_discards_fetch (s : Faulty.Machine)
    (body : PriceMatrixResponse) :
  Faulty.setItem_rejects (Faulty.faults s) = true ->
  matrix_json (network (Faulty.world s)) = Json body ->
  fst (Faulty.fetchPriceMatrix true s)
  = Faulty.served (Faulty.faults s)
      (Faulty.text_of (MATRIX (storage (Faulty.world s)))
         (Faulty.unparsable_MATRIX (Faulty.faults s)))
      "price matrix".
Proof.
  intros Hset Hbody. rewrite Faulty_fetchPriceMatrix_run. cbv zeta.
  unfold Faulty.attempt. now rewrite Hbody, Hset.
Qed.

(** The quote changes the world through its three fetchers only. *)
Lemma calculateDiamondPrice_world (shape : string) (w : World) :
  snd (calculateDiamondPrice caratWeight colorGrade shape clarityGrade w) =
  snd (fetchMarketDepth false
         (snd (fetchDCXIndex false (snd (fetchPriceMatrix false w))))).
Proof.
  unfold calculateDiamondPrice, try_catch, bind, Promise_all3, throw.
  destruct (fetchPriceMatrix false w) as [rm w1]. cbn [snd].
  destruct (fetchDCXIndex false w1) as [ri w2]. cbn [snd].
  destruct (fetchMarketDepth false w2) as [rd w3]. cbn [snd].
  destruct (Promise_all _ rm ri rd) as [[[m i] d]|e]; [|reflexivity].
  pose proof (priceFromData_world caratWeight colorGrade shape clarityGrade
                m i d w3) as Hw.
  destruct (priceFromData caratWeight colorGrade shape clarityGrade
              m i d w3) as [[q|e] w4]; cbn [snd] in *; now subst.
Qed.

Lemma priceFromData_shape (shape1 shape2 : string)
    (m : PriceMatrixResponse) (i : DCXIndexResponse)
    (d : MarketDepthResponse) (w : World) :
  fst (priceFromData caratWeight colorGrade shape2 clarityGrade m i d w) =
  rbind (fst (priceFromData caratWeight colorGrade shape1 clarityGrade
                m i d w))
        (fun q => Ok (with_shape (mapShapeToPricingCategory shape2) q)).
Proof.
  unfold priceFromData, bind, lift, ret, throw, Date_now.
  destruct (findCaratBands _ _) as [[b1 b2]|e1]; [|reflexivity].
  destruct (getLogPrice m b1 _ _) as [lp1|e1]; [|reflexivity].
  destruct (getLogPrice m b2 _ _) as [lp2|e2]; [|reflexivity].
  destruct b1 as [b1|], b2 as [b2|]; reflexivity.
Qed.

(** X17. The shape only labels the quote: with another shape the quote
    is rejected with the same error or is the same quote with the other
    category in its details, and the world is left in the same state. *)
Theorem quote_shape_only_labels (shape1 shape2 : string) (w : World) :
  calculateDiamondPrice caratWeight colorGrade shape2 clarityGrade w =
  (rbind (fst (calculateDiamondPrice caratWeight colorGrade shape1
                 clarityGrade w))
         (fun q => Ok (with_shape (mapShapeToPricingCategory shape2) q)),
   snd (calculateDiamondPrice caratWeight colorGrade shape1
          clarityGrade w)).
Proof.
  apply injective_projections; cbn [fst snd].
  - rewrite !calculateDiamondPrice_outcome.
    destruct (Promise_all _ _ _ _) as [[[m i] d]|e]; [|reflexivity].
    cbn [rbind]. rewrite (priceFromData_shape shape1 shape2).
    now destruct (fst (priceFromData _ _ shape1 _ m i d w)).
  - now rewrite !calculateDiamondPrice_world.
Qed.

(** X18. With a valid entry in each of the three slots the quote is
    computed from the stored data and the world is left as it is: no
    request is issued, whatever the network would answer. *)
Theorem quote_from_valid_cache (shape : string) (w : World)
    (cm : CachedData PriceMatrixResponse) (ci : CachedData DCXIndexResponse)
    (cd : CachedData MarketDepthResponse) :
  MATRIX (storage w) = Some cm -> (now w < expiresAt cm)%Z ->
  INDEX (storage w) = Some ci -> (now w < expiresAt ci)%Z ->
  DEPTH (storage w) = Some cd -> (now w < expiresAt cd)%Z ->
  calculateDiamondPrice caratWeight colorGrade shape clarityGrade w =
  (reported
     (fst (priceFromData caratWeight colorGrade shape clarityGrade
             (data cm) (data ci) (data cd) w)),
   w).
Proof.
  intros Hm Htm Hi Hti Hd Htd.
  pose proof (valid_cache_matrix w cm Hm Htm) as Em.
  pose proof (valid_cache_index w ci Hi Hti) as Ei.
  pose proof (valid_cache_depth w cd Hd Htd) as Ed.
  apply injective_projections; cbn [fst snd].
  - rewrite calculateDiamondPrice_outcome, Em, Ei, Ed. reflexivity.
  - rewrite calculateDiamondPrice_world, Em. cbn [snd].
    rewrite Ei. cbn [snd]. now rewrite Ed.
Qed.

(** X19. The quote issues a request exactly for the slots that hold no
    valid entry, the matrix first and the depth last; nothing else is
    requested. *)
Theorem quote_requests (shape : string) (w : World) :
  requests
    (snd (calculateDiamondPrice caratWeight colorGrade shape clarityGrade w))
  = request_unless_valid (DEPTH (storage w)) (now w)
      "https://data.openfacet.net/depth.json"
    ++ request_unless_valid (INDEX (storage w)) (now w)
         "https://data.openfacet.net/index.json"
    ++ request_unless_valid (MATRIX (storage w)) (now w)
         "https://data.openfacet.net/matrix.json"
    ++ requests w.
Proof.
  rewrite calculateDiamondPrice_world.
  pose proof (fetchPriceMatrix_frame false w) as (Hn1 & Hk1 & Hi1 & Hd1).
  assert (Hr1 : requests (snd (fetchPriceMatrix false w))
                = request_unless_valid (MATRIX (storage w)) (now w)
                    "https://data.openfacet.net/matrix.json" ++ requests w).
  { rewrite fetchPriceMatrix_run. cbv zeta. unfold request_unless_valid.
    destruct (cache_hit _ _ _); [reflexivity|].
    destruct (matrix_json (network w)), (MATRIX (storage w)); reflexivity. }
  set (w1 := snd (fetchPriceMatrix false w)) in *.
  pose proof (fetchDCXIndex_frame false w1) as (Hn2 & Hk2 & Hm2 & Hd2).
  assert (Hr2 : requests (snd (fetchDCXIndex false w1))
                = request_unless_valid (INDEX (storage w1)) (now w1)
                    "https://data.openfacet.net/index.json" ++ requests w1).
  { rewrite fetchDCXIndex_run. cbv zeta. unfold request_unless_valid.
    destruct (cache_hit _ _ _); [reflexivity|].
    destruct (index_json (network w1)), (INDEX (storage w1)); reflexivity. }
  set (w2 := snd (fetchDCXIndex false w1)) in *.
  assert (Hr3 : requests (snd (fetchMarketDepth false w2))
                = request_unless_valid (DEPTH (storage w2)) (now w2)
                    "https://data.openfacet.net/depth.json" ++ requests w2).
  { rewrite fetchMarketDepth_run. cbv zeta. unfold request_unless_valid.
    destruct (cache_hit _ _ _); [reflexivity|].
    destruct (depth_json (network w2)), (DEPTH (storage w2)); reflexivity. }
  rewrite Hr3, Hr2, Hr1, Hd2, Hn2, Hd1, Hi1, Hn1. reflexivity.
Qed.

End QuoteWorld.

Lemma quote_rejection_causes_witness :
  fst (Faulty.calculateDiamondPrice (rt := Sample.runtime)
         1 "D" "Oval" (Some "VS2") Cases.corrupt_matrix)
    = Throw (PricingFailed JsonSyntaxError) /\
  exists cause,
    PricingFailed JsonSyntaxError = PricingFailed cause /\
    (cause = NoCachedData "price matrix" \/
     cause = NoCachedData "DCX index" \/
     cause = NoCachedData "market depth" \/
     grid_error cause = true \/
     (cause = StorageRejected "getItem" /\
      Faulty.getItem_rejects (Faulty.faults Cases.corrupt_matrix) = true) \/
     (cause = JsonSyntaxError /\
      Faulty.getItem_rejects (Faulty.faults Cases.corrupt_matrix) = false /\
      (Faulty.unparsable_MATRIX (Faulty.faults Cases.corrupt_matrix) = true
       \/ Faulty.unparsable_INDEX (Faulty.faults Cases.corrupt_matrix)
           = true
       \/ Faulty.unparsable_DEPTH (Faulty.faults Cases.corrupt_matrix)
           = true))).
Proof.
  assert (Hq : fst (Faulty.calculateDiamondPrice (rt := Sample.runtime)
                      1 "D" "Oval" (Some "VS2") Cases.corrupt_matrix)
               = Throw (PricingFailed JsonSyntaxError))
    by (vm_compute; reflexivity).
  split; [exact Hq|].
  exact (quote_rejection_causes (rt := Sample.runtime)
           1 "D" (Some "VS2") "Oval" Cases.corrupt_matrix _ Hq).
Defined.

Lemma quote_from_valid_cache_witness :
  (now Sample.world_valid_offline < 0 + 86400000)%Z /\
  snd (calculateDiamondPrice (rt := Sample.runtime)
         1 "D" "Oval" (Some "VS2") Sample.world_valid_offline)
  = Sample.world_valid_offline.
Proof.
  assert (Ht : (now Sample.world_valid_offline < 0 + 86400000)%Z)
    by (cbn; lia).
  split; [exact Ht|].
  exact (f_equal snd
           (quote_from_valid_cache (rt := Sample.runtime)
              1 "D" (Some "VS2") "Oval" Sample.world_valid_offline
              (Sample.entry Sample.grid 0) (Sample.entry Sample.index 0)
              (Sample.entry Sample.depth 0)
              eq_refl Ht eq_refl Ht eq_refl Ht)).
Defined.

(** ** Cache control *)

Lemma getCacheStatus_run (w : World) :
  getCacheStatus w =
  (Ok {| CacheStatus.matrix := slotStatus (MATRIX (storage w)) (now w);
         CacheStatus.index := slotStatus (INDEX (storage w)) (now w);
         CacheStatus.depth := slotStatus (DEPTH (storage w)) (now w) |},
   w).
Proof.
  destruct w as [[m i d] t net reqs].
  destruct m, i, d;
    cbv beta iota zeta delta
      [getCacheStatus bind ret getItem_MATRIX getItem_INDEX getItem_DEPTH
       statusOf slotStatus Date_now Num.Math_floor storage now
       MATRIX INDEX DEPTH];
    change (60 * 60 * 1000)%Z with 3600000%Z;
    rewrite <- ?Zdiv_Qdiv; reflexivity.
Qed.

Lemma clearPricingCache_run (w : World) :
  clearPricingCache w =
  (Ok tt, {| storage := {| MATRIX := None; INDEX := None; DEPTH := None |};
             now := now w; network := network w; requests := requests w |}).
Proof. reflexivity. Qed.

Lemma not_own_tail {A} (x : A) (xs : list A) : xs <> x :: xs.
Proof.
  intro H. apply (f_equal (@length A)) in H. cbn in H. lia.
Qed.

Lemma hours_below_24 (elapsed : Z) :
  (elapsed / 3600000 < 24)%Z <-> (elapsed < 24 * 60 * 60 * 1000)%Z.
Proof.
  split; intro H.
  - destruct (Z.lt_ge_cases elapsed (24 * 60 * 60 * 1000)) as [|Hge];
      [assumption|].
    assert (24 <= elapsed / 3600000)%Z
      by (apply Z.div_le_lower_bound; lia).
    lia.
  - apply Z.div_lt_upper_bound; lia.
Qed.

Ltac age_validity run :=
  let E := fresh "E" in
  intros w body t' Hbody w1;
  pose proof (run true w) as E; cbv zeta in E;
  unfold cache_hit in E; cbv beta iota in E; rewrite Hbody in E;
  apply (f_equal snd) in E; cbn [snd] in E;
  unfold w1; rewrite E; clear E w1;
  rewrite getCacheStatus_run; eexists; split; [reflexivity|];
  cbn [CacheStatus.matrix CacheStatus.index CacheStatus.depth slotStatus
       at_time storage now MATRIX INDEX DEPTH freshEntry timestamp
       CacheStatus.cached CacheStatus.age];
  split; [reflexivity|]; split; [reflexivity|];
  rewrite hours_below_24, run; cbv zeta; unfold cache_hit, freshEntry;
  cbn [storage now network requests at_time MATRIX INDEX DEPTH expiresAt
       data];
  destruct (Z.ltb_spec t' (now w + 24 * 60 * 60 * 1000));
  [ split; [reflexivity|lia]
  | rewrite Hbody; split; [lia|];
    let Heq := fresh "Heq" in
    intro Heq; apply (f_equal (fun p => requests (snd p))) in Heq;
    cbn [requests snd requested] in Heq; symmetry in Heq;
    exact (False_ind _ (not_own_tail _ _ Heq)) ].

(** X20. The status and the fetchers agree on what a fetcher stored: at
    any later reading of the clock [getCacheStatus] reports the entry as
    cached, with the whole hours since the fetch as its age, and the
    fetcher serves the entry without a request exactly when that age is
    below 24. *)
Theorem status_age_tells_validity :
  age_tells_validity fetchPriceMatrix matrix_json CacheStatus.matrix /\
  age_tells_validity fetchDCXIndex index_json CacheStatus.index /\
  age_tells_validity fetchMarketDepth depth_json CacheStatus.depth.
Proof.
  split; [|split].
  - age_validity fetchPriceMatrix_run.
  - age_validity fetchDCXIndex_run.
  - age_validity fetchMarketDepth_run.
Qed.

Lemma status_age_tells_validity_witness :
  matrix_json (network Sample.world_stale_online) = Json Sample.grid /\
  exists status,
    fst (getCacheStatus
           (at_time 190000000
              (snd (fetchPriceMatrix true Sample.world_stale_online))))
      = Ok status /\
    CacheStatus.age (CacheStatus.matrix status) = Some 25%Z.
Proof.
  assert (Hbody : matrix_json (network Sample.world_stale_online)
                  = Json Sample.grid) by reflexivity.
  split; [exact Hbody|].
  destruct (proj1 status_age_tells_validity
              Sample.world_stale_online Sample.grid 190000000%Z Hbody)
    as (status & Hstatus & _ & Hage & _).
  exists status. split; [now rewrite Hstatus|exact Hage].
Defined.

(** X21. After [clearPricingCache] nothing is cached: the call succeeds
    and touches the storage only, the status reports the three slots as
    not cached and without age, clearing again changes nothing, and a
    fetch whose request fails rejects for want of stored data (forced or
    not). So does the quote when the matrix request fails, with the
    error of a dataset whose request failed: that of the matrix when the
    matrix fetcher is rejected no later than the other two. *)
Theorem cleared_cache_holds_nothing {rt : JsRuntime} (w : World) :
  let w' := snd (clearPricingCache w) in
  let nothing :=
    {| CacheStatus.cached := false; CacheStatus.age := None |} in
  fst (clearPricingCache w) = Ok tt /\
  (now w' = now w /\ network w' = network w /\ requests w' = requests w) /\
  getCacheStatus w' =
    (Ok {| CacheStatus.matrix := nothing; CacheStatus.index := nothing;
           CacheStatus.depth := nothing |}, w') /\
  clearPricingCache w' = (Ok tt, w') /\
  (forall forceRefresh,
     (failed (matrix_json (network w)) = true ->
      fst (fetchPriceMatrix forceRefresh w')
        = Throw (NoCachedData "price matrix")) /\
     (failed (index_json (network w)) = true ->
      fst (fetchDCXIndex forceRefresh w')
        = Throw (NoCachedData "DCX index")) /\
     (failed (depth_json (network w)) = true ->
      fst (fetchMarketDepth forceRefresh w')
        = Throw (NoCachedData "market depth"))) /\
  (forall caratWeight colorGrade shape clarityGrade,
     failed (matrix_json (network w)) = true ->
     exists what,
       fst (calculateDiamondPrice caratWeight colorGrade shape
              clarityGrade w')
         = Throw (PricingFailed (NoCachedData what)) /\
       (what = "price matrix" \/
        (what = "DCX index" /\ failed (index_json (network w)) = true) \/
        (what = "market depth" /\
         failed (depth_json (network w)) = true)) /\
       ((settles (network w) 0 <= settles (network w) 1)%nat ->
        (settles (network w) 0 <= settles (network w) 2)%nat ->
        what = "price matrix")).
Proof.
  intros w' nothing. unfold w'. rewrite clearPricingCache_run. cbn [fst snd].
  split; [reflexivity|]. split; [now repeat split|].
  split; [now rewrite getCacheStatus_run|]. split; [reflexivity|]. split.
  - intro forceRefresh. split; [|split]; intro Hfail.
    + now rewrite without_data_matrix.
    + now rewrite without_data_index.
    + now rewrite without_data_depth.
  - intros caratWeight colorGrade shape clarityGrade Hfail.
    set (cleared := {| storage := _; now := now w; network := network w;
                       requests := requests w |}).
    destruct (quote_without_matrix caratWeight colorGrade shape
                clarityGrade cleared Hfail eq_refl)
      as (what & Hquote & Hwhat).
    exists what. split; [exact Hquote|]. split.
    + destruct Hwhat as [->|[(-> & Hi & _)|(-> & Hd & _)]]; auto.
    + intros H1 H2.
      pose proof (quote_without_matrix_first caratWeight colorGrade shape
                    clarityGrade cleared Hfail eq_refl H1 H2) as Hfirst.
      rewrite Hquote in Hfirst. now injection Hfirst.
Qed.

Lemma cleared_cache_holds_nothing_witness :
  failed (matrix_json (network Sample.world_valid_offline)) = true /\
  fst (calculateDiamondPrice (rt := Sample.runtime)
         1 "D" "Oval" (Some "VS2")
         (snd (clearPricingCache Sample.world_valid_offline)))
  = Throw (PricingFailed (NoCachedData "price matrix")).
Proof.
  assert (Hfail : failed (matrix_json (network Sample.world_valid_offline))
                  = true) by reflexivity.
  split; [exact Hfail|].
  destruct (proj2 (proj2 (proj2 (proj2 (proj2
              (cleared_cache_holds_nothing (rt := Sample.runtime)
                 Sample.world_valid_offline)))))
              1 "D" "Oval" (Some "VS2") Hfail)
    as (what & Hquote & _ & Hfirst).
  rewrite Hquote, (Hfirst (Nat.le_succ_diag_r 0) (Nat.le_0_l 2)).
  reflexivity.
Defined.

(** ** Letter case *)

Lemma lower_upper_char (ch : ascii) :
  Str.lower_char (Str.upper_char ch) = Str.lower_char ch.
Proof. destruct ch as [[] [] [] [] [] [] [] []]; reflexivity. Qed.

Lemma lower_lower_char (ch : ascii) :
  Str.lower_char (Str.lower_char ch) = Str.lower_char ch.
Proof. destruct ch as [[] [] [] [] [] [] [] []]; reflexivity. Qed.

Lemma upper_upper_char (ch : ascii) :
  Str.upper_char (Str.upper_char ch) = Str.upper_char ch.
Proof. destruct ch as [[] [] [] [] [] [] [] []]; reflexivity. Qed.

Lemma upper_lower_char (ch : ascii) :
  Str.upper_char (Str.lower_char ch) = Str.upper_char ch.
Proof. destruct ch as [[] [] [] [] [] [] [] []]; reflexivity. Qed.

Lemma map_chars_compose (f g h : ascii -> ascii) (s : string) :
  (forall ch, f (g ch) = h ch) ->
  Str.map_chars f (Str.map_chars g s) = Str.map_chars h s.
Proof.
  intro Hfg. induction s as [|ch s IH]; cbn; [reflexivity|].
  now rewrite Hfg, IH.
Qed.

(** X22. The shape category does not depend on the letter case of the
    shape: upper-casing or lower-casing the shape gives the same
    category, which is [round] exactly when the lower-cased shape is
    ["round"] or ["brilliant"]. *)
Theorem mapShapeToPricingCategory_ignores_case (shape : string) :
  mapShapeToPricingCategory (Str.toUpperCase shape)
    = mapShapeToPricingCategory shape /\
  mapShapeToPricingCategory (Str.toLowerCase shape)
    = mapShapeToPricingCategory shape /\
  (mapShapeToPricingCategory shape = round <->
   Str.toLowerCase shape = "round" \/ Str.toLowerCase shape = "brilliant").
Proof.
  unfold mapShapeToPricingCategory, Str.toUpperCase, Str.toLowerCase.
  rewrite (map_chars_compose _ _ _ shape lower_upper_char).
  rewrite (map_chars_compose _ _ _ shape lower_lower_char).
  split; [reflexivity|]. split; [reflexivity|].
  destruct (String.eqb_spec (Str.map_chars Str.lower_char shape) "round")
    as [->|Hr]; cbn.
  { split; [now left|reflexivity]. }
  destruct (String.eqb_spec (Str.map_chars Str.lower_char shape) "brilliant")
    as [->|Hb]; cbn.
  { split; [now right|reflexivity]. }
  split; [discriminate|]. intros [H|H]; contradiction.
Qed.

(** X23. A colour grade of one character is normalised without regard
    to its case, with or without row labels. *)
Theorem normalizeColorGrade_letter_ignores_case
    (ch : ascii) (availableGrades : option (list string)) :
  let grade := String ch EmptyString in
  normalizeColorGrade (Str.toLowerCase grade) availableGrades
    = normalizeColorGrade grade availableGrades /\
  normalizeColorGrade (Str.toUpperCase grade) availableGrades
    = normalizeColorGrade grade availableGrades.
Proof.
  cbn zeta. unfold normalizeColorGrade.
  change (Str.toLowerCase (String ch EmptyString))
    with (String (Str.lower_char ch) EmptyString).
  change (Str.toUpperCase (String ch EmptyString))
    with (String (Str.upper_char ch) EmptyString).
  rewrite !colorMap_single_char.
  change (Str.toUpperCase (String (Str.lower_char ch) EmptyString))
    with (String (Str.upper_char (Str.lower_char ch)) EmptyString).
  change (Str.toUpperCase (String (Str.upper_char ch) EmptyString))
    with (String (Str.upper_char (Str.upper_char ch)) EmptyString).
  change (Str.toUpperCase (String ch EmptyString))
    with (String (Str.upper_char ch) EmptyString).
  rewrite upper_lower_char, upper_upper_char. split; reflexivity.
Qed.

(** ** Scan history *)

Lemma loadHistory_run (st : History.Store) :
  History.loadHistory st = (History.Returned (History.loaded st), st).
Proof.
  unfold History.loadHistory, History.try_catch, History.bind,
    History.getItem, History.JSON_parse, History.ret, History.throw,
    History.loaded.
  destruct (History.readable st); [|reflexivity].
  destruct (History.held st); reflexivity.
Qed.

Lemma saveHistory_run (history : list History.HistoryItem)
    (st : History.Store) :
  History.saveHistory history st =
  if History.writable st
  then (History.Returned tt, History.put (History.Written history) st)
  else (History.Thrown History.SetItemRejected, st).
Proof.
  unfold History.saveHistory, History.try_catch, History.setItem,
    History.throw.
  destruct (History.writable st); reflexivity.
Qed.

Lemma removeHistoryItem_run (itemId : string) (st : History.Store) :
  History.removeHistoryItem itemId st =
  if History.writable st
  then (History.Returned tt,
        History.put
          (History.Written (History.without itemId (History.loaded st))) st)
  else (History.Thrown History.SetItemRejected, st).
Proof.
  unfold History.removeHistoryItem, History.try_catch at 1, History.bind.
  rewrite loadHistory_run, saveHistory_run.
  destruct (History.writable st); reflexivity.
Qed.

Lemma without_in (itemId : string) (history : list History.HistoryItem)
    (item : History.HistoryItem) :
  In item (History.without itemId history) <->
  In item history /\ History.id item <> itemId.
Proof.
  unfold History.without. rewrite List.filter_In, negb_true_iff.
  split; intros [Hin Hid]; (split; [exact Hin|]).
  - intro Heq. rewrite Heq, String.eqb_refl in Hid. discriminate Hid.
  - now apply String.eqb_neq.
Qed.

Lemma without_twice (itemId : string) (history : list History.HistoryItem) :
  History.without itemId (History.without itemId history)
  = History.without itemId history.
Proof.
  unfold History.without. induction history as [|item history IH];
    [reflexivity|].
  cbn. destruct (negb (String.eqb (History.id item) itemId)) eqn:E; cbn.
  - now rewrite E, IH.
  - exact IH.
Qed.

Lemma without_sublist (itemId : string)
    (history : list History.HistoryItem) :
  sublist (History.without itemId history) history.
Proof.
  unfold History.without. induction history as [|item history IH]; cbn.
  - constructor.
  - destruct (negb _); now constructor.
Qed.

(** X24. On a storage that reads and writes, a history that is saved is
    the history that is loaded, and after [clearHistory] the empty
    history is loaded. *)
Theorem history_round_trip (history : list History.HistoryItem)
    (st : History.Store) :
  History.readable st = true -> History.writable st = true ->
  let saved := snd (History.saveHistory history st) in
  let cleared := snd (History.clearHistory saved) in
  fst (History.saveHistory history st) = History.Returned tt /\
  History.loadHistory saved = (History.Returned history, saved) /\
  fst (History.clearHistory saved) = History.Returned tt /\
  History.loadHistory cleared = (History.Returned [], cleared).
Proof.
  intros Hr Hw saved cleared. unfold cleared, saved.
  rewrite saveHistory_run, Hw. cbn [fst snd].
  unfold History.clearHistory, History.try_catch, History.removeItem.
  cbn [History.put History.writable]. rewrite Hw. cbn [fst snd].
  rewrite !loadHistory_run. unfold History.loaded.
  cbn [History.put History.readable History.held]. rewrite Hr.
  repeat split.
Qed.

(** X25. On a storage that reads and writes, [removeHistoryItem] leaves
    exactly the items with another id, in their order: an item is loaded
    afterwards if and only if it was loaded before and has another id;
    removing the same id again changes nothing. *)
Theorem removeHistoryItem_removes (itemId : string) (st : History.Store) :
  History.readable st = true -> History.writable st = true ->
  let st' := snd (History.removeHistoryItem itemId st) in
  fst (History.removeHistoryItem itemId st) = History.Returned tt /\
  History.loaded st' = History.without itemId (History.loaded st) /\
  (forall item,
     In item (History.loaded st') <->
     In item (History.loaded st) /\ History.id item <> itemId) /\
  sublist (History.loaded st') (History.loaded st) /\
  History.removeHistoryItem itemId st' = (History.Returned tt, st').
Proof.
  intros Hr Hw st'. unfold st'.
  rewrite removeHistoryItem_run, Hw. cbn [fst snd].
  assert (Hloaded :
    History.loaded
      (History.put
         (History.Written (History.without itemId (History.loaded st))) st)
    = History.without itemId (History.loaded st)).
  { unfold History.loaded at 1.
    cbn [History.put History.readable History.held]. now rewrite Hr. }
  split; [reflexivity|]. split; [exact Hloaded|]. split; [|split].
  - intro item. rewrite Hloaded. apply without_in.
  - rewrite Hloaded. apply without_sublist.
  - rewrite removeHistoryItem_run.
    cbn [History.put History.writable]. rewrite Hw, Hloaded, without_twice.
    reflexivity.
Qed.

(** X26. When the history cannot be read (the read is rejected, or the
    text held does not parse) and the storage writes, [removeHistoryItem]
    reports success and leaves the empty history in the storage,
    whatever the id and whatever was held. *)
Theorem removeHistoryItem_after_failed_read (itemId : string)
    (st : History.Store) :
  History.readable st = false \/ History.held st = History.Unparsable ->
  History.writable st = true ->
  History.removeHistoryItem itemId st =
  (History.Returned tt, History.put (History.Written []) st).
Proof.
  intros Hread Hw. rewrite removeHistoryItem_run, Hw.
  assert (Hloaded : History.loaded st = []).
  { unfold History.loaded. destruct Hread as [-> | ->]; [reflexivity|].
    now destruct (History.readable st). }
  now rewrite Hloaded.
Qed.

(** X27. [loadHistory] never rejects and never changes the storage. On a
    storage that does not write, [saveHistory], [clearHistory] and
    [removeHistoryItem] reject and leave the storage as it is. *)
Theorem history_on_failing_storage (st : History.Store) :
  (exists history, History.loadHistory st = (History.Returned history, st)) /\
  (History.writable st = false ->
   (forall history,
      History.saveHistory history st
      = (History.Thrown History.SetItemRejected, st)) /\
   History.clearHistory st = (History.Thrown History.RemoveItemRejected, st) /\
   (forall itemId,
      History.removeHistoryItem itemId st
      = (History.Thrown History.SetItemRejected, st))).
Proof.
  split; [eexists; apply loadHistory_run|].
  intro Hw. split; [|split].
  - intro history. now rewrite saveHistory_run, Hw.
  - unfold History.clearHistory, History.try_catch, History.removeItem,
      History.throw. now rewrite Hw.
  - intro itemId. now rewrite removeHistoryItem_run, Hw.
Qed.

Lemma history_round_trip_witness :
  History.readable (Cases.healthy History.Absent) = true /\
  History.writable (Cases.healthy History.Absent) = true /\
  fst (History.loadHistory
         (snd (History.saveHistory Cases.scans
                 (Cases.healthy History.Absent))))
  = History.Returned Cases.scans.
Proof.
  assert (Hr : History.readable (Cases.healthy History.Absent) = true)
    by reflexivity.
  assert (Hw : History.writable (Cases.healthy History.Absent) = true)
    by reflexivity.
  split; [exact Hr|]. split; [exact Hw|].
  destruct (history_round_trip Cases.scans (Cases.healthy History.Absent)
              Hr Hw) as (_ & Hload & _).
  now rewrite Hload.
Defined.

Lemma removeHistoryItem_removes_witness :
  History.readable (Cases.healthy (History.Written Cases.scans)) = true /\
  History.writable (Cases.healthy (History.Written Cases.scans)) = true /\
  History.loaded
    (snd (History.removeHistoryItem "2"
            (Cases.healthy (History.Written Cases.scans))))
  = History.without "2" Cases.scans.
Proof.
  assert (Hr : History.readable
                 (Cases.healthy (History.Written Cases.scans)) = true)
    by reflexivity.
  assert (Hw : History.writable
                 (Cases.healthy (History.Written Cases.scans)) = true)
    by reflexivity.
  split; [exact Hr|]. split; [exact Hw|].
  exact (proj1 (proj2 (removeHistoryItem_removes "2"
                         (Cases.healthy (History.Written Cases.scans))
                         Hr Hw))).
Defined.

Lemma removeHistoryItem_after_failed_read_witness :
  (History.readable (Cases.healthy History.Unparsable) = false \/
   History.held (Cases.healthy History.Unparsable) = History.Unparsable) /\
  History.writable (Cases.healthy History.Unparsable) = true /\
  History.removeHistoryItem "2" (Cases.healthy History.Unparsable)
  = (History.Returned tt, Cases.healthy (History.Written [])).
Proof.
  assert (Hread :
    History.readable (Cases.healthy History.Unparsable) = false \/
    History.held (Cases.healthy History.Unparsable) = History.Unparsable)
    by (right; reflexivity).
  assert (Hw : History.writable (Cases.healthy History.Unparsable) = true)
    by reflexivity.
  split; [exact Hread|]. split; [exact Hw|].
  exact (removeHistoryItem_after_failed_read "2"
           (Cases.healthy History.Unparsable) Hread Hw).
Defined.

Lemma history_on_failing_storage_witness :
  History.writable (Cases.read_only (History.Written Cases.scans)) = false /\
  History.removeHistoryItem "2"
    (Cases.read_only (History.Written Cases.scans))
  = (History.Thrown History.SetItemRejected,
     Cases.read_only (History.Written Cases.scans)).
Proof.
  assert (Hw : History.writable
                 (Cases.read_only (History.Written Cases.scans)) = false)
    by reflexivity.
  split; [exact Hw|].
  exact (proj2 (proj2 (proj2 (history_on_failing_storage
                                (Cases.read_only
                                   (History.Written Cases.scans))) Hw))
           "2").
Defined.

(** ** The pricing thunk and the slice *)

Lemma clarity_for_pricing (clarityCategory : option string) :
  In (Str.or_else (mapClarityToGIA clarityCategory) DEFAULT_CLARITY)
     ["VVS2"; "VS2"; "SI2"].
Proof.
  unfold mapClarityToGIA, DEFAULT_CLARITY.
  destruct clarityCategory as [category|]; [|cbn; tauto].
  destruct (String.eqb category ""); [cbn; tauto|].
  destruct (clarityMap !! category) as [grade|] eqn:E; [|cbn; tauto].
  unfold clarityMap in E. apply elem_of_list_to_map_2 in E.
  rewrite !elem_of_cons, elem_of_nil in E.
  destruct E as [E|[E|[E|[]]]]; injection E as _ ->; cbn; tauto.
Qed.

Lemma reported_throw {A} (body : Result A) (e : JsError) :
  reported body = Throw e -> exists cause, e = PricingFailed cause.
Proof.
  destruct body as [a|cause]; cbn; [discriminate|].
  intros [= <-]. now exists cause.
Qed.

(** X28. The pricing thunk never throws. It rejects with its own
    message, and without touching the world, when the carat weight, the
    colour or the shape is missing, tested in that order; otherwise it
    asks for a quote with the weight, colour and shape of the slice, and
    rejects with the wrapped message of the service or returns a quote
    whose clarity is ["VVS2"], ["VS2"] or ["SI2"]. *)
Theorem fetchDiamondPrice_outcome {rt : JsRuntime}
    (state : DiamondState) (w : World) :
  match fetchDiamondPrice state w with
  | (RejectedWithValue (Message text), w') =>
      w' = w /\
      ((caratPrediction state = None /\
        text = "Carat weight is required for pricing") \/
       (caratPrediction state <> None /\ colorPrediction state = None /\
        text = "Color grade is required for pricing") \/
       (caratPrediction state <> None /\ colorPrediction state <> None /\
        shapeDetection state = None /\
        text = "Shape detection is required for pricing"))
  | (RejectedWithValue (MessageOf e), w') =>
      (exists cause, e = PricingFailed cause) /\
      caratPrediction state <> None /\ colorPrediction state <> None /\
      shapeDetection state <> None
  | (Fulfilled quote, w') =>
      exists carat colour detected det,
        caratPrediction state = Some carat /\
        colorPrediction state = Some colour /\
        shapeDetection state = Some detected /\
        _details quote = Some det /\
        In (clarityUsed det) ["VVS2"; "VS2"; "SI2"] /\
        shapeUsed det
          = mapShapeToPricingCategory (ShapeDetection.shape detected) /\
        (clarityPrediction state = None -> clarityUsed det = "VS2")
  end.
Proof.
  unfold fetchDiamondPrice.
  destruct (caratPrediction state) as [carat|];
    [|split; [reflexivity|now left]].
  destruct (colorPrediction state) as [colour|];
    [|split; [reflexivity|right; left; now repeat split]].
  destruct (shapeDetection state) as [detected|];
    [|split; [reflexivity|right; right; now repeat split]].
  destruct (calculateDiamondPrice _ _ _ _ w) as [[quote|e] w'] eqn:Erun.
  - apply (f_equal fst) in Erun. cbn [fst] in Erun.
    apply calculateDiamondPrice_ok in Erun as (m & i & d & _ & _ & _ & Hq).
    apply priceFromData_ok in Hq as (b1 & b2 & lp1 & lp2 & _ & _ & _ & ->).
    exists carat, colour, detected. eexists.
    split; [reflexivity|]. split; [reflexivity|]. split; [reflexivity|].
    split; [reflexivity|]. cbn [clarityUsed shapeUsed].
    split; [apply clarity_for_pricing|]. split; [reflexivity|].
    now intros ->.
  - apply (f_equal fst) in Erun. cbn [fst] in Erun.
    rewrite calculateDiamondPrice_outcome in Erun.
    apply reported_throw in Erun. now repeat split.
Qed.

Lemma pricingReducer_consistent (state : DiamondState)
    (action : PricingAction) :
  pricing_consistent (pricingReducer state action).
Proof.
  destruct action; unfold pricing_consistent; cbn; intro H;
    solve [now split | contradiction].
Qed.

Lemma pricingReducer_frame (state : DiamondState) (action : PricingAction) :
  set_pricing (pricingReducer state action) (pricingData state)
    (isPricingLoading state) (pricingError state) = state.
Proof. destruct state, action; reflexivity. Qed.

Lemma set_pricing_twice (state : DiamondState)
    (data1 data2 : option DiamondPriceQuote) (loading1 loading2 : bool)
    (error1 error2 : option string) :
  set_pricing (set_pricing state data1 loading1 error1) data2 loading2 error2
  = set_pricing state data2 loading2 error2.
Proof. reflexivity. Qed.

(** X29. Whatever pricing actions the slice reduces, in whatever order,
    its pricing fields stay consistent (an error is shown only without a
    quote and not while loading), every other field keeps its value, and
    a quote that is shown is the payload of a fulfilled action that was
    reduced or the quote shown at the start. *)
Theorem pricing_fields_stay_consistent
    (state : DiamondState) (actions : list PricingAction) :
  pricing_consistent state ->
  let state' := fold_left pricingReducer actions state in
  pricing_consistent state' /\
  set_pricing state' (pricingData state) (isPricingLoading state)
    (pricingError state) = state /\
  (forall quote,
     pricingData state' = Some quote ->
     pricingData state = Some quote \/
     In (fetchDiamondPrice_fulfilled quote) actions).
Proof.
  revert state. induction actions as [|action actions IH];
    intros state Hstate; cbn.
  - split; [exact Hstate|]. split; [now destruct state|]. intros q Hq.
    now left.
  - destruct (IH (pricingReducer state action)
                (pricingReducer_consistent state action))
      as (Hcons & Hframe & Hquote).
    split; [exact Hcons|]. split.
    + set (reduced := pricingReducer state action) in *.
      rewrite <- (set_pricing_twice _ (pricingData reduced) _
                    (isPricingLoading reduced) _ (pricingError reduced)).
      rewrite Hframe. apply pricingReducer_frame.
    + intros q Hq. destruct (Hquote q Hq) as [Hnow|Hlater].
      * destruct action; cbn in Hnow; try discriminate.
        -- now left.
        -- injection Hnow as ->. right. now left.
      * right. now right.
Qed.

Lemma pricing_fields_stay_consistent_witness :
  pricing_consistent Cases.after_rejection /\
  pricing_consistent
    (fold_left pricingReducer
       [fetchDiamondPrice_pending; clearPricingData;
        fetchDiamondPrice_rejected "Failed to calculate price"]
       Cases.after_rejection).
Proof.
  assert (Hstart : pricing_consistent Cases.after_rejection)
    by (intros _; split; reflexivity).
  split; [exact Hstart|].
  exact (proj1 (pricing_fields_stay_consistent Cases.after_rejection
                  [fetchDiamondPrice_pending; clearPricingData;
                   fetchDiamondPrice_rejected "Failed to calculate price"]
                  Hstart)).
Defined.

(** ** Price estimate from the cut grade *)

Lemma hundreds_le (x y : Q) :
  x <= y ->
  inject_Z (Num.Math_round (x / 100)) * 100
  <= inject_Z (Num.Math_round (y / 100)) * 100.
Proof.
  intro Hxy.
  assert (Hz : (Num.Math_round (x / 100) <= Num.Math_round (y / 100))%Z).
  { apply Math_round_le. unfold Qdiv. change (/ 100) with (1 # 100). lra. }
  rewrite Zle_Qle in Hz. lra.
Qed.

Lemma toUpperCase_toLowerCase (s : string) :
  Str.toUpperCase (Str.toLowerCase s) = Str.toUpperCase s.
Proof. apply map_chars_compose, upper_lower_char. Qed.

(** X30. For confidences in order between 0 and 100 the estimate is a
    whole number of hundreds between 1500 and 10000, does not fall when
    the confidence rises, and does not depend on the letter case of the
    cut grade. *)
Theorem calculateEstimatedPrice_bounds
    (cutGrade : string) (confidence1 confidence2 : Q) :
  0 <= confidence1 -> confidence1 <= confidence2 -> confidence2 <= 100 ->
  1500 <= calculateEstimatedPrice cutGrade confidence1 /\
  calculateEstimatedPrice cutGrade confidence1
    <= calculateEstimatedPrice cutGrade confidence2 /\
  calculateEstimatedPrice cutGrade confidence2 <= 10000 /\
  calculateEstimatedPrice (Str.toLowerCase cutGrade) confidence1
    = calculateEstimatedPrice cutGrade confidence1 /\
  exists hundreds : Z,
    calculateEstimatedPrice cutGrade confidence1 = inject_Z hundreds * 100.
Proof.
  intros H0 H12 H100. unfold calculateEstimatedPrice.
  rewrite toUpperCase_toLowerCase.
  set (grade := Str.toUpperCase cutGrade).
  assert (Hlow : forall base, 1500 <= base ->
            1500 <= inject_Z (Num.Math_round (base / 100)) * 100).
  { intros base Hbase.
    apply (Qle_trans _ (inject_Z (Num.Math_round (1500 / 100)) * 100));
      [qclosed|now apply hundreds_le]. }
  assert (Hhigh : forall base, base <= 10000 ->
            inject_Z (Num.Math_round (base / 100)) * 100 <= 10000).
  { intros base Hbase.
    apply (Qle_trans _ (inject_Z (Num.Math_round (10000 / 100)) * 100));
      [now apply hundreds_le|qclosed]. }
  destruct (includes grade "EX"); [|destruct (includes grade "VG");
    [|destruct (includes grade "GD" || includes grade "GOOD")%bool;
      [|destruct (includes grade "F" || includes grade "FAIR")%bool]]];
    (split; [apply Hlow; lra|]);
    (split; [apply hundreds_le; lra|]);
    (split; [apply Hhigh; lra|]);
    (split; [reflexivity|eexists; reflexivity]).
Qed.

Lemma calculateEstimatedPrice_bounds_witness :
  0 <= 60 /\ 60 <= 90 /\ 90 <= 100 /\
  calculateEstimatedPrice "Very Good" 60
    <= calculateEstimatedPrice "Very Good" 90.
Proof.
  assert (H1 : 0 <= 60) by (intro H; discriminate H).
  assert (H2 : 60 <= 90) by (intro H; discriminate H).
  assert (H3 : 90 <= 100) by (intro H; discriminate H).
  split; [exact H1|]. split; [exact H2|]. split; [exact H3|].
  exact (proj1 (proj2 (calculateEstimatedPrice_bounds "Very Good" 60 90
                         H1 H2 H3))).
Defined.
